(** * kdp.processor: the preprocessing-model assembly engine

    A shallow embedding of [src/kdp/processor.py]: the feature-space
    normaliser ([FeatureSpaceConverter]), the per-feature pipeline builders,
    the cross builder, the fan-out/fan-in scheduler, the output fusion stage
    and the save/load surface of [PreprocessingModel].

    Python values are modelled by [PyVal], exceptions by the error monad
    [Res], dictionaries by insertion-ordered association lists ([dict]),
    and the Keras graph constructors by the interface [Keras]. *)

From Stdlib Require Import String Ascii List Bool Arith ZArith QArith Lia.
From Stdlib Require Import Decimal DecimalString.
From Stdlib Require Import Permutation.
Import ListNotations.
Set Warnings "-register-all".
Close Scope Q_scope.
Open Scope string_scope.
Open Scope list_scope.

(* ===================================================================== *)
(** ** Python preliminaries *)
(* ===================================================================== *)

Module Py.

(** The exceptions the module can raise, with their payload. *)
Inductive Exc : Type :=
| KeyError (key : string)
| ValueError (msg : string)
| AttributeError (attr : string)
| TypeError (msg : string)
| IndexError (msg : string).

(** A computation either returns or raises. *)
Inductive Res (A : Type) : Type :=
| Ok (a : A)
| Raise (e : Exc).
Arguments Ok {A} a.
Arguments Raise {A} e.

Definition bind {A B : Type} (c : Res A) (k : A -> Res B) : Res B :=
  match c with
  | Ok a => k a
  | Raise e => Raise e
  end.

(** Python objects that flow through statistics and keyword configuration.
    [VDType n] is the TensorFlow dtype object whose [.name] is [n];
    [VObj r] is any other object (not JSON-native), known by its repr. *)
Inductive PyVal : Type :=
| VNone
| VBool (b : bool)
| VInt (z : Z)
| VFloat (q : Q)
| VStr (s : string)
| VList (l : list PyVal)
| VTuple (l : list PyVal)
| VDict (kvs : list (string * PyVal))
| VDType (name : string)
| VObj (repr : string).

(** [tf.string] *)
Definition tf_string : PyVal := VDType "string".

(** Truthiness, as used by [x or y] and [if x]. *)
Definition truthy (v : PyVal) : bool :=
  match v with
  | VNone => false
  | VBool b => b
  | VInt z => negb (Z.eqb z 0)
  | VFloat q => negb (Qeq_bool q 0%Q)
  | VStr s => negb (String.eqb s "")
  | VList l | VTuple l => negb (Nat.eqb (List.length l) 0)
  | VDict kvs => negb (Nat.eqb (List.length kvs) 0)
  | VDType _ | VObj _ => true
  end.

(** [len(v)]: defined on sized objects only. *)
Definition len (v : PyVal) : Res nat :=
  match v with
  | VStr s => Ok (String.length s)
  | VList l | VTuple l => Ok (List.length l)
  | VDict kvs => Ok (List.length kvs)
  | _ => Raise (TypeError "object has no len()")
  end.


(** [str.upper] on the ASCII letters. Python's upper-casing is
    Unicode-aware: [upper] below is [str.upper] on strings for which
    [isascii] holds. *)
Definition upper_ascii (c : ascii) : ascii :=
  let n := nat_of_ascii c in
  if andb (Nat.leb 97 n) (Nat.leb n 122) then ascii_of_nat (n - 32) else c.

Fixpoint upper (s : string) : string :=
  match s with
  | EmptyString => EmptyString
  | String c s' => String (upper_ascii c) (upper s')
  end.

(** [str(n)] for a natural number. *)
Definition str_of_nat (n : nat) : string := NilEmpty.string_of_uint (Nat.to_uint n).

End Py.
Export Py.

Declare Scope res_scope.
Delimit Scope res_scope with res.
Notation "x <- c ;; k" := (bind c (fun x => k))
  (at level 100, c at next level, right associativity) : res_scope.
Notation "' pat <- c ;; k" := (bind c (fun x => match x with pat => k end))
  (at level 100, pat pattern, c at next level, right associativity) : res_scope.
Open Scope res_scope.

(* ===================================================================== *)
(** ** Insertion-ordered dictionaries *)
(* ===================================================================== *)

(** Keys: a decidable equality and the repr shown by [KeyError]. *)
Class DictKey (K : Type) : Type := {
  keq : K -> K -> bool;
  krepr : K -> string
}.

#[export] Instance string_DictKey : DictKey string := {|
  keq := String.eqb;
  krepr := fun s => s
|}.

(** The key equality decides equality. *)
Class DictKeyLaws (K : Type) `{DictKey K} : Prop := {
  keq_spec : forall a b : K, keq a b = true <-> a = b
}.

(** A Python [dict] (or [OrderedDict]): pairs in insertion order. *)
Definition dict (K V : Type) : Type := list (K * V).

Module Dict.
Section Ops.
Context {K V : Type} `{DictKey K}.

Fixpoint get (d : dict K V) (k : K) : option V :=
  match d with
  | [] => None
  | (k', v) :: d' => if keq k k' then Some v else get d' k
  end.

(** [k in d] *)
Definition contains (d : dict K V) (k : K) : bool :=
  match get d k with Some _ => true | None => false end.

(** [d[k]] *)
Definition getitem (d : dict K V) (k : K) : Res V :=
  match get d k with
  | Some v => Ok v
  | None => Raise (KeyError (krepr k))
  end.

(** [d.get(k, default)] *)
Definition get_default (d : dict K V) (k : K) (default : V) : V :=
  match get d k with Some v => v | None => default end.

(** [d[k] = v]: an existing key keeps its position, a new one goes last. *)
Fixpoint set (d : dict K V) (k : K) (v : V) : dict K V :=
  match d with
  | [] => [(k, v)]
  | (k', v') :: d' => if keq k k' then (k', v) :: d' else (k', v') :: set d' k v
  end.

Definition keys (d : dict K V) : list K := map fst d.
Definition values (d : dict K V) : list V := map snd d.

(** [d.update(other)] *)
Definition update (d other : dict K V) : dict K V :=
  fold_left (fun acc kv => set acc (fst kv) (snd kv)) other d.

(** [OrderedDict(pairs)] *)
Definition of_pairs (pairs : list (K * V)) : dict K V := update [] pairs.
End Ops.
End Dict.


(* ===================================================================== *)
(** ** kdp.features: feature descriptors *)
(* ===================================================================== *)

Module Features.

(** Modelled from the spec: the [FeatureType] enum of [kdp.features] is not
    part of the sources at hand; its members are the type tags the
    processor names, and [CROSSES], the tag of feature crosses, which no
    kind class stands for. *)
Inductive FeatureType : Type :=
| FLOAT
| FLOAT_NORMALIZED
| FLOAT_RESCALED
| FLOAT_DISCRETIZED
| INTEGER_CATEGORICAL
| STRING_CATEGORICAL
| TEXT
| CROSSES
| DATE.

Definition FeatureType_eqb (a b : FeatureType) : bool :=
  match a, b with
  | FLOAT, FLOAT | FLOAT_NORMALIZED, FLOAT_NORMALIZED
  | FLOAT_RESCALED, FLOAT_RESCALED | FLOAT_DISCRETIZED, FLOAT_DISCRETIZED
  | INTEGER_CATEGORICAL, INTEGER_CATEGORICAL
  | STRING_CATEGORICAL, STRING_CATEGORICAL
  | TEXT, TEXT | CROSSES, CROSSES | DATE, DATE => true
  | _, _ => false
  end.

Definition FeatureType_members : dict string FeatureType :=
  [ ("FLOAT", FLOAT); ("FLOAT_NORMALIZED", FLOAT_NORMALIZED);
    ("FLOAT_RESCALED", FLOAT_RESCALED); ("FLOAT_DISCRETIZED", FLOAT_DISCRETIZED);
    ("INTEGER_CATEGORICAL", INTEGER_CATEGORICAL);
    ("STRING_CATEGORICAL", STRING_CATEGORICAL);
    ("TEXT", TEXT); ("CROSSES", CROSSES); ("DATE", DATE) ].

(** [FeatureType[member_name]]: lookup of an enum member by name. *)
Definition FeatureType_by_name (member_name : string) : Res FeatureType :=
  Dict.getitem FeatureType_members member_name.

(** Modelled from the spec: [CategoryEncodingOptions] of [kdp.features]. *)
Inductive CategoryEncodingOptions : Type :=
| EMBEDDING
| ONE_HOT_ENCODING.

(** The descriptor classes: [Feature] and its four kind-specific subclasses. *)
Inductive FeatureClass : Type :=
| cls_Feature
| cls_NumericalFeature
| cls_CategoricalFeature
| cls_TextFeature
| cls_DateFeature.

(** A layer class handed over as a custom preprocessing step, known by its
    [__name__]. *)
Record LayerClass : Type := { cls_name : string }.

(** Modelled from the spec: the feature descriptor of [kdp.features]
    (section 3, FeatureDescriptor): name, kind (the class), subtype, dtype,
    optional custom step list, keyword configuration (empty when none),
    optional category-encoding mode. [feature_type = None] is an unset
    subtype. *)
Record Feature : Type := mkFeature {
  f_class : FeatureClass;
  name : string;
  feature_type : option FeatureType;
  dtype : PyVal;
  preprocessors : option (list LayerClass);
  kwargs : dict string PyVal;
  category_encoding : option CategoryEncodingOptions
}.

Definition set_preprocessors (f : Feature) (p : option (list LayerClass)) : Feature :=
  mkFeature (f_class f) (name f) (feature_type f) (dtype f) p (kwargs f) (category_encoding f).

Definition set_kwargs (f : Feature) (kw : dict string PyVal) : Feature :=
  mkFeature (f_class f) (name f) (feature_type f) (dtype f) (preprocessors f) kw
            (category_encoding f).

(** [hasattr(f, "preprocessors") and f.preprocessors] *)
Definition has_custom_steps (f : Feature) : bool :=
  match preprocessors f with
  | Some (_ :: _) => true
  | _ => false
  end.

(** What the constructors of [kdp.features] fill in when the processor calls
    them with a name and a type tag only, and the embedding-size rule of
    [CategoricalFeature]; both live outside the sources at hand. *)
Class FeatureDefaults : Type := {
  default_dtype : FeatureClass -> FeatureType -> PyVal;
  default_category_encoding : option CategoryEncodingOptions;
  _embedding_size_rule : nat -> PyVal
}.

Section Constructors.
Context `{FeatureDefaults}.

Definition new_feature (c : FeatureClass) (n : string) (t : FeatureType) : Feature :=
  mkFeature c n (Some t) (default_dtype c t) None []
            (match c with cls_CategoricalFeature => default_category_encoding | _ => None end).

Definition NumericalFeature := new_feature cls_NumericalFeature.
Definition CategoricalFeature := new_feature cls_CategoricalFeature.
Definition TextFeature := new_feature cls_TextFeature.
Definition DateFeature := new_feature cls_DateFeature.
End Constructors.

End Features.
Export Features.

(* ===================================================================== *)
(** ** kdp.pipeline: the chain of preprocessing steps *)
(* ===================================================================== *)

Module Pipeline.

(** What a step is built from: a built-in layer named by a string
    ([layer_class="Normalization"]), a layer class object (custom steps), or
    a factory method of [PreprocessorLayerFactory] ([layer_creator=...]). *)
Inductive LayerRef : Type :=
| LayerName (n : string)
| LayerObj (c : LayerClass)
| LayerCreator (factory_method : string).

Record Step : Type := mkStep {
  layer : LayerRef;
  step_name : string;
  step_kwargs : list (string * PyVal)
}.

(** Modelled from the spec: [FeaturePreprocessor] of [kdp.pipeline]
    (section 3, PipelineStep; glossary, Pipeline/chain): a named, ordered
    sequence of steps; [add_processing_step] appends one. *)
Record FeaturePreprocessor : Type := mkPreprocessor {
  fp_name : string;
  steps : list Step
}.

Definition new_FeaturePreprocessor (n : string) : FeaturePreprocessor :=
  mkPreprocessor n [].

(** The call [p.add_processing_step(<layer>, name=nm, **extra, k1=v1, ...)].
    [layer_class], [layer_creator] and [name] are the explicit parameters;
    a key of a [**]-expanded mapping that repeats one of the explicit
    keywords of the call makes the call itself fail. *)
Definition add_processing_step (p : FeaturePreprocessor) (l : LayerRef) (nm : string)
    (explicit extra : list (string * PyVal)) : Res FeaturePreprocessor :=
  let reserved := (match l with LayerCreator _ => "layer_creator" | _ => "layer_class" end)
                    :: "name" :: map fst explicit in
  if existsb (fun k => existsb (String.eqb k) reserved) (map fst extra)
  then Raise (TypeError "got multiple values for keyword argument")
  else Ok (mkPreprocessor (fp_name p) (steps p ++ [mkStep l nm (explicit ++ extra)])).

(** What [chain] is applied to: one tensor, or a list of tensors. *)
Inductive ChainInput (T : Type) : Type :=
| OneInput (t : T)
| ManyInputs (ts : list T).
Arguments OneInput {T} t.
Arguments ManyInputs {T} ts.

End Pipeline.
Export Pipeline.

(* ===================================================================== *)
(** ** FeatureSpaceConverter *)
(* ===================================================================== *)

Module FeatureSpaceConverter.

(** One value of the [features_specs] mapping handed to the converter: a
    descriptor object (of class [Feature] or one of its subclasses), a
    string, a [FeatureType] member, any other hashable object (a number,
    [None], a tuple of such), or an unhashable one (a list, a dict, a set),
    known by the name of its type. *)
Inductive Spec : Type :=
| SpecFeature (f : Feature)
| SpecStr (s : string)
| SpecType (t : FeatureType)
| SpecOther (repr : string)
| SpecUnhashable (type_name repr : string).

(** [str(spec)] as interpolated into the error message; the repr of a
    descriptor object is kept abstract. *)
Definition spec_str (spec : Spec) : string :=
  match spec with
  | SpecFeature f => "<Feature object>"
  | SpecStr s => s
  | SpecType t =>
      "FeatureType." ++
      match t with
      | FLOAT => "FLOAT" | FLOAT_NORMALIZED => "FLOAT_NORMALIZED"
      | FLOAT_RESCALED => "FLOAT_RESCALED" | FLOAT_DISCRETIZED => "FLOAT_DISCRETIZED"
      | INTEGER_CATEGORICAL => "INTEGER_CATEGORICAL"
      | STRING_CATEGORICAL => "STRING_CATEGORICAL"
      | TEXT => "TEXT" | CROSSES => "CROSSES" | DATE => "DATE"
      end
  | SpecOther r => r
  | SpecUnhashable _ r => r
  end.

Record t : Type := mk {
  features_space : dict string Feature;
  numeric_features : list string;
  categorical_features : list string;
  text_features : list string;
  date_features : list string
}.

(** [FeatureSpaceConverter()] *)
Definition init : t := mk [] [] [] [] [].

(** [isinstance(spec, NumericalFeature | CategoricalFeature | TextFeature | DateFeature)] *)
Definition is_kind_instance (f : Feature) : bool :=
  match f_class f with
  | cls_Feature => false
  | _ => true
  end.

Section Converter.
Context `{FeatureDefaults}.

(** The [if feature_type in {...} ... else raise ValueError] ladder, for a
    [feature_type] that is a member of the enum or [None]. *)
Definition feature_of_type (name : string) (spec : Spec) (feature_type : option FeatureType)
  : Res Feature :=
  match feature_type with
  | Some (FLOAT as ft) | Some (FLOAT_NORMALIZED as ft)
  | Some (FLOAT_RESCALED as ft) | Some (FLOAT_DISCRETIZED as ft) =>
      Ok (NumericalFeature name ft)
  | Some (INTEGER_CATEGORICAL as ft) | Some (STRING_CATEGORICAL as ft) =>
      Ok (CategoricalFeature name ft)
  | Some TEXT => Ok (TextFeature name TEXT)
  | Some DATE => Ok (DateFeature name DATE)
  | Some CROSSES | None =>
      Raise (ValueError ("Unsupported feature type for feature '" ++ name ++ "': "
                           ++ spec_str spec))
  end.

(** The body of the loop of [_init_features_specs] for one [(name, spec)].
    The first test of the ladder, [feature_type in {...}], hashes
    [feature_type]: an unhashable declaration fails there. *)
Definition convert_one (self : t) (name : string) (spec : Spec) : Res t :=
  feature_instance <-
    match spec with
    | SpecFeature f =>
        if is_kind_instance f then Ok f
        else feature_of_type name spec (feature_type f)
    | SpecStr s =>
        feature_type <- FeatureType_by_name (upper s) ;;
        feature_of_type name spec (Some feature_type)
    | SpecType ft => feature_of_type name spec (Some ft)
    | SpecOther _ => feature_of_type name spec None
    | SpecUnhashable type_name _ =>
        Raise (TypeError ("unhashable type: '" ++ type_name ++ "'"))
    end ;;
  let feature_instance :=
    match spec with
    | SpecFeature f => set_kwargs (set_preprocessors feature_instance (preprocessors f)) (kwargs f)
    | _ => feature_instance
    end in
  let self :=
    match f_class feature_instance with
    | cls_NumericalFeature =>
        mk (features_space self) (numeric_features self ++ [name])
           (categorical_features self) (text_features self) (date_features self)
    | cls_CategoricalFeature =>
        mk (features_space self) (numeric_features self)
           (categorical_features self ++ [name]) (text_features self) (date_features self)
    | cls_TextFeature =>
        mk (features_space self) (numeric_features self)
           (categorical_features self) (text_features self ++ [name]) (date_features self)
    | cls_DateFeature =>
        mk (features_space self) (numeric_features self)
           (categorical_features self) (text_features self) (date_features self ++ [name])
    | cls_Feature => self
    end in
  Ok (mk (Dict.set (features_space self) name feature_instance)
         (numeric_features self) (categorical_features self)
         (text_features self) (date_features self)).

(** [_init_features_specs]: the loop over [features_specs.items()]. The
    converter object is returned; its [features_space] is the method's
    return value. *)
Fixpoint _init_features_specs (self : t) (features_specs : dict string Spec) : Res t :=
  match features_specs with
  | [] => Ok self
  | (name, spec) :: rest =>
      self' <- convert_one self name spec ;;
      _init_features_specs self' rest
  end.
End Converter.

End FeatureSpaceConverter.

(* ===================================================================== *)
(** ** The Keras interface *)
(* ===================================================================== *)

(** Keys of the [inputs] mapping. The code stores placeholders under a
    feature name ([KName]); the cross builder stores one under the
    descriptor object itself ([KFeature k] is the object held at
    [features_specs[k]]), which is equal to no string. *)
Inductive Key : Type :=
| KName (s : string)
| KFeature (spec_key : string).

#[export] Instance Key_DictKey : DictKey Key := {|
  keq := fun a b =>
    match a, b with
    | KName x, KName y => String.eqb x y
    | KFeature x, KFeature y => String.eqb x y
    | _, _ => false
    end;
  krepr := fun k => match k with KName s => s | KFeature s => "<Feature object>" end
|}.

(** [tf.TensorSpec(shape, dtype, name)] *)
Record TensorSpec : Type := mkTensorSpec {
  ts_shape : list (option nat);
  ts_dtype : PyVal;
  ts_name : string
}.

(** What [tf.keras.Model(outputs=...)] receives: the fused tensor (or
    [None]) in CONCAT mode, the ordered mapping in DICT mode. *)
Inductive ModelOutputs (T : Type) : Type :=
| OutTensor (t : option T)
| OutDict (d : dict string (option T)).
Arguments OutTensor {T} t.
Arguments OutDict {T} d.

(** The graph constructors the processor calls. They are opaque to it and
    taken as total; an error Keras itself would raise on a malformed graph
    (an input name that is no string, tensors of differing rank handed to
    [Concatenate], a layer applied to a tensor of a dtype it does not take)
    is outside this model, so what is proved about a builder that goes
    through them is what it has done when it returns.
    [chain] is [FeaturePreprocessor.chain]. *)
Class Keras : Type := {
  Tensor : Type;
  Model : Type;
  Store : Type;
  Input : list nat -> Key -> PyVal -> Tensor;
  shape : Tensor -> list (option nat);
  Reshape : list Z -> Tensor -> Tensor;
  Concatenate : string -> Z -> list Tensor -> Tensor;
  transformer_block_layer : option nat -> nat -> nat -> Q -> string -> Tensor -> Tensor;
  chain : FeaturePreprocessor -> ChainInput Tensor -> Tensor;
  new_Model : dict Key Tensor -> ModelOutputs Tensor -> string -> Model;
  keras_save : Model -> string -> dict string TensorSpec -> PyVal -> Store -> Store;
  keras_load_model : Store -> string -> Res Model;
  _metadata : Model -> dict string PyVal
}.

(** Loops in the error monad. *)
Fixpoint fold_res {A B : Type} (f : A -> B -> Res A) (l : list B) (a : A) : Res A :=
  match l with
  | [] => Ok a
  | b :: l' => a' <- f a b ;; fold_res f l' a'
  end.

Fixpoint map_res {A B : Type} (f : A -> Res B) (l : list A) : Res (list B) :=
  match l with
  | [] => Ok []
  | a :: l' => b <- f a ;; bs <- map_res f l' ;; Ok (b :: bs)
  end.

(** [json.loads(json.dumps(v, default=serialize_dtype))] with
    [serialize_dtype] as defined in [save_model]: a dtype object becomes its
    name; any other non-JSON object is handed back unchanged by the hook and
    the encoder gives up on it; tuples come back as lists. The interpreter's
    limit on the number of digits of an integer it converts is not
    modelled. *)
Fixpoint json_roundtrip (v : PyVal) : Res PyVal :=
  match v with
  | VList l | VTuple l =>
      l' <- (fix go (l : list PyVal) : Res (list PyVal) :=
               match l with
               | [] => Ok []
               | x :: xs => x' <- json_roundtrip x ;; xs' <- go xs ;; Ok (x' :: xs')
               end) l ;;
      Ok (VList l')
  | VDict kvs =>
      kvs' <- (fix go (l : list (string * PyVal)) : Res (list (string * PyVal)) :=
                 match l with
                 | [] => Ok []
                 | (k, x) :: xs => x' <- json_roundtrip x ;; xs' <- go xs ;; Ok ((k, x') :: xs')
                 end) kvs ;;
      Ok (VDict kvs')
  | VDType name => Ok (VStr name)
  | VObj _ => Raise (ValueError "Circular reference detected")
  | VNone | VBool _ | VInt _ | VFloat _ | VStr _ => Ok v
  end.

(* ===================================================================== *)
(** ** PreprocessingModel *)
(* ===================================================================== *)

(** The statistics record of one feature, and the whole statistics
    structure: group name, then feature name, then record. *)
Definition Stats : Type := dict string PyVal.
Definition FeaturesStats : Type := dict string (dict string Stats).

(** The statistics collaborator ([kdp.stats.DatasetStatistics]), by what its
    two entry points return. *)
Record DatasetStatistics : Type := {
  _load_stats : FeaturesStats;
  main : FeaturesStats
}.

(** The kind groups of the scheduler (the [feature_type] strings
    ["numeric"], ["categorical"], ["text"], ["date"]). *)
Inductive GroupKind : Type :=
| numeric
| categorical
| text
| date.

Definition GroupKind_eqb (a b : GroupKind) : bool :=
  match a, b with
  | numeric, numeric | categorical, categorical | text, text | date, date => true
  | _, _ => false
  end.

Definition CONCAT : string := "concat".
Definition DICT : string := "dict".
Definition PLACEMENT_CATEGORICAL : string := "categorical".
Definition PLACEMENT_ALL_FEATURES : string := "all_features".

Definition mem (x : string) (l : list string) : bool := existsb (String.eqb x) l.

Module PreprocessingModel.
Section Methods.
Context `{Keras} `{FeatureDefaults}.

(** The instance attributes. An [option] field is an attribute that exists
    only once something has assigned it: [stats_instance] (tested with
    [hasattr]), [concat_all], [model], and [signatures], which [save_model]
    reads. Output-map values are tensors or Python's [None]. *)
#[projections(primitive)]
Record t : Type := mk {
  features_stats : FeaturesStats;
  features_specs : dict string Feature;
  feature_crosses : list (string * string * nat);
  output_mode : string;
  overwrite_stats : bool;
  transfo_nr_blocks : option nat;
  transfo_nr_heads : nat;
  transfo_ff_units : nat;
  transfo_dropout_rate : Q;
  transfo_placement : string;
  inputs : dict Key Tensor;
  signature : dict string TensorSpec;
  outputs : dict string (option Tensor);
  outputs_categorical : dict string Tensor;
  numeric_features : list string;
  categorical_features : list string;
  text_features : list string;
  date_features : list string;
  stats_instance : option DatasetStatistics;
  concat_all : option (option Tensor);
  model : option Model;
  signatures : option (dict string TensorSpec)
}.

Definition set_features_stats (v : FeaturesStats) (s : t) : t :=
  let '(mk _ a2 a3 a4 a5 a6 a7 a8 a9 a10 a11 a12 a13 a14 a15 a16 a17 a18 a19 a20 a21 a22) := s in
  mk v a2 a3 a4 a5 a6 a7 a8 a9 a10 a11 a12 a13 a14 a15 a16 a17 a18 a19 a20 a21 a22.
Definition set_features_specs (v : dict string Feature) (s : t) : t :=
  let '(mk a1 _ a3 a4 a5 a6 a7 a8 a9 a10 a11 a12 a13 a14 a15 a16 a17 a18 a19 a20 a21 a22) := s in
  mk a1 v a3 a4 a5 a6 a7 a8 a9 a10 a11 a12 a13 a14 a15 a16 a17 a18 a19 a20 a21 a22.
Definition set_inputs (v : dict Key Tensor) (s : t) : t :=
  let '(mk a1 a2 a3 a4 a5 a6 a7 a8 a9 a10 _ a12 a13 a14 a15 a16 a17 a18 a19 a20 a21 a22) := s in
  mk a1 a2 a3 a4 a5 a6 a7 a8 a9 a10 v a12 a13 a14 a15 a16 a17 a18 a19 a20 a21 a22.
Definition set_signature (v : dict string TensorSpec) (s : t) : t :=
  let '(mk a1 a2 a3 a4 a5 a6 a7 a8 a9 a10 a11 _ a13 a14 a15 a16 a17 a18 a19 a20 a21 a22) := s in
  mk a1 a2 a3 a4 a5 a6 a7 a8 a9 a10 a11 v a13 a14 a15 a16 a17 a18 a19 a20 a21 a22.
Definition set_outputs (v : dict string (option Tensor)) (s : t) : t :=
  let '(mk a1 a2 a3 a4 a5 a6 a7 a8 a9 a10 a11 a12 _ a14 a15 a16 a17 a18 a19 a20 a21 a22) := s in
  mk a1 a2 a3 a4 a5 a6 a7 a8 a9 a10 a11 a12 v a14 a15 a16 a17 a18 a19 a20 a21 a22.
Definition set_outputs_categorical (v : dict string Tensor) (s : t) : t :=
  let '(mk a1 a2 a3 a4 a5 a6 a7 a8 a9 a10 a11 a12 a13 _ a15 a16 a17 a18 a19 a20 a21 a22) := s in
  mk a1 a2 a3 a4 a5 a6 a7 a8 a9 a10 a11 a12 a13 v a15 a16 a17 a18 a19 a20 a21 a22.
Definition set_concat_all (v : option (option Tensor)) (s : t) : t :=
  let '(mk a1 a2 a3 a4 a5 a6 a7 a8 a9 a10 a11 a12 a13 a14 a15 a16 a17 a18 a19 _ a21 a22) := s in
  mk a1 a2 a3 a4 a5 a6 a7 a8 a9 a10 a11 a12 a13 a14 a15 a16 a17 a18 a19 v a21 a22.
Definition set_model (v : option Model) (s : t) : t :=
  let '(mk a1 a2 a3 a4 a5 a6 a7 a8 a9 a10 a11 a12 a13 a14 a15 a16 a17 a18 a19 a20 _ a22) := s in
  mk a1 a2 a3 a4 a5 a6 a7 a8 a9 a10 a11 a12 a13 a14 a15 a16 a17 a18 a19 a20 v a22.

(** [__init__] with [_init_features_specs] and [_init_stats]: the statistics
    collaborator is created, and its cache read, only when no statistics
    were passed in. [ds] is what that collaborator would be. *)
Definition __init__
    (features_stats : option FeaturesStats)
    (feature_crosses : option (list (string * string * nat)))
    (output_mode : string) (overwrite_stats : bool)
    (features_specs : option (dict string FeatureSpaceConverter.Spec))
    (transfo_nr_blocks : option nat) (transfo_nr_heads transfo_ff_units : nat)
    (transfo_dropout_rate : Q) (transfo_placement : string)
    (ds : DatasetStatistics) : Res t :=
  let features_stats := match features_stats with Some ((_ :: _) as st) => st | _ => [] end in
  let feature_crosses := match feature_crosses with Some c => c | None => [] end in
  specs <- match features_specs with
           | Some specs => Ok specs
           | None => Raise (AttributeError "items")
           end ;;
  fsc <- FeatureSpaceConverter._init_features_specs FeatureSpaceConverter.init specs ;;
  let no_stats := match features_stats with [] => true | _ => false end in
  Ok (mk (if no_stats then _load_stats ds else features_stats)
         (FeatureSpaceConverter.features_space fsc)
         feature_crosses output_mode overwrite_stats
         transfo_nr_blocks transfo_nr_heads transfo_ff_units transfo_dropout_rate
         transfo_placement
         [] [] [] []
         (FeatureSpaceConverter.numeric_features fsc)
         (FeatureSpaceConverter.categorical_features fsc)
         (FeatureSpaceConverter.text_features fsc)
         (FeatureSpaceConverter.date_features fsc)
         (if no_stats then Some ds else None)
         None None None).

(** [_add_input_column]: a Keras input of shape [(1,)] under [feature_name]. *)
Definition _add_input_column (self : t) (feature_name : Key) (dtype : PyVal) : t :=
  set_inputs (Dict.set (inputs self) feature_name (Input [1] feature_name dtype)) self.

(** [_add_input_signature]: a [TensorSpec] of shape [(None, 1)]. *)
Definition _add_input_signature (self : t) (feature_name : string) (dtype : PyVal) : t :=
  set_signature
    (Dict.set (signature self) feature_name (mkTensorSpec [None; Some 1] dtype feature_name))
    self.

(** [for step in xs] over an attribute that may be [None]. *)
Definition iter_steps (p : option (list LayerClass)) : Res (list LayerClass) :=
  match p with
  | Some l => Ok l
  | None => Raise (TypeError "'NoneType' object is not iterable")
  end.

Definition _add_custom_steps (self : t) (preprocessor : FeaturePreprocessor)
    (feature : Feature) (feature_name : string) : Res FeaturePreprocessor :=
  _feature <- Dict.getitem (features_specs self) feature_name ;;
  step_classes <- iter_steps (preprocessors feature) ;;
  fold_res
    (fun preprocessor preprocessor_step =>
       add_processing_step preprocessor (LayerObj preprocessor_step)
         (cls_name preprocessor_step ++ "_" ++ feature_name) [] (kwargs _feature))
    step_classes preprocessor.

Definition VNat (n : nat) : PyVal := VInt (Z.of_nat n).

(** The default numeric policy (the [else] branch of [_add_pipeline_numeric]). *)
Definition numeric_default_steps (preprocessor : FeaturePreprocessor) (_feature : Feature)
    (feature_name : string) (mean variance : PyVal) : Res FeaturePreprocessor :=
  match feature_type _feature with
  | Some FLOAT_NORMALIZED =>
      add_processing_step preprocessor (LayerName "Normalization") ("norm_" ++ feature_name)
        [("mean", mean); ("variance", variance)] []
  | Some FLOAT_RESCALED =>
      let rescaling_scale := Dict.get_default (kwargs _feature) "scale" (VFloat 1%Q) in
      add_processing_step preprocessor (LayerName "Rescaling") ("rescale_" ++ feature_name)
        [("scale", rescaling_scale)] []
  | Some FLOAT_DISCRETIZED =>
      n <- len (Dict.get_default (kwargs _feature) "bin_boundaries" (VFloat 1%Q)) ;;
      let _out_dims := n + 1 in
      preprocessor <-
        add_processing_step preprocessor (LayerName "Discretization")
          ("discretize_" ++ feature_name) [] (kwargs _feature) ;;
      preprocessor <-
        add_processing_step preprocessor (LayerName "CategoryEncoding")
          ("one_hot_" ++ feature_name)
          [("num_tokens", VNat _out_dims); ("output_mode", VStr "one_hot")] [] ;;
      add_processing_step preprocessor (LayerCreator "cast_to_float32_layer")
        ("cast_to_float_" ++ feature_name) [] []
  | _ =>
      add_processing_step preprocessor (LayerName "Normalization") ("norm_" ++ feature_name)
        [("mean", mean); ("variance", variance)] []
  end.

(** The chain [_add_pipeline_numeric] builds, before it is applied. *)
Definition numeric_pipeline (self : t) (feature_name : string) (stats : Stats)
  : Res FeaturePreprocessor :=
  mean <- Dict.getitem stats "mean" ;;
  variance <- Dict.getitem stats "var" ;;
  _feature <- Dict.getitem (features_specs self) feature_name ;;
  let preprocessor := new_FeaturePreprocessor feature_name in
  if has_custom_steps _feature
  then _add_custom_steps self preprocessor _feature feature_name
  else numeric_default_steps preprocessor _feature feature_name mean variance.

Definition _add_pipeline_numeric (self : t) (feature_name : string) (input_layer : Tensor)
    (stats : Stats) : Res t :=
  preprocessor <- numeric_pipeline self feature_name stats ;;
  let _output_pipeline := chain preprocessor (OneInput input_layer) in
  Ok (set_outputs (Dict.set (outputs self) feature_name (Some _output_pipeline)) self).

(** The chain [_add_pipeline_categorical] builds, before it is applied. *)
Definition categorical_pipeline (self : t) (feature_name : string) (stats : Stats)
  : Res FeaturePreprocessor :=
  vocab <- Dict.getitem stats "vocab" ;;
  _feature <- Dict.getitem (features_specs self) feature_name ;;
  let preprocessor := new_FeaturePreprocessor feature_name in
  preprocessor <-
    (if has_custom_steps _feature
     then _add_custom_steps self preprocessor _feature feature_name
     else
       match feature_type _feature with
       | Some STRING_CATEGORICAL =>
           add_processing_step preprocessor (LayerName "StringLookup")
             ("lookup_" ++ feature_name)
             [("vocabulary", vocab); ("num_oov_indices", VInt 1)] []
       | Some INTEGER_CATEGORICAL =>
           add_processing_step preprocessor (LayerName "IntegerLookup")
             ("lookup_" ++ feature_name)
             [("vocabulary", vocab); ("num_oov_indices", VInt 1)] []
       | _ => Ok preprocessor
       end) ;;
  preprocessor <-
    match category_encoding _feature with
    | Some EMBEDDING =>
        let _custom_embedding_size := Dict.get_default (kwargs _feature) "embedding_size" VNone in
        n <- len vocab ;;
        let _vocab_size := n + 1 in
        let emb_size :=
          if truthy _custom_embedding_size then _custom_embedding_size
          else _embedding_size_rule _vocab_size in
        add_processing_step preprocessor (LayerName "Embedding") ("embed_" ++ feature_name)
          [("input_dim", VNat (n + 1)); ("output_dim", emb_size)] []
    | Some ONE_HOT_ENCODING =>
        n <- len vocab ;;
        preprocessor <-
          add_processing_step preprocessor (LayerName "CategoryEncoding")
            ("one_hot_" ++ feature_name)
            [("num_tokens", VNat (n + 1)); ("output_mode", VStr "one_hot")] [] ;;
        add_processing_step preprocessor (LayerCreator "cast_to_float32_layer")
          ("cast_to_float_" ++ feature_name) [] []
    | None => Ok preprocessor
    end ;;
  add_processing_step preprocessor (LayerName "Flatten") ("flatten_" ++ feature_name) [] [].

Definition _add_pipeline_categorical (self : t) (feature_name : string)
    (input_layer : Tensor) (stats : Stats) : Res t :=
  preprocessor <- categorical_pipeline self feature_name stats ;;
  Ok (set_outputs_categorical
        (Dict.set (outputs_categorical self) feature_name
                  (chain preprocessor (OneInput input_layer))) self).
Definition cast_to_float (preprocessor : FeaturePreprocessor) (feature_name : string)
  : Res FeaturePreprocessor :=
  add_processing_step preprocessor (LayerCreator "cast_to_float32_layer")
    ("cast_to_float_" ++ feature_name) [] [].

(** [_add_pipeline_text]. Writing the default [output_sequence_length] goes
    into the descriptor's own configuration, which [features_specs] holds. *)
Definition _add_pipeline_text (self : t) (feature_name : string) (input_layer : Tensor)
    (stats : Stats) : Res t :=
  _feature <- Dict.getitem (features_specs self) feature_name ;;
  _vocab <- Dict.getitem stats "vocab" ;;
  let preprocessor := new_FeaturePreprocessor feature_name in
  '(self, preprocessor) <-
    (if has_custom_steps _feature
     then
       preprocessor <- _add_custom_steps self preprocessor _feature feature_name ;;
       Ok (self, preprocessor)
     else
       let _stop_words := Dict.get_default (kwargs _feature) "stop_words" (VList []) in
       preprocessor <-
         (if truthy _stop_words
          then add_processing_step preprocessor (LayerCreator "text_preprocessing_layer")
                 ("text_preprocessor_" ++ feature_name) [] (kwargs _feature)
          else Ok preprocessor) ;;
       let '(self, _feature) :=
         if Dict.contains (kwargs _feature) "output_sequence_length" then (self, _feature)
         else
           let _feature :=
             set_kwargs _feature (Dict.set (kwargs _feature) "output_sequence_length" (VInt 35)) in
           (set_features_specs (Dict.set (features_specs self) feature_name _feature) self,
            _feature) in
       preprocessor <-
         add_processing_step preprocessor (LayerName "TextVectorization")
           ("text_vactorizer_" ++ feature_name) [("vocabulary", _vocab)] (kwargs _feature) ;;
       preprocessor <- cast_to_float preprocessor feature_name ;;
       Ok (self, preprocessor)) ;;
  if String.eqb (output_mode self) CONCAT
  then Ok (set_outputs_categorical
             (Dict.set (outputs_categorical self) feature_name
                       (chain preprocessor (OneInput input_layer))) self)
  else Ok (set_outputs
             (Dict.set (outputs self) feature_name
                       (Some (chain preprocessor (OneInput input_layer)))) self).

(** The inner loop body of [_add_pipeline_cross]: the missing placeholder is
    added through [_add_input_column(feature_name=_feature, ...)], that is
    under the descriptor object. *)
Definition ensure_input (self : t) (_feature_name : string) : Res t :=
  _feature <- Dict.getitem (features_specs self) _feature_name ;;
  match Dict.get (inputs self) (KName _feature_name) with
  | None => Ok (_add_input_column self (KFeature _feature_name) (dtype _feature))
  | Some _ => Ok self
  end.

(** The outer loop body of [_add_pipeline_cross] for one triple. *)
Definition cross_one (self : t) (cross : string * string * nat) : Res t :=
  let '(feature_a, feature_b, nr_bins) := cross in
  let preprocessor := new_FeaturePreprocessor (feature_a ++ "_x_" ++ feature_b) in
  self <- fold_res ensure_input [feature_a; feature_b] self ;;
  let feature_name := (feature_a ++ "_x_" ++ feature_b)%string in
  preprocessor <-
    add_processing_step preprocessor (LayerName "HashedCrossing") ("cross_" ++ feature_name)
      [("num_bins", VNat nr_bins)] [] ;;
  preprocessor <- cast_to_float preprocessor feature_name ;;
  input_a <- Dict.getitem (inputs self) (KName feature_a) ;;
  input_b <- Dict.getitem (inputs self) (KName feature_b) ;;
  let crossed_input := [input_a; input_b] in
  Ok (set_outputs
        (Dict.set (outputs self) feature_name
                  (Some (chain preprocessor (ManyInputs crossed_input)))) self).

Definition _add_pipeline_cross (self : t) : Res t :=
  fold_res cross_one (feature_crosses self) self.

Definition _add_pipeline_date (self : t) (feature_name : string) (input_layer : Tensor)
  : Res t :=
  _feature <- Dict.getitem (features_specs self) feature_name ;;
  let preprocessor := new_FeaturePreprocessor feature_name in
  preprocessor <-
    (if has_custom_steps _feature
     then _add_custom_steps self preprocessor _feature feature_name
     else
       match feature_type _feature with
       | Some DATE =>
           let date_format := Dict.get_default (kwargs _feature) "format" (VStr "YYYY-MM-DD") in
           preprocessor <-
             add_processing_step preprocessor (LayerCreator "date_parsing_layer")
               ("date_parsing_" ++ feature_name) [("date_format", date_format)] [] ;;
           preprocessor <-
             add_processing_step preprocessor (LayerCreator "date_encoding_layer")
               ("date_encoding_" ++ feature_name) [] [] ;;
           if truthy (Dict.get_default (kwargs _feature) "add_season" (VBool false))
           then add_processing_step preprocessor (LayerCreator "date_season_layer")
                  ("date_season_" ++ feature_name) [] []
           else Ok preprocessor
       | _ => Ok preprocessor
       end) ;;
  Ok (set_outputs
        (Dict.set (outputs self) feature_name
                  (Some (chain preprocessor (OneInput input_layer)))) self).

(** One worker of [_process_feature_batch]. *)
Definition run_task (feature_type : GroupKind) (self : t)
    (task : string * Tensor * Stats) : Res t :=
  let '(feature_name, input_layer, stats) := task in
  match feature_type with
  | numeric => _add_pipeline_numeric self feature_name input_layer stats
  | categorical => _add_pipeline_categorical self feature_name input_layer stats
  | text => _add_pipeline_text self feature_name input_layer stats
  | date => _add_pipeline_date self feature_name input_layer
  end.

(** [_process_feature_batch]. Submitting a task reads [self.inputs] in the
    calling thread; the workers are then run in submission order (each
    writes its own slots only) and the first failure, in submission order,
    is the one re-raised. *)
Definition _process_feature_batch (self : t) (batch : list (string * Stats))
    (feature_type : GroupKind) : Res t :=
  submitted <-
    map_res (fun '(feature_name, stats) =>
               input_layer <- Dict.getitem (inputs self) (KName feature_name) ;;
               Ok (feature_name, input_layer, stats)) batch ;;
  fold_res (run_task feature_type) submitted self.

(** [setup_input], the worker of [_parallel_setup_inputs]. *)
Definition setup_input (self : t) (feature_name : string) (stats : Stats) : t :=
  let dtype := Dict.get_default stats "dtype" tf_string in
  let self := _add_input_column self (KName feature_name) dtype in
  _add_input_signature self feature_name dtype.

Definition _parallel_setup_inputs (self : t) (features_dict : dict string Stats) : t :=
  fold_left (fun self '(feature_name, stats) => setup_input self feature_name stats)
            features_dict self.

(** The [if]/[elif] ladder that assigns a feature to a kind group. *)
Definition group_of (self : t) (feature_name : string) (stats : Stats) : option GroupKind :=
  if Dict.contains stats "mean" then Some numeric
  else if Dict.contains stats "vocab" && negb (mem feature_name (text_features self))
  then Some categorical
  else if mem feature_name (text_features self) then Some text
  else if mem feature_name (date_features self) then Some date
  else None.

(** The list a kind group ends up as: the items assigned to it, in order. *)
Definition group (self : t) (features_dict : dict string Stats) (kind : GroupKind)
  : list (string * Stats) :=
  filter (fun '(feature_name, stats) =>
            match group_of self feature_name stats with
            | Some k => GroupKind_eqb k kind
            | None => false
            end) features_dict.

Definition _process_features_parallel (self : t) (features_dict : dict string Stats) : Res t :=
  let numeric_features := group self features_dict numeric in
  let categorical_features := group self features_dict categorical in
  let text_features := group self features_dict text in
  let date_features := group self features_dict date in
  let self := _parallel_setup_inputs self features_dict in
  let feature_groups :=
    [ (numeric_features, numeric); (categorical_features, categorical);
      (text_features, text); (date_features, date) ] in
  fold_res (fun self '(features, feature_type) =>
              match features with
              | [] => Ok self
              | _ => _process_feature_batch self features feature_type
              end) feature_groups self.

(** [feature.shape] on an output-map value. *)
Definition getattr_shape (feature : option Tensor) : Res (list (option nat)) :=
  match feature with
  | Some t => Ok (shape t)
  | None => Raise (AttributeError "shape")
  end.

(** The loop body
    [Reshape((-1,))(feature) if len(feature.shape) == 2 | 4 else feature]:
    [|] binds tighter than [==], so the rank is compared with [2 | 4]. *)
Definition reshape_feature (feature : option Tensor) : Res Tensor :=
  match feature with
  | Some t =>
      Ok (if Nat.eqb (List.length (shape t)) (Nat.lor 2 4) then Reshape [(-1)%Z] t else t)
  | None => Raise (AttributeError "shape")
  end.

(** [self.concat_all.shape[1]] *)
Definition concat_all_dim (concat_all : option Tensor) : Res (option nat) :=
  sh <- getattr_shape concat_all ;;
  match nth_error sh 1 with
  | Some d => Ok d
  | None => Raise (IndexError "list index out of range")
  end.

Definition transformer_block_name (block_idx nr_heads : nat) : string :=
  "transformer_block_" ++ str_of_nat block_idx ++ "_" ++ str_of_nat nr_heads ++ "heads".

Definition apply_block (self : t) (dim_model : option nat) (block_idx : nat)
    (concat_all : option Tensor) : Res (option Tensor) :=
  match concat_all with
  | Some x =>
      Ok (Some (transformer_block_layer dim_model (transfo_nr_heads self)
                  (transfo_ff_units self) (transfo_dropout_rate self)
                  (transformer_block_name block_idx (transfo_nr_heads self)) x))
  | None => Raise (TypeError "layer called on None")
  end.

(** [if self.transfo_nr_blocks]: set and not zero. *)
Definition nr_blocks (self : t) : nat :=
  match transfo_nr_blocks self with Some n => n | None => 0 end.

(** The CONCAT branch of [_prepare_outputs], up to the value of
    [self.concat_all]. *)
Definition fuse_concat (self : t) : Res (option Tensor) :=
  let features_to_concat := Dict.values (outputs self) in
  let features_cat_to_concat := Dict.values (outputs_categorical self) in
  reshaped_features <- map_res reshape_feature features_to_concat ;;
  let concat_num :=
    match reshaped_features with
    | [] => None
    | _ => Some (Concatenate "ConcatenateNumeric" (-1)%Z reshaped_features)
    end in
  let concat_cat :=
    match features_cat_to_concat with
    | [] => None
    | _ => Some (Concatenate "ConcatenateCategorical" (-1)%Z features_cat_to_concat)
    end in
  let concat_all :=
    match concat_num, concat_cat with
    | Some n, Some c => Some (Concatenate "ConcatenateAll" (-1)%Z [n; c])
    | Some n, None => Some n
    | None, Some c => Some c
    | None, None => None
    end in
  concat_all <-
    (if negb (Nat.eqb (nr_blocks self) 0) && String.eqb (transfo_placement self) PLACEMENT_CATEGORICAL
     then fold_res (fun concat_all block_idx =>
                      dim_model <- concat_all_dim concat_all ;;
                      apply_block self dim_model block_idx concat_all)
                   (seq 0 (nr_blocks self)) concat_all
     else Ok concat_all) ;;
  if negb (Nat.eqb (nr_blocks self) 0) && String.eqb (transfo_placement self) PLACEMENT_ALL_FEATURES
  then
    _transfor_input_shape <- concat_all_dim concat_all ;;
    fold_res (fun concat_all block_idx =>
                apply_block self _transfor_input_shape block_idx concat_all)
             (seq 0 (nr_blocks self)) concat_all
  else Ok concat_all.

(** The keys [k] of [self.inputs] with [k in self.outputs], each paired with
    [None]. A descriptor-object key is in no map keyed by names. *)
Definition seed_of (self : t) (k : Key) : list (string * option Tensor) :=
  match k with
  | KName s => if Dict.contains (outputs self) s then [(s, None)] else []
  | KFeature _ => []
  end.

Definition seed_pairs (self : t) : list (string * option Tensor) :=
  flat_map (seed_of self) (Dict.keys (inputs self)).

(** The DICT branch of [_prepare_outputs]: the new value of [self.outputs]. *)
Definition fuse_dict (self : t) : dict string (option Tensor) :=
  let outputs' := Dict.of_pairs (seed_pairs self) in
  Dict.update outputs' (Dict.of_pairs (outputs self)).

Definition _prepare_outputs (self : t) : Res t :=
  if String.eqb (output_mode self) CONCAT
  then concat_all <- fuse_concat self ;; Ok (set_concat_all (Some concat_all) self)
  else Ok (set_outputs (fuse_dict self) self).

Definition names_val (l : list string) : PyVal := VList (map VStr l).

Definition stats_val (st : FeaturesStats) : PyVal :=
  VDict (map (fun '(group_name, features) =>
                (group_name, VDict (map (fun '(feature_name, stats) =>
                                           (feature_name, VDict stats)) features))) st).

Definition crosses_val (l : list (string * string * nat)) : PyVal :=
  VList (map (fun '(a, b, n) => VTuple [VStr a; VStr b; VNat n]) l).

(** [get_feature_statistics]; the same mapping is built inline by
    [build_preprocessor] and by [save_model]. *)
Definition get_feature_statistics (self : t) : dict string PyVal :=
  [ ("feature_statistics", stats_val (features_stats self));
    ("numeric_features", names_val (numeric_features self));
    ("categorical_features", names_val (categorical_features self));
    ("text_features", names_val (text_features self));
    ("date_features", names_val (date_features self));
    ("feature_crosses", crosses_val (feature_crosses self));
    ("output_mode", VStr (output_mode self)) ].

Definition default_text_stats : Stats :=
  [ ("vocab_size", VInt 10000); ("sequence_length", VInt 100); ("dtype", tf_string) ].

(** The body of the text loop of [build_preprocessor]. *)
Definition build_text (self : t) (feature_name : string) : Res t :=
  let self := _add_input_column self (KName feature_name) tf_string in
  let self := _add_input_signature self feature_name tf_string in
  input_layer <- Dict.getitem (inputs self) (KName feature_name) ;;
  let self :=
    if Dict.contains (features_stats self) "text" then self
    else set_features_stats (Dict.set (features_stats self) "text" []) self in
  text_group <- Dict.getitem (features_stats self) "text" ;;
  let text_stats :=
    match Dict.get text_group feature_name with
    | None => default_text_stats
    | Some st => st
    end in
  _add_pipeline_text self feature_name input_layer text_stats.

(** The body of the date loop of [build_preprocessor]. *)
Definition build_date (self : t) (feat_name : string) : Res t :=
  let self := _add_input_column self (KName feat_name) tf_string in
  let self := _add_input_signature self feat_name tf_string in
  input_layer <- Dict.getitem (inputs self) (KName feat_name) ;;
  _add_pipeline_date self feat_name input_layer.

(** What [build_preprocessor] returns ([output_dims], read off the Keras
    model, is left out). *)
Record BuildResult : Type := {
  r_model : Model;
  r_inputs : dict Key Tensor;
  r_signature : dict string TensorSpec;
  r_feature_stats : dict string PyVal
}.

(** [build_preprocessor]. The [except] clause only cleans caches and
    re-raises, so a failure is the failure of the step that raised. *)
Definition build_preprocessor (self : t) : Res (t * BuildResult) :=
  _ <- match features_specs self with
       | [] => Raise (ValueError "No features specified. Please provide features_specs.")
       | _ => Ok tt
       end ;;
  self <-
    (if match features_stats self with [] => true | _ => false end || overwrite_stats self
     then match stats_instance self with
          | None =>
              Raise (ValueError "stats_instance not initialized. Cannot calculate features stats.")
          | Some ds => Ok (set_features_stats (main ds) self)
          end
     else Ok self) ;;
  self <- fold_res (fun self '(_key, features_dict) =>
                      _process_features_parallel self features_dict)
                   (features_stats self) self ;;
  self <- match feature_crosses self with
          | [] => Ok self
          | _ => _add_pipeline_cross self
          end ;;
  self <- fold_res build_text (text_features self) self ;;
  self <- fold_res build_date (date_features self) self ;;
  self <- _prepare_outputs self ;;
  model_outputs <-
    (if String.eqb (output_mode self) CONCAT
     then match concat_all self with
          | Some c => Ok (OutTensor c)
          | None => Raise (AttributeError "concat_all")
          end
     else Ok (OutDict (outputs self))) ;;
  let m := new_Model (inputs self) model_outputs "preprocessor" in
  let self := set_model (Some m) self in
  Ok (self, Build_BuildResult m (inputs self) (signature self) (get_feature_statistics self)).

(** Reading an attribute that exists only once assigned. *)
Definition getattr {A : Type} (a : option A) (attr : string) : Res A :=
  match a with
  | Some v => Ok v
  | None => Raise (AttributeError attr)
  end.

(** [save_model]: the metadata block is normalised first; the call
    [self.model.save(..., signatures=self.signatures, ...)] then reads
    [self.model] and [self.signatures]. *)
Definition save_model (self : t) (model_path : string) (store : Store) : Res Store :=
  let stats_metadata := VDict (get_feature_statistics self) in
  stats_metadata <- json_roundtrip stats_metadata ;;
  m <- getattr (model self) "model" ;;
  sigs <- getattr (signatures self) "signatures" ;;
  Ok (keras_save m model_path sigs stats_metadata store).

(** [load_model]: the model and the [feature_statistics] entry of its
    metadata. *)
Definition load_model (store : Store) (model_path : string) : Res (Model * PyVal) :=
  m <- keras_load_model store model_path ;;
  let stats := Dict.get_default (_metadata m) "feature_statistics" (VDict []) in
  Ok (m, stats).
End Methods.
End PreprocessingModel.

(* ===================================================================== *)
(** ** A symbolic Keras: graphs as terms *)
(* ===================================================================== *)

Module Symbolic.

(** A tensor handle is the term that built it. [SOpaque] is a handle of a
    given shape produced elsewhere. *)
Inductive SymTensor : Type :=
| SInput (sh : list nat) (name : Key) (dtype : PyVal)
| SChain (p : FeaturePreprocessor) (input : list SymTensor)
| SReshape (target : list Z) (t : SymTensor)
| SConcat (name : string) (axis : Z) (ts : list SymTensor)
| STransformer (dim_model : option nat) (heads ff : nat) (dropout : Q) (name : string)
               (t : SymTensor)
| SOpaque (label : string) (sh : list (option nat)).

Record SymModel : Type := mkSymModel {
  m_inputs : dict Key SymTensor;
  m_outputs : ModelOutputs SymTensor;
  m_name : string;
  m_signatures : dict string TensorSpec;
  m_metadata : PyVal
}.

Definition add_dims (a b : option nat) : option nat :=
  match a, b with
  | Some x, Some y => Some (x + y)
  | _, _ => None
  end.

(** Shapes, as far as a term determines them: a chain's output shape is
    given by [chain_shape]; concatenation adds up the last axis. *)
Fixpoint sym_shape (chain_shape : FeaturePreprocessor -> list (option nat)) (t : SymTensor)
  : list (option nat) :=
  match t with
  | SInput sh _ _ => None :: map Some sh
  | SChain p _ => chain_shape p
  | SReshape target t' =>
      hd None (sym_shape chain_shape t')
         :: map (fun z => if (z <? 0)%Z then None else Some (Z.to_nat z)) target
  | SConcat _ _ ts =>
      match ts with
      | [] => []
      | t0 :: rest =>
          let sh0 := sym_shape chain_shape t0 in
          removelast sh0 ++
            [fold_left add_dims
               (map (fun t' => last (sym_shape chain_shape t') None) rest)
               (last sh0 None)]
      end
  | STransformer _ _ _ _ _ t' => sym_shape chain_shape t'
  | SOpaque _ sh => sh
  end.

Definition chain_inputs (i : ChainInput SymTensor) : list SymTensor :=
  match i with
  | OneInput t => [t]
  | ManyInputs ts => ts
  end.

Definition sym_metadata (m : SymModel) : dict string PyVal :=
  match m_metadata m with
  | VDict kvs => kvs
  | _ => []
  end.

(** The symbolic backend; saved artefacts are kept by path. *)
Definition SymKeras (chain_shape : FeaturePreprocessor -> list (option nat)) : Keras := {|
  Tensor := SymTensor;
  Model := SymModel;
  Store := dict string SymModel;
  Input := SInput;
  shape := sym_shape chain_shape;
  Reshape := SReshape;
  Concatenate := SConcat;
  transformer_block_layer := STransformer;
  chain := fun p i => SChain p (chain_inputs i);
  new_Model := fun ins outs n => mkSymModel ins outs n [] VNone;
  keras_save := fun m path sigs meta store =>
    Dict.set store path (mkSymModel (m_inputs m) (m_outputs m) (m_name m) sigs meta);
  keras_load_model := fun store path => Dict.getitem store path;
  _metadata := sym_metadata
|}.

(** Every chain yields one column per sample. *)
Definition column_shape : FeaturePreprocessor -> list (option nat) :=
  fun _ => [None; Some 1].

(** A sample choice of the constructor defaults. *)
Definition SampleDefaults : FeatureDefaults := {|
  default_dtype := fun c _ =>
    match c with
    | cls_NumericalFeature => VDType "float32"
    | _ => VDType "string"
    end;
  default_category_encoding := Some EMBEDDING;
  _embedding_size_rule := fun n => VInt (Z.of_nat (Nat.min 500 n))
|}.

End Symbolic.

(* ===================================================================== *)
(** ** Scenarios *)
(* ===================================================================== *)

Module Scenario.
Import FeatureSpaceConverter.

(** Scenario B of the specification: [age] numeric, [city] categorical. *)
Definition specs_age_city : dict string Spec :=
  [ ("age", SpecStr "float_normalized"); ("city", SpecStr "string_categorical") ].

Definition stats_age_city : FeaturesStats :=
  [ ("numeric_stats",
     [ ("age", [ ("mean", VInt 30); ("var", VInt 25); ("dtype", VDType "float32") ]) ]);
    ("categorical_stats",
     [ ("city", [ ("vocab", VList [VStr "NYC"; VStr "LA"]); ("dtype", VDType "string") ]) ]) ].

Definition no_collaborator : DatasetStatistics := {| _load_stats := []; main := [] |}.

(** The backend of the scenarios. *)
Definition backend : Keras := Symbolic.SymKeras Symbolic.column_shape.

(** A model object right after construction, with nothing declared. *)
Definition blank (output_mode : string) : PreprocessingModel.t (H := backend) :=
  PreprocessingModel.mk (H := backend) [] [] [] output_mode false None 3 16 (1 # 4)%Q PLACEMENT_CATEGORICAL
    [] [] [] [] [] [] [] [] None None None None.

(** A numeric descriptor that carries its own preprocessing steps. *)
Definition custom_feature : Feature :=
  mkFeature cls_NumericalFeature "x" (Some FLOAT) (VDType "float32")
            (Some [ {| cls_name := "MyLayer" |} ]) [] None.

Definition custom_model : PreprocessingModel.t (H := backend) :=
  PreprocessingModel.set_features_specs (H := backend) [("x", custom_feature)] (blank CONCAT).

Definition x_input : Symbolic.SymTensor := Symbolic.SInput [1] (KName "x") (VDType "float32").

(** Two models that declare [age], one as FLOAT_NORMALIZED and one as plain
    FLOAT, and the statistics of [age]. *)
Definition numeric_feature (ft : FeatureType) : Feature :=
  mkFeature cls_NumericalFeature "age" (Some ft) (VDType "float32") None [] None.

Definition normalized_model : PreprocessingModel.t (H := backend) :=
  PreprocessingModel.set_features_specs (H := backend)
    [("age", numeric_feature FLOAT_NORMALIZED)] (blank CONCAT).

Definition plain_float_model : PreprocessingModel.t (H := backend) :=
  PreprocessingModel.set_features_specs (H := backend)
    [("age", numeric_feature FLOAT)] (blank CONCAT).

Definition age_stats : Stats :=
  [ ("mean", VInt 30); ("var", VInt 25); ("dtype", VDType "float32") ].

(** A model that declares the one-hot encoded categorical [city]. *)
Definition city_feature : Feature :=
  mkFeature cls_CategoricalFeature "city" (Some STRING_CATEGORICAL) (VDType "string")
            None [] (Some ONE_HOT_ENCODING).

Definition city_model : PreprocessingModel.t (H := backend) :=
  PreprocessingModel.set_features_specs (H := backend) [("city", city_feature)] (blank CONCAT).

Definition city_stats : Stats :=
  [ ("vocab", VList [VStr "NYC"; VStr "LA"]); ("dtype", VDType "string") ].

(** A model that declares [a] and [b], crosses them into 10 buckets, and
    has a placeholder for [b] only. *)
Definition b_input : Symbolic.SymTensor := Symbolic.SInput [1] (KName "b") (VDType "float32").

Definition cross_model : PreprocessingModel.t (H := backend) :=
  PreprocessingModel.mk (H := backend) []
    [ ("a", mkFeature cls_NumericalFeature "a" (Some FLOAT) (VDType "float32") None [] None);
      ("b", mkFeature cls_NumericalFeature "b" (Some FLOAT) (VDType "float32") None [] None) ]
    [ ("a", "b", 10) ] CONCAT false None 3 16 (1 # 4)%Q PLACEMENT_CATEGORICAL
    [ (KName "b", b_input) ] [] [] [] ["a"; "b"] [] [] [] None None None None.

(** Statistics of three features, [y] without a [dtype] entry. *)
Definition three_features : dict string Stats :=
  [ ("x", [ ("mean", VInt 0); ("var", VInt 1); ("dtype", VDType "float32") ]);
    ("y", [ ("vocab", VList [VStr "u"]) ]);
    ("z", [ ("mean", VInt 2); ("var", VInt 3); ("vocab", VList []) ]) ].

(** Plain outputs of rank 2, 4 and 6, as the fusion stage may find them. *)
Definition rank2 : Symbolic.SymTensor := Symbolic.SOpaque "rank2" [None; Some 3].
Definition rank4 : Symbolic.SymTensor :=
  Symbolic.SOpaque "rank4" [None; Some 2; Some 2; Some 3].
Definition rank6 : Symbolic.SymTensor :=
  Symbolic.SOpaque "rank6" [None; Some 1; Some 1; Some 1; Some 1; Some 2].

Definition concat_model : PreprocessingModel.t (H := backend) :=
  PreprocessingModel.set_outputs (H := backend)
    [ ("r2", Some rank2); ("r4", Some rank4); ("r6", Some rank6) ] (blank CONCAT).

(** Scenario B end to end: construction, then [build_preprocessor], in
    DICT mode, over any backend. *)
Definition build_age_city `{Keras} `{FeatureDefaults} (output_mode : string)
  : Res (PreprocessingModel.t * PreprocessingModel.BuildResult) :=
  pm <- PreprocessingModel.__init__ (Some stats_age_city) None output_mode false
          (Some specs_age_city) None 3 16 (1 # 4)%Q PLACEMENT_CATEGORICAL no_collaborator ;;
  PreprocessingModel.build_preprocessor pm.

End Scenario.

(* ===================================================================== *)
(** ** Vocabulary of the properties *)
(* ===================================================================== *)

Module Expected.

(** A single normalisation step parameterised by mean and variance. *)
Definition normalization_chain (feature_name : string) (mean variance : PyVal)
  : FeaturePreprocessor :=
  mkPreprocessor feature_name
    [ mkStep (LayerName "Normalization") ("norm_" ++ feature_name)
             [("mean", mean); ("variance", variance)] ].

(** Subtypes that fall to the default numeric policy: everything but
    rescaling and discretisation, an unset subtype included. *)
Definition is_default_subtype (ft : option FeatureType) : bool :=
  match ft with
  | Some FLOAT_RESCALED | Some FLOAT_DISCRETIZED => false
  | _ => true
  end.

(** An index lookup over the vocabulary with one out-of-vocabulary bucket. *)
Definition lookup_step (layer_name feature_name : string) (vocab : PyVal) : Step :=
  mkStep (LayerName layer_name) ("lookup_" ++ feature_name)
         [("vocabulary", vocab); ("num_oov_indices", VInt 1)].

Definition one_hot_step (feature_name : string) (num_tokens : nat) : Step :=
  mkStep (LayerName "CategoryEncoding") ("one_hot_" ++ feature_name)
         [("num_tokens", VInt (Z.of_nat num_tokens)); ("output_mode", VStr "one_hot")].

Definition cast_step (feature_name : string) : Step :=
  mkStep (LayerCreator "cast_to_float32_layer") ("cast_to_float_" ++ feature_name) [].

Definition flatten_step (feature_name : string) : Step :=
  mkStep (LayerName "Flatten") ("flatten_" ++ feature_name) [].

Definition hashed_crossing_step (feature_name : string) (num_bins : nat) : Step :=
  mkStep (LayerName "HashedCrossing") ("cross_" ++ feature_name)
         [("num_bins", VInt (Z.of_nat num_bins))].

(** The statistics keys a builder reads before it does anything else. *)
Definition required_keys (kind : GroupKind) : list string :=
  match kind with
  | numeric => ["mean"; "var"]
  | categorical => ["vocab"]
  | text | date => []
  end.

(** The first of the keys that the statistics record lacks. *)
Definition first_missing (required : list string) (stats : Stats) : option string :=
  find (fun k => negb (Dict.contains stats k)) required.

End Expected.

(* ===================================================================== *)
(** ** Vocabulary of the normaliser's properties *)
(* ===================================================================== *)

Module Declared.
Import FeatureSpaceConverter.

Definition FeatureClass_eqb (a b : FeatureClass) : bool :=
  match a, b with
  | cls_Feature, cls_Feature | cls_NumericalFeature, cls_NumericalFeature
  | cls_CategoricalFeature, cls_CategoricalFeature
  | cls_TextFeature, cls_TextFeature | cls_DateFeature, cls_DateFeature => true
  | _, _ => false
  end.

(** The descriptor class a type tag stands for; none for an unset tag. *)
Definition class_of_type (ft : option FeatureType) : option FeatureClass :=
  match ft with
  | Some FLOAT | Some FLOAT_NORMALIZED | Some FLOAT_RESCALED | Some FLOAT_DISCRETIZED =>
      Some cls_NumericalFeature
  | Some INTEGER_CATEGORICAL | Some STRING_CATEGORICAL => Some cls_CategoricalFeature
  | Some TEXT => Some cls_TextFeature
  | Some DATE => Some cls_DateFeature
  | Some CROSSES | None => None
  end.

(** The class of the descriptor a declaration stands for, when it stands
    for one. *)
Definition declared_class (spec : Spec) : option FeatureClass :=
  match spec with
  | SpecFeature f => if is_kind_instance f then Some (f_class f) else class_of_type (feature_type f)
  | SpecStr s =>
      match FeatureType_by_name (upper s) with
      | Ok ft => class_of_type (Some ft)
      | Raise _ => None
      end
  | SpecType ft => class_of_type (Some ft)
  | SpecOther _ | SpecUnhashable _ _ => None
  end.

(** The declared names of one class, in declaration order. *)
Definition names_of_class (c : FeatureClass) (specs : dict string Spec) : list string :=
  map fst (filter (fun entry => match declared_class (snd entry) with
                                | Some c' => FeatureClass_eqb c c'
                                | None => false
                                end) specs).

(** The error a declaration that stands for no descriptor is answered
    with: the [KeyError] of the enum lookup for a string that names no
    member, the [TypeError] of the set membership test for an unhashable
    object, the [ValueError] of the ladder's last branch otherwise. *)
Definition entry_error (name : string) (spec : Spec) : Exc :=
  let unsupported :=
    ValueError ("Unsupported feature type for feature '" ++ name ++ "': " ++ spec_str spec) in
  match spec with
  | SpecStr s =>
      match Dict.get FeatureType_members (upper s) with
      | Some _ => unsupported
      | None => KeyError (upper s)
      end
  | SpecUnhashable type_name _ => TypeError ("unhashable type: '" ++ type_name ++ "'")
  | _ => unsupported
  end.


(** The per-class name list of a converter. *)
Definition names_in (c : FeatureClass) (self : FeatureSpaceConverter.t) : list string :=
  match c with
  | cls_NumericalFeature => numeric_features self
  | cls_CategoricalFeature => categorical_features self
  | cls_TextFeature => text_features self
  | cls_DateFeature => date_features self
  | cls_Feature => []
  end.

End Declared.

(** Declarations used as sample inputs. *)
Module Samples.
Import FeatureSpaceConverter.

Definition custom_descriptor : Feature :=
  mkFeature cls_Feature "ignored" (Some INTEGER_CATEGORICAL) (VDType "int32")
            (Some [ {| cls_name := "Hashing" |} ]) [("num_bins", VInt 8)] None.

Definition typed_descriptor : Feature :=
  mkFeature cls_DateFeature "when" (Some DATE) (VDType "string") None
            [("add_season", VBool true)] None.

Definition mixed_specs : dict string Spec :=
  [ ("price", SpecStr "Float_Rescaled"); ("shop", SpecFeature custom_descriptor);
    ("note", SpecType TEXT); ("when", SpecFeature typed_descriptor);
    ("size", SpecType FLOAT) ].




End Samples.

(* ===================================================================== *)
(** ** Vocabulary of the builders' properties *)
(* ===================================================================== *)

Module Calls.

(** A key of a [**]-expanded configuration repeats a keyword the call
    already passes. *)
Definition clashes (reserved : list string) (kw : dict string PyVal) : bool :=
  existsb (fun k => existsb (String.eqb k) reserved) (map fst kw).

(** The step a custom layer class becomes. *)
Definition custom_step (feature_name : string) (kw : dict string PyVal) (c : LayerClass) : Step :=
  mkStep (LayerObj c) (cls_name c ++ "_" ++ feature_name) kw.

End Calls.

Module BuilderSamples.

Definition model_with (f : Feature) (output_mode : string)
  : PreprocessingModel.t (H := Scenario.backend) :=
  PreprocessingModel.set_features_specs (H := Scenario.backend)
    [(Features.name f, f)] (Scenario.blank output_mode).

Definition discretized (kw : dict string PyVal) : Feature :=
  mkFeature cls_NumericalFeature "age" (Some FLOAT_DISCRETIZED) (VDType "float32") None kw None.

Definition boundaries : dict string PyVal :=
  [("bin_boundaries", VList [VInt 18; VInt 40; VInt 65])].

Definition two_steps (kw : dict string PyVal) : Feature :=
  mkFeature cls_NumericalFeature "age" (Some FLOAT_NORMALIZED) (VDType "float32")
            (Some [ {| cls_name := "Clip" |}; {| cls_name := "Log" |} ]) kw None.


Definition age_input : Symbolic.SymTensor :=
  Symbolic.SInput [1] (KName "age") (VDType "float32").

End BuilderSamples.

Module TextSamples.

Definition note (kw : dict string PyVal) : Feature :=
  mkFeature cls_TextFeature "note" (Some TEXT) (VDType "string") None kw None.

Definition note_input : Symbolic.SymTensor :=
  Symbolic.SInput [1] (KName "note") (VDType "string").

Definition note_stats : Stats := [("vocab", VList [VStr "good"; VStr "bad"])].


Definition when (kw : dict string PyVal) : Feature :=
  mkFeature cls_DateFeature "when" (Some DATE) (VDType "string") None kw None.


(** Two declared string features with placeholders, crossed twice over. *)
Definition crossed : PreprocessingModel.t (H := Scenario.backend) :=
  PreprocessingModel.mk (H := Scenario.backend) []
    [ ("a", mkFeature cls_CategoricalFeature "a" (Some STRING_CATEGORICAL) (VDType "string")
                      None [] (Some ONE_HOT_ENCODING));
      ("b", mkFeature cls_CategoricalFeature "b" (Some STRING_CATEGORICAL) (VDType "string")
                      None [] (Some ONE_HOT_ENCODING)) ]
    [ ("a", "b", 10); ("b", "a", 5); ("a", "b", 20) ] CONCAT false None 3 16 (1 # 4)%Q
    PLACEMENT_CATEGORICAL
    [ (KName "a", Symbolic.SInput [1] (KName "a") (VDType "string"));
      (KName "b", Symbolic.SInput [1] (KName "b") (VDType "string")) ]
    [] [] [] [] ["a"; "b"] [] [] None None None None.

End TextSamples.

(* ===================================================================== *)
(** ** Vocabulary of the fusion stage's properties *)
(* ===================================================================== *)

Module Fusion.
Section Active.
Context `{Keras}.

(** Transformer blocks are inserted: a block count that is set and not
    zero, and one of the two placements the fusion stage tests for. *)
Definition transformer_active (self : PreprocessingModel.t) : bool :=
  negb (Nat.eqb (PreprocessingModel.nr_blocks self) 0)
  && (String.eqb (PreprocessingModel.transfo_placement self) PLACEMENT_CATEGORICAL
      || String.eqb (PreprocessingModel.transfo_placement self) PLACEMENT_ALL_FEATURES).
End Active.
End Fusion.

Module SchedulerSamples.

(** [x] numeric, [y] categorical, [w] with statistics that select no group. *)
Definition declared : PreprocessingModel.t (H := Scenario.backend) :=
  PreprocessingModel.set_features_specs (H := Scenario.backend)
    [ ("x", mkFeature cls_NumericalFeature "x" (Some FLOAT) (VDType "float32") None [] None);
      ("y", mkFeature cls_CategoricalFeature "y" (Some STRING_CATEGORICAL) (VDType "string")
                      None [] (Some ONE_HOT_ENCODING)) ]
    (Scenario.blank CONCAT).

(** [x] and [z] numeric, [y] categorical. *)
Definition declared_xyz : PreprocessingModel.t (H := Scenario.backend) :=
  PreprocessingModel.set_features_specs (H := Scenario.backend)
    [ ("x", mkFeature cls_NumericalFeature "x" (Some FLOAT) (VDType "float32") None [] None);
      ("y", mkFeature cls_CategoricalFeature "y" (Some STRING_CATEGORICAL) (VDType "string")
                      None [] (Some ONE_HOT_ENCODING));
      ("z", mkFeature cls_NumericalFeature "z" (Some FLOAT) (VDType "float32") None [] None) ]
    (Scenario.blank CONCAT).

(** [z] with both a mean and a vocabulary. *)
Definition stats_xyz : dict string Stats :=
  [ ("x", [ ("mean", VInt 0); ("var", VInt 1); ("dtype", VDType "float32") ]);
    ("y", [ ("vocab", VList [VStr "u"]); ("dtype", VDType "string") ]);
    ("z", [ ("mean", VInt 2); ("var", VInt 3); ("vocab", VList [VStr "u"]);
            ("dtype", VDType "float32") ]) ].

Definition stats_xyw : dict string Stats :=
  [ ("x", [ ("mean", VInt 0); ("var", VInt 1); ("dtype", VDType "float32") ]);
    ("w", [ ("count", VInt 7); ("dtype", VDType "int64") ]);
    ("y", [ ("vocab", VList [VStr "u"]) ]) ].

(** A DICT-mode model whose outputs were written in another order than its
    inputs, with one output that belongs to no input. *)
Definition out_of_order : PreprocessingModel.t (H := Scenario.backend) :=
  PreprocessingModel.mk (H := Scenario.backend) [] [] [] DICT false None 3 16 (1 # 4)%Q
    PLACEMENT_CATEGORICAL
    [ (KName "a", Symbolic.SOpaque "in_a" [None; Some 1]);
      (KName "b", Symbolic.SOpaque "in_b" [None; Some 1]);
      (KName "c", Symbolic.SOpaque "in_c" [None; Some 1]) ]
    []
    [ ("a_x_b", Some (Symbolic.SOpaque "cross" [None; Some 1]));
      ("c", Some (Symbolic.SOpaque "out_c" [None; Some 1]));
      ("a", Some (Symbolic.SOpaque "out_a" [None; Some 1])) ]
    [] [] [] [] [] None None None None.

(** Two plain outputs of rank 2 and no categorical one. *)
Definition plain_columns : PreprocessingModel.t (H := Scenario.backend) :=
  PreprocessingModel.set_outputs (H := Scenario.backend)
    [ ("x", Some (Symbolic.SOpaque "x" [None; Some 1]));
      ("y", Some (Symbolic.SOpaque "y" [None; Some 3])) ] (Scenario.blank CONCAT).


End SchedulerSamples.

(* ===================================================================== *)
(** ** Vocabulary of the metadata properties *)
(* ===================================================================== *)

Module Json.

(** A value JSON can hold as it is: no dtype object, no foreign object, no
    tuple, at any depth. *)
Fixpoint json_native (v : PyVal) : bool :=
  match v with
  | VList l => forallb json_native l
  | VDict kvs => forallb (fun kv => json_native (snd kv)) kvs
  | VTuple _ | VDType _ | VObj _ => false
  | VNone | VBool _ | VInt _ | VFloat _ | VStr _ => true
  end.

(** The value holds, at some depth, an object that is neither JSON-native
    nor a dtype. *)
Fixpoint has_foreign (v : PyVal) : bool :=
  match v with
  | VObj _ => true
  | VList l | VTuple l => existsb has_foreign l
  | VDict kvs => existsb (fun kv => has_foreign (snd kv)) kvs
  | VNone | VBool _ | VInt _ | VFloat _ | VStr _ | VDType _ => false
  end.

(** The JSON reading of a value: dtype objects by name, tuples as lists. *)
Fixpoint normalize (v : PyVal) : PyVal :=
  match v with
  | VList l | VTuple l => VList (map normalize l)
  | VDict kvs => VDict (map (fun kv => (fst kv, normalize (snd kv))) kvs)
  | VDType name => VStr name
  | VNone | VBool _ | VInt _ | VFloat _ | VStr _ | VObj _ => v
  end.

(** The error of the encoder on an object its [default] hook hands back. *)
Definition circular : Exc := ValueError "Circular reference detected".

Definition crosses_as_lists (l : list (string * string * nat)) : PyVal :=
  VList (map (fun '(a, b, n) => VList [VStr a; VStr b; VInt (Z.of_nat n)]) l).

End Json.

Module JsonSamples.

Definition with_dtypes : PyVal :=
  VDict [ ("age", VDict [ ("mean", VFloat (61 # 2)%Q); ("dtype", VDType "float32") ]);
          ("pairs", VList [ VTuple [VStr "a"; VInt 1]; VNone ]) ].

Definition with_array : PyVal :=
  VDict [ ("age", VDict [ ("mean", VObj "array(30.5)"); ("dtype", VDType "float32") ]) ].

(** A model whose statistics hold dtype objects and whose crosses are
    tuples. *)
Definition crossed_with_stats : PreprocessingModel.t (H := Scenario.backend) :=
  PreprocessingModel.mk (H := Scenario.backend) Scenario.stats_age_city [] [ ("age", "city", 10) ]
    CONCAT false None 3 16 (1 # 4)%Q PLACEMENT_CATEGORICAL
    [] [] [] [] ["age"] ["city"] [] [] None None None None.

End JsonSamples.

(* ===================================================================== *)
(** ** PreprocessingModel: the memo, the cleanup and batch prediction *)
(* ===================================================================== *)

Module Runtime.

(** The attributes the memo and the cleanup work on: [use_caching],
    [_preprocessed_cache] ([None] when caching is off), and the two
    transient lists of the fusion stage, which exist only once assigned. *)
Record Transient (T : Type) : Type := mkTransient {
  use_caching : bool;
  _preprocessed_cache : option (dict string T);
  features_to_concat : option (list (option T));
  features_cat_to_concat : option (list T)
}.
Arguments mkTransient {T}.
Arguments use_caching {T}.
Arguments _preprocessed_cache {T}.
Arguments features_to_concat {T}.
Arguments features_cat_to_concat {T}.

(** What [__init__] assigns: [{} if use_caching else None]. *)
Definition init_transient {T : Type} (use_caching : bool) : Transient T :=
  mkTransient use_caching (if use_caching then Some [] else None) None None.

Definition set_cache {T : Type} (self : Transient T) (c : option (dict string T)) : Transient T :=
  mkTransient (use_caching self) c (features_to_concat self) (features_cat_to_concat self).

(** [feature_name not in self._preprocessed_cache] *)
Definition not_in_cache {T : Type} (self : Transient T) (feature_name : string) : Res bool :=
  match _preprocessed_cache self with
  | Some c => Ok (negb (Dict.contains c feature_name))
  | None => Raise (TypeError "argument of type 'NoneType' is not iterable")
  end.

(** [_get_cached_or_process]; [processor_fn] is what calling the processor
    with its arguments gives. The result is the returned tensor and the
    object's attributes afterwards. *)
Definition _get_cached_or_process {T : Type} (self : Transient T) (feature_name : string)
    (processor_fn : Res T) : Res (T * Transient T) :=
  miss <- (if negb (use_caching self) then Ok true else not_in_cache self feature_name) ;;
  if (miss : bool)
  then
    processed <- processor_fn ;;
    if use_caching self
    then match _preprocessed_cache self with
         | Some c => Ok (processed, set_cache self (Some (Dict.set c feature_name processed)))
         | None => Raise (TypeError "'NoneType' object does not support item assignment")
         end
    else Ok (processed, self)
  else
    match _preprocessed_cache self with
    | Some c => v <- Dict.getitem c feature_name ;; Ok (v, self)
    | None => Raise (TypeError "'NoneType' object is not subscriptable")
    end.

(** [_cleanup_intermediate_tensors]: a cache that holds something is
    cleared, the transient lists are deleted. *)
Definition _cleanup_intermediate_tensors {T : Type} (self : Transient T) : Transient T :=
  mkTransient (use_caching self)
    (match _preprocessed_cache self with
     | Some (_ :: _) => Some []
     | c => c
     end)
    None None.

Section Predict.
(** Batches, predictions and models; [predict] is [model.predict], and
    [completion] is the order in which the pool completes what was
    submitted to it ([as_completed]). *)
Context {B P M : Type}.
Variable predict : M -> B -> Res P.
Variable completion : list (Res P) -> list (Res P).

(** [_predict_batch_parallel]: the results in completion order, or the
    first failure in that order. *)
Definition _predict_batch_parallel (batches : list B) (model : M) : Res (list P) :=
  map_res (fun r => r) (completion (map (predict model) batches)).

(** What a generator does when it is run to its end: the values it yields
    and the exception that ends it, if one does. *)
Definition Yielded : Type := list P * option Exc.

Definition flush (batches : list B) (model : M) (rest : Yielded) : Yielded :=
  match _predict_batch_parallel batches model with
  | Ok results => (results ++ fst rest, snd rest)
  | Raise e => ([], Some e)
  end.

(** The parallel branch of [batch_predict]: [batches] is the list collected
    so far. *)
Fixpoint parallel_loop (model : M) (_batch_size : nat) (data batches : list B) : Yielded :=
  match data with
  | [] =>
      match batches with
      | [] => ([], None)
      | _ => flush batches model ([], None)
      end
  | batch :: data' =>
      let batches := batches ++ [batch] in
      if Nat.leb _batch_size (List.length batches)
      then flush batches model (parallel_loop model _batch_size data' [])
      else parallel_loop model _batch_size data' batches
  end.

(** The sequential branch of [batch_predict]. *)
Fixpoint sequential_loop (model : M) (data : list B) : Yielded :=
  match data with
  | [] => ([], None)
  | batch :: data' =>
      match predict model batch with
      | Ok p => let rest := sequential_loop model data' in (p :: fst rest, snd rest)
      | Raise e => ([], Some e)
      end
  end.

(** [batch_predict]: [self_model] and [self_batch_size] are the object's
    [model] (once built) and [batch_size]; a batch size of [None] or [0]
    falls back to the object's. *)
Definition batch_predict (self_model : option M) (self_batch_size : nat) (data : list B)
    (model : option M) (batch_size : option nat) (parallel : bool) : Yielded :=
  match (match model with
         | Some m => Ok m
         | None => PreprocessingModel.getattr self_model "model"
         end) with
  | Raise e => ([], Some e)
  | Ok _model =>
      let _batch_size :=
        match batch_size with
        | Some (S n) => S n
        | _ => self_batch_size
        end in
      if parallel then parallel_loop _model _batch_size data []
      else sequential_loop _model data
  end.
End Predict.

End Runtime.

Module RuntimeSamples.

(** Predictions that double an even number and fail on an odd one. *)
Definition double_even (model : unit) (batch : nat) : Res nat :=
  if Nat.even batch then Ok (2 * batch) else Raise (ValueError "odd batch").

Definition cached_age : Runtime.Transient nat :=
  Runtime.mkTransient true (Some [("age", 7)]) (Some [Some 7]) None.

End RuntimeSamples.

Module Slots.
Section Slots.
Context `{Keras}.

(** The placeholder and the signature of a string feature. *)
Definition string_slots (self : PreprocessingModel.t) (n : string) : Prop :=
  Dict.get (PreprocessingModel.inputs self) (KName n) = Some (Input [1] (KName n) tf_string)
  /\ Dict.get (PreprocessingModel.signature self) n
     = Some (mkTensorSpec [None; Some 1] tf_string n).
End Slots.
End Slots.

Module BuildSamples.

(** A text feature whose statistics claim an integer dtype, and a date
    feature without statistics. *)
Definition note_and_when : PreprocessingModel.t (H := Scenario.backend) :=
  PreprocessingModel.mk (H := Scenario.backend)
    [ ("text", [ ("note", [ ("vocab", VList [VStr "good"; VStr "bad"]);
                            ("dtype", VDType "int64") ]) ]) ]
    [ ("note", TextSamples.note []); ("when", TextSamples.when []) ]
    [] DICT false None 3 16 (1 # 4)%Q PLACEMENT_CATEGORICAL
    [] [] [] [] [] [] ["note"] ["when"] None None None None.

End BuildSamples.

(* ===================================================================== *)
(** * Properties *)
(* ===================================================================== *)

Import PreprocessingModel.

(** ** Dictionaries *)

#[export] Instance string_DictKeyLaws : DictKeyLaws string.
Proof. constructor. exact String.eqb_eq. Qed.

#[export] Instance Key_DictKeyLaws : DictKeyLaws Key.
Proof.
  constructor. intros [x|x] [y|y]; simpl; rewrite ?String.eqb_eq;
    split; intros E; try discriminate; congruence.
Qed.

Section DictFacts.
Context {K V : Type} `{DictKeyLaws K}.

Lemma keq_refl (k : K) : keq k k = true.
Proof. now apply keq_spec. Qed.

Lemma keq_neq (k k' : K) : k <> k' -> keq k k' = false.
Proof.
  intros Hne. destruct (keq k k') eqn:E; [|reflexivity].
  apply keq_spec in E. contradiction.
Qed.

Lemma keq_reflect (k k' : K) : reflect (k = k') (keq k k').
Proof. apply iff_reflect. symmetry. apply keq_spec. Qed.

Lemma get_set_same (d : dict K V) (k : K) (v : V) : Dict.get (Dict.set d k v) k = Some v.
Proof.
  induction d as [|[k' v'] d IH]; simpl.
  - now rewrite keq_refl.
  - destruct (keq k k') eqn:E; simpl; rewrite E; auto.
Qed.

Lemma get_set_other (d : dict K V) (k k' : K) (v : V) :
  keq k' k = false -> Dict.get (Dict.set d k v) k' = Dict.get d k'.
Proof.
  intros Hne. induction d as [|[k0 v0] d IH]; simpl.
  - now rewrite Hne.
  - destruct (keq_reflect k k0) as [->|Hk]; simpl.
    + now rewrite Hne.
    + now rewrite IH.
Qed.

Lemma get_none_not_in (d : dict K V) (k : K) :
  Dict.get d k = None <-> ~ In k (Dict.keys d).
Proof.
  induction d as [|[k' v'] d IH]; simpl.
  - tauto.
  - destruct (keq_reflect k k') as [->|Hk].
    + split; [discriminate | intros Hn; exfalso; apply Hn; now left].
    + rewrite IH. split; intros Hn; [intros [E|Hin]; [congruence | tauto] | tauto].
Qed.

Lemma get_in (d : dict K V) (k : K) (v : V) :
  NoDup (Dict.keys d) -> In (k, v) d -> Dict.get d k = Some v.
Proof.
  induction d as [|[k' v'] d IH]; simpl; [tauto|].
  intros Hnd [E|Hin]; inversion Hnd as [|? ? Hnotin Hnd']; subst.
  - inversion E; subst. now rewrite keq_refl.
  - destruct (keq_reflect k k') as [->|Hk]; [|auto].
    exfalso. apply Hnotin. unfold Dict.keys. apply in_map_iff. now exists (k', v).
Qed.

Lemma keys_set (d : dict K V) (k : K) (v : V) :
  Dict.keys (Dict.set d k v) = if Dict.contains d k then Dict.keys d else Dict.keys d ++ [k].
Proof.
  unfold Dict.contains.
  induction d as [|[k' v'] d IH]; simpl; [reflexivity|].
  destruct (keq_reflect k k') as [->|Hk]; simpl; [reflexivity|].
  unfold Dict.keys in *. rewrite IH. now destruct (Dict.get d k).
Qed.
End DictFacts.

(** ** Output fusion, CONCAT mode *)

Section FusionFacts.
Context `{Keras}.

(** The rank test of the reshaping loop compares with [2 | 4 = 6]. *)
Lemma reshape_feature_rank (x : Tensor) :
  reshape_feature (Some x)
  = Ok (if Nat.eqb (List.length (shape x)) 6 then Reshape [(-1)%Z] x else x).
Proof. reflexivity. Qed.

Lemma reshape_feature_rank_2_or_4 (x : Tensor) :
  List.length (shape x) = 2 \/ List.length (shape x) = 4 ->
  reshape_feature (Some x) = Ok x.
Proof. rewrite reshape_feature_rank. now intros [-> | ->]. Qed.
End FusionFacts.

(** C1: on plain outputs of rank 2, 4 and 6 the CONCAT branch of the fusion
    stage concatenates the rank-2 and the rank-4 tensor as they are and
    reshapes the rank-6 one: the rank test [len(shape) == 2 | 4] is a test
    for rank 6, not for "rank 2 or rank 4". *)
Theorem fuse_concat_reshapes_rank_six_only :
  fuse_concat Scenario.concat_model
  = Ok (Some (Symbolic.SConcat "ConcatenateNumeric" (-1)%Z
                [ Scenario.rank2; Scenario.rank4;
                  Symbolic.SReshape [(-1)%Z] Scenario.rank6 ])).
Proof. vm_compute. reflexivity. Qed.

(** ** Feature-space normalisation *)

Section ConverterFacts.
Context `{FeatureDefaults}.
Import FeatureSpaceConverter.

Lemma upper_ascii_idem (c : ascii) : upper_ascii (upper_ascii c) = upper_ascii c.
Proof.
  destruct c as [[] [] [] [] [] [] [] []]; reflexivity.
Qed.

Lemma upper_idem (s : string) : upper (upper s) = upper s.
Proof. induction s as [|c s IH]; simpl; [reflexivity|]. now rewrite upper_ascii_idem, IH. Qed.

(** String tags are resolved through [upper]: two spellings that agree up
    to letter case are normalised alike (the tag without a kind class
    apart, where the error message quotes the spelling). *)
Lemma convert_one_case_insensitive (self : FeatureSpaceConverter.t) (name s s' : string) :
  upper s = upper s' ->
  FeatureType_by_name (upper s) <> Ok CROSSES ->
  convert_one self name (SpecStr s) = convert_one self name (SpecStr s').
Proof.
  intros E Hk. unfold convert_one. rewrite E in *.
  destruct (FeatureType_by_name (upper s')) as [ft|e]; [|reflexivity].
  destruct ft; try reflexivity. now contradiction Hk.
Qed.

(** A string that resolves to a tag with a kind class yields a descriptor
    carrying the resolved tag. *)
Lemma convert_one_resolved (self : FeatureSpaceConverter.t) (name s : string)
    (ft : FeatureType) :
  FeatureType_by_name (upper s) = Ok ft ->
  ft <> CROSSES ->
  exists self' f,
    convert_one self name (SpecStr s) = Ok self'
    /\ Dict.get (features_space self') name = Some f
    /\ feature_type f = Some ft /\ Features.name f = name.
Proof.
  intros E Hk. unfold convert_one. rewrite E. simpl.
  destruct ft; try contradiction; simpl; eexists; eexists; (split; [reflexivity|]);
    simpl; rewrite get_set_same; auto.
Qed.
End ConverterFacts.

(** C4: a string tag that names no member of [FeatureType] makes the
    normaliser fail inside the enum lookup, with a [KeyError] that carries
    the upper-cased string; the "Unsupported feature type" [ValueError]
    naming the feature is not reached, and the error does not depend on the
    feature's name. *)
Theorem unresolved_string_raises_key_error `{FeatureDefaults}
    (self : FeatureSpaceConverter.t) (name s : string) (rest : dict string FeatureSpaceConverter.Spec) :
  Dict.get FeatureType_members (upper s) = None ->
  FeatureSpaceConverter._init_features_specs self ((name, FeatureSpaceConverter.SpecStr s) :: rest)
  = Raise (KeyError (upper s)).
Proof.
  intros E. simpl. unfold FeatureSpaceConverter.convert_one, FeatureType_by_name, Dict.getitem.
  now rewrite E.
Qed.

Lemma unresolved_string_raises_key_error_witness :
  Dict.get FeatureType_members (upper "foo") = None
  /\ FeatureSpaceConverter._init_features_specs (H := Symbolic.SampleDefaults)
       FeatureSpaceConverter.init [("age", FeatureSpaceConverter.SpecStr "foo")]
     = Raise (KeyError "FOO").
Proof.
  split; [reflexivity|].
  apply (unresolved_string_raises_key_error (H := Symbolic.SampleDefaults)
           FeatureSpaceConverter.init "age" "foo" []).
  reflexivity.
Defined.

(** ** Per-feature builders *)

Section BuilderFacts.
Context `{Keras} `{FeatureDefaults}.
Import Expected.

Lemma bind_ok {A B : Type} (c : Res A) (k : A -> Res B) (b : B) :
  bind c k = Ok b -> exists a, c = Ok a /\ k a = Ok b.
Proof. destruct c as [a|e]; simpl; [eauto | discriminate]. Qed.

Lemma add_step_plain (p : FeaturePreprocessor) (l : LayerRef) (nm : string)
    (explicit : list (string * PyVal)) :
  add_processing_step p l nm explicit []
  = Ok (mkPreprocessor (fp_name p) (steps p ++ [mkStep l nm explicit])).
Proof. unfold add_processing_step. simpl. now rewrite app_nil_r. Qed.

Lemma getitem_some {V : Type} (d : dict string V) (k : string) (v : V) :
  Dict.get d k = Some v -> Dict.getitem d k = Ok v.
Proof. unfold Dict.getitem. now intros ->. Qed.

Lemma getitem_none {V : Type} (d : dict string V) (k : string) :
  Dict.get d k = None -> Dict.getitem d k = Raise (KeyError k).
Proof. unfold Dict.getitem. now intros ->. Qed.

(** The default numeric policy is one normalisation step unless the subtype
    asks for rescaling or discretisation. *)
Lemma numeric_pipeline_default (self : t) (feature_name : string) (stats : Stats)
    (f : Feature) (mean variance : PyVal) :
  Dict.get (features_specs self) feature_name = Some f ->
  has_custom_steps f = false ->
  is_default_subtype (feature_type f) = true ->
  Dict.get stats "mean" = Some mean ->
  Dict.get stats "var" = Some variance ->
  numeric_pipeline self feature_name stats = Ok (normalization_chain feature_name mean variance).
Proof.
  intros Hf Hc Hd Hm Hv. unfold numeric_pipeline.
  rewrite (getitem_some _ _ _ Hm), (getitem_some _ _ _ Hv), (getitem_some _ _ _ Hf).
  simpl. rewrite Hc. unfold numeric_default_steps.
  destruct (feature_type f) as [[]|]; try discriminate Hd; apply add_step_plain.
Qed.

(** C7: without custom steps, a FLOAT_NORMALIZED feature and a feature whose
    subtype is unset or anything but rescaled/discretized get the same
    default pipeline from the same mean and variance: one normalisation
    step with that mean and variance. *)
Theorem float_normalized_same_as_default (self1 self2 : t) (feature_name : string)
    (stats1 stats2 : Stats) (f1 f2 : Feature) (mean variance : PyVal) :
  Dict.get (features_specs self1) feature_name = Some f1 ->
  Dict.get (features_specs self2) feature_name = Some f2 ->
  has_custom_steps f1 = false ->
  has_custom_steps f2 = false ->
  feature_type f1 = Some FLOAT_NORMALIZED ->
  is_default_subtype (feature_type f2) = true ->
  Dict.get stats1 "mean" = Some mean -> Dict.get stats1 "var" = Some variance ->
  Dict.get stats2 "mean" = Some mean -> Dict.get stats2 "var" = Some variance ->
  numeric_pipeline self1 feature_name stats1 = numeric_pipeline self2 feature_name stats2
  /\ numeric_pipeline self1 feature_name stats1
     = Ok (normalization_chain feature_name mean variance).
Proof.
  intros Hf1 Hf2 Hc1 Hc2 Ht1 Ht2 Hm1 Hv1 Hm2 Hv2.
  assert (Hd1 : is_default_subtype (feature_type f1) = true) by now rewrite Ht1.
  rewrite (numeric_pipeline_default self1 _ _ _ _ _ Hf1 Hc1 Hd1 Hm1 Hv1).
  rewrite (numeric_pipeline_default self2 _ _ _ _ _ Hf2 Hc2 Ht2 Hm2 Hv2).
  split; reflexivity.
Qed.

(** Whatever the descriptor, a categorical chain that gets built ends with
    the flattening step. *)
Lemma categorical_pipeline_ends_with_flatten (self : t) (feature_name : string)
    (stats : Stats) (p : FeaturePreprocessor) :
  categorical_pipeline self feature_name stats = Ok p ->
  exists front, steps p = front ++ [flatten_step feature_name].
Proof.
  unfold categorical_pipeline. intros Hp.
  apply bind_ok in Hp as (vocab & _ & Hp).
  apply bind_ok in Hp as (f & _ & Hp).
  apply bind_ok in Hp as (p1 & _ & Hp).
  apply bind_ok in Hp as (p2 & _ & Hp).
  rewrite add_step_plain in Hp. inversion Hp; subst. simpl. now exists (steps p2).
Qed.

(** C8: without custom steps the categorical chain starts with the string
    (resp. integer) lookup over the statistics vocabulary with one
    out-of-vocabulary bucket; under one-hot encoding it goes on with a
    category encoding over [len(vocab) + 1] tokens and a float cast; and its
    last step is the flattening step. *)
Theorem categorical_default_pipeline (self : t) (feature_name : string) (stats : Stats)
    (f : Feature) (vocab : list PyVal) :
  Dict.get (features_specs self) feature_name = Some f ->
  Dict.get stats "vocab" = Some (VList vocab) ->
  has_custom_steps f = false ->
  exists p,
    categorical_pipeline self feature_name stats = Ok p
    /\ (feature_type f = Some STRING_CATEGORICAL ->
        hd_error (steps p) = Some (lookup_step "StringLookup" feature_name (VList vocab)))
    /\ (feature_type f = Some INTEGER_CATEGORICAL ->
        hd_error (steps p) = Some (lookup_step "IntegerLookup" feature_name (VList vocab)))
    /\ (category_encoding f = Some ONE_HOT_ENCODING ->
        exists front,
          steps p = front ++ [ one_hot_step feature_name (List.length vocab + 1);
                               cast_step feature_name; flatten_step feature_name ]
          /\ List.length front <= 1)
    /\ (exists front, steps p = front ++ [flatten_step feature_name]).
Proof.
  intros Hf Hv Hc. unfold categorical_pipeline.
  rewrite (getitem_some _ _ _ Hv), (getitem_some _ _ _ Hf). simpl. rewrite Hc.
  destruct (feature_type f) as [[]|] eqn:Et; destruct (category_encoding f) as [[]|] eqn:Ee;
    simpl; rewrite ?add_step_plain; simpl; eexists; (split; [reflexivity|]); simpl;
    repeat split; try discriminate; try reflexivity;
    try (intros _; first [ exists []; split; [reflexivity | simpl; lia]
                         | eexists [_]; split; [reflexivity | simpl; lia] ]);
    try (eexists [_; _; _]; reflexivity);
    try (eexists [_; _]; reflexivity);
    try (eexists [_]; reflexivity);
    try (exists []; reflexivity).
Qed.

(** C5 (as the code has it): a numeric or categorical build step whose
    statistics record lacks a key it reads ([mean], [var]; [vocab]) raises
    the [KeyError] of the first such key, whether or not the descriptor
    carries custom steps: the statistics are read before the custom-step
    test. *)
Theorem missing_statistics_key_raises (self : t) (kind : GroupKind) (feature_name : string)
    (input_layer : Tensor) (stats : Stats) (k : string) :
  first_missing (required_keys kind) stats = Some k ->
  run_task kind self (feature_name, input_layer, stats) = Raise (KeyError k).
Proof.
  unfold first_missing, Dict.contains.
  destruct kind; simpl; try discriminate;
    unfold _add_pipeline_numeric, numeric_pipeline, _add_pipeline_categorical,
      categorical_pipeline, Dict.getitem.
  - destruct (Dict.get stats "mean"); simpl.
    + destruct (Dict.get stats "var"); simpl; [discriminate|]. now intros [= <-].
    + now intros [= <-].
  - destruct (Dict.get stats "vocab"); simpl; [discriminate|]. now intros [= <-].
Qed.
End BuilderFacts.

Lemma float_normalized_same_as_default_witness :
  exists f2,
    Dict.get (features_specs Scenario.normalized_model) "age" = Some f2
    /\ feature_type f2 = Some FLOAT_NORMALIZED
    /\ numeric_pipeline Scenario.normalized_model "age" Scenario.age_stats
       = numeric_pipeline Scenario.plain_float_model "age" Scenario.age_stats
    /\ numeric_pipeline Scenario.normalized_model "age" Scenario.age_stats
       = Ok (Expected.normalization_chain "age" (VInt 30) (VInt 25)).
Proof.
  eexists. split; [reflexivity|]. split; [reflexivity|].
  apply (float_normalized_same_as_default (H := Scenario.backend)
           Scenario.normalized_model Scenario.plain_float_model "age"
           Scenario.age_stats Scenario.age_stats _ _ (VInt 30) (VInt 25)
           eq_refl eq_refl eq_refl eq_refl eq_refl eq_refl eq_refl eq_refl eq_refl eq_refl).
Defined.

Lemma categorical_default_pipeline_witness :
  exists p,
    categorical_pipeline (H0 := Symbolic.SampleDefaults) Scenario.city_model "city"
      Scenario.city_stats = Ok p
    /\ exists front, steps p = front ++ [Expected.flatten_step "city"].
Proof.
  destruct (categorical_default_pipeline (H0 := Symbolic.SampleDefaults)
              Scenario.city_model "city" Scenario.city_stats Scenario.city_feature
              [VStr "NYC"; VStr "LA"] eq_refl eq_refl eq_refl)
    as (p & Hp & _ & _ & _ & Hflat).
  exists p. split; assumption.
Defined.

Lemma missing_statistics_key_raises_witness :
  run_task (H0 := Symbolic.SampleDefaults) numeric Scenario.normalized_model
    ("age", Scenario.x_input, [("mean", VInt 30)])
  = Raise (KeyError "var").
Proof.
  apply (missing_statistics_key_raises (H0 := Symbolic.SampleDefaults)
           Scenario.normalized_model numeric "age" Scenario.x_input [("mean", VInt 30)] "var").
  reflexivity.
Defined.

(** C5, as stated, fails: a descriptor with a custom step list does not
    build without the statistics keys; the numeric builder raises on the
    missing [mean], the categorical builder on the missing [vocab]. *)
Lemma custom_steps_do_not_waive_statistics :
  has_custom_steps Scenario.custom_feature = true
  /\ Dict.get (features_specs Scenario.custom_model) "x" = Some Scenario.custom_feature
  /\ _add_pipeline_numeric Scenario.custom_model "x" Scenario.x_input [] = Raise (KeyError "mean")
  /\ _add_pipeline_categorical (H0 := Symbolic.SampleDefaults) Scenario.custom_model "x"
       Scenario.x_input [] = Raise (KeyError "vocab").
Proof. repeat split. Qed.

(** ** Cross builder *)

Section CrossFacts.
Context `{Keras} `{FeatureDefaults}.
Import Expected.

Lemma ensure_input_frame (self self' : t) (n : string) :
  ensure_input self n = Ok self' ->
  features_specs self' = features_specs self
  /\ outputs self' = outputs self
  /\ forall k, Dict.get (inputs self') (KName k) = Dict.get (inputs self) (KName k).
Proof.
  unfold ensure_input. intros Hs. apply bind_ok in Hs as (f & _ & Hs).
  destruct (Dict.get (inputs self) (KName n)); inversion Hs; subst; repeat split.
  intros k. unfold _add_input_column. simpl. now apply get_set_other.
Qed.

Lemma ensure_input_defined (self : t) (n : string) (f : Feature) :
  Dict.get (features_specs self) n = Some f -> exists self', ensure_input self n = Ok self'.
Proof.
  intros Hf. unfold ensure_input. rewrite (getitem_some _ _ _ Hf). simpl.
  destruct (Dict.get (inputs self) (KName n)); eauto.
Qed.

(** With both placeholders in place the cross chain is a hashed crossing
    into [nr_bins] buckets and a float cast, stored under ["a_x_b"]. *)
Lemma cross_one_with_placeholders (self : t) (a b : string) (nr_bins : nat)
    (fa fb : Feature) (ia ib : Tensor) :
  Dict.get (features_specs self) a = Some fa ->
  Dict.get (features_specs self) b = Some fb ->
  Dict.get (inputs self) (KName a) = Some ia ->
  Dict.get (inputs self) (KName b) = Some ib ->
  cross_one self (a, b, nr_bins)
  = Ok (set_outputs
          (Dict.set (outputs self) (a ++ "_x_" ++ b)%string
             (Some (chain (mkPreprocessor (a ++ "_x_" ++ b)%string
                             [ hashed_crossing_step (a ++ "_x_" ++ b)%string nr_bins;
                               cast_step (a ++ "_x_" ++ b)%string ])
                          (ManyInputs [ia; ib])))) self).
Proof.
  intros Hfa Hfb Hia Hib. unfold cross_one. cbn [fold_res]. unfold ensure_input.
  rewrite (getitem_some _ _ _ Hfa). cbn [bind]. rewrite Hia. cbn [bind].
  rewrite (getitem_some _ _ _ Hfb). cbn [bind]. rewrite Hib. cbn [bind].
  unfold cast_to_float. rewrite !add_step_plain. cbn [bind].
  unfold Dict.getitem. rewrite Hia, Hib. reflexivity.
Qed.

(** C3: when a crossed feature has no placeholder under its name, the cross
    builder adds one under the descriptor object, not under the name, and
    then fails reading [self.inputs[name]]: no chain is built and nothing
    is stored under the composite key. *)
Theorem cross_missing_placeholder_raises (self : t) (a b : string) (nr_bins : nat)
    (rest : list (string * string * nat)) (fa fb : Feature) :
  feature_crosses self = (a, b, nr_bins) :: rest ->
  Dict.get (features_specs self) a = Some fa ->
  Dict.get (features_specs self) b = Some fb ->
  Dict.contains (inputs self) (KName a) && Dict.contains (inputs self) (KName b) = false ->
  _add_pipeline_cross self
  = Raise (KeyError (if Dict.contains (inputs self) (KName a) then b else a)).
Proof.
  intros Hc Hfa Hfb Hmiss. unfold _add_pipeline_cross. rewrite Hc. cbn [fold_res].
  unfold cross_one at 1. cbn [fold_res].
  destruct (ensure_input_defined self a fa Hfa) as (s1 & Hs1). rewrite Hs1. cbn [bind].
  destruct (ensure_input_frame _ _ _ Hs1) as (Hspec1 & _ & Hin1).
  rewrite <- Hspec1 in Hfb.
  destruct (ensure_input_defined s1 b fb Hfb) as (s2 & Hs2). rewrite Hs2. cbn [bind].
  destruct (ensure_input_frame _ _ _ Hs2) as (_ & _ & Hin2).
  unfold cast_to_float. rewrite !add_step_plain. cbn [bind].
  unfold Dict.getitem. rewrite !Hin2, !Hin1.
  unfold Dict.contains in *.
  destruct (Dict.get (inputs self) (KName a)); simpl in *; [|reflexivity].
  destruct (Dict.get (inputs self) (KName b)); simpl in *; [discriminate|reflexivity].
Qed.
End CrossFacts.

Lemma cross_missing_placeholder_raises_witness :
  _add_pipeline_cross Scenario.cross_model = Raise (KeyError "a").
Proof.
  apply (cross_missing_placeholder_raises (H := Scenario.backend) Scenario.cross_model
           "a" "b" 10 [] _ _ eq_refl eq_refl eq_refl eq_refl).
Defined.

(** ** Scheduler *)

Section SchedulerFacts.
Context `{Keras} `{FeatureDefaults}.

Lemma setup_input_inputs (self : t) (n : string) (st : Stats) :
  inputs (setup_input self n st)
  = Dict.set (inputs self) (KName n)
             (Input [1] (KName n) (Dict.get_default st "dtype" tf_string)).
Proof. reflexivity. Qed.

Lemma setup_input_signature (self : t) (n : string) (st : Stats) :
  signature (setup_input self n st)
  = Dict.set (signature self) n
             (mkTensorSpec [None; Some 1] (Dict.get_default st "dtype" tf_string) n).
Proof. reflexivity. Qed.

(** Setting up the other features leaves a feature's slots alone. *)
Lemma setup_inputs_other (features_dict : dict string Stats) (self : t) (n : string) :
  ~ In n (Dict.keys features_dict) ->
  Dict.get (inputs (_parallel_setup_inputs self features_dict)) (KName n)
  = Dict.get (inputs self) (KName n)
  /\ Dict.get (signature (_parallel_setup_inputs self features_dict)) n
     = Dict.get (signature self) n.
Proof.
  revert self. induction features_dict as [|[n' st'] l IH]; intros self Hn; [now split|].
  simpl in Hn. unfold _parallel_setup_inputs in *. cbn [fold_left].
  destruct (IH (setup_input self n' st')) as [Hi Hs]; [tauto|].
  rewrite Hi, Hs, setup_input_inputs, setup_input_signature.
  assert (Hne : n <> n') by (intros ->; tauto).
  split; apply get_set_other.
  - simpl. now apply String.eqb_neq.
  - now apply String.eqb_neq.
Qed.

(** C9: after the input setup, every feature of the statistics dictionary
    whose record has no [dtype] entry has a placeholder of shape [(1,)] and
    a signature of shape [(None, 1)], both of dtype [tf.string]. *)
Theorem setup_inputs_default_dtype (self : t) (features_dict : dict string Stats)
    (feature_name : string) (stats : Stats) :
  NoDup (Dict.keys features_dict) ->
  In (feature_name, stats) features_dict ->
  Dict.get stats "dtype" = None ->
  Dict.get (inputs (_parallel_setup_inputs self features_dict)) (KName feature_name)
  = Some (Input [1] (KName feature_name) tf_string)
  /\ Dict.get (signature (_parallel_setup_inputs self features_dict)) feature_name
     = Some (mkTensorSpec [None; Some 1] tf_string feature_name).
Proof.
  intros Hnd Hin Hdt. revert self.
  induction features_dict as [|[n' st'] l IH]; intros self; [contradiction|].
  inversion Hnd as [|? ? Hnotin Hnd']; subst.
  destruct Hin as [E|Hin].
  - inversion E; subst.
    destruct (setup_inputs_other l (setup_input self feature_name stats) feature_name Hnotin)
      as [Hi Hs].
    unfold _parallel_setup_inputs in *. cbn [fold_left].
    rewrite Hi, Hs, setup_input_inputs, setup_input_signature, !get_set_same.
    unfold Dict.get_default. now rewrite Hdt.
  - unfold _parallel_setup_inputs in *. cbn [fold_left]. now apply IH.
Qed.

Lemma GroupKind_eqb_eq (a b : GroupKind) : GroupKind_eqb a b = true <-> a = b.
Proof. destruct a, b; simpl; split; congruence. Qed.

Lemma mem_In (x : string) (l : list string) : mem x l = true <-> In x l.
Proof.
  unfold mem. rewrite existsb_exists. split.
  - intros (y & Hy & E). apply String.eqb_eq in E. now subst.
  - intros Hx. exists x. split; [assumption | apply String.eqb_refl].
Qed.

Lemma unique_value {V : Type} (d : dict string V) (k : string) (v v' : V) :
  NoDup (Dict.keys d) -> In (k, v) d -> In (k, v') d -> v = v'.
Proof.
  intros Hnd Hv Hv'. apply (get_in d k v Hnd) in Hv. apply (get_in d k v' Hnd) in Hv'.
  congruence.
Qed.

(** A feature is in the group its statistics (and the declared text and date
    names) select, and in no other. *)
Lemma group_membership (self : t) (features_dict : dict string Stats) (n : string)
    (st : Stats) (kind : GroupKind) :
  NoDup (Dict.keys features_dict) ->
  In (n, st) features_dict ->
  In n (Dict.keys (group self features_dict kind)) <-> group_of self n st = Some kind.
Proof.
  intros Hnd Hin. unfold Dict.keys, group. rewrite in_map_iff. split.
  - intros ([n' st'] & E & Hf). simpl in E. subst n'.
    apply filter_In in Hf as [Hin' Hk].
    rewrite (unique_value features_dict n st st' Hnd Hin Hin').
    destruct (group_of self n st') as [k|]; [|discriminate].
    apply GroupKind_eqb_eq in Hk. now subst.
  - intros Hg. exists (n, st). split; [reflexivity|].
    apply filter_In. split; [assumption|]. rewrite Hg. now apply GroupKind_eqb_eq.
Qed.

(** A successful build step writes one slot, keyed by the feature's name:
    either in the plain or in the categorical output map. *)
Lemma run_task_one_slot (kind : GroupKind) (self self' : t) (n : string)
    (input_layer : Tensor) (st : Stats) :
  run_task kind self (n, input_layer, st) = Ok self' ->
  (exists v, outputs self' = Dict.set (outputs self) n v
             /\ outputs_categorical self' = outputs_categorical self)
  \/ (exists v, outputs self' = outputs self
                /\ outputs_categorical self' = Dict.set (outputs_categorical self) n v).
Proof.
  destruct kind; cbn [run_task].
  - unfold _add_pipeline_numeric. intros Hr. apply bind_ok in Hr as (p & _ & Hr).
    inversion Hr; subst. left. eexists. split; reflexivity.
  - unfold _add_pipeline_categorical. intros Hr. apply bind_ok in Hr as (p & _ & Hr).
    inversion Hr; subst. right. eexists. split; reflexivity.
  - unfold _add_pipeline_text. intros Hr.
    apply bind_ok in Hr as (f & _ & Hr). apply bind_ok in Hr as (vocab & _ & Hr).
    apply bind_ok in Hr as ([s1 p] & Hs1 & Hr).
    assert (Hframe : outputs s1 = outputs self
                     /\ outputs_categorical s1 = outputs_categorical self).
    { destruct (has_custom_steps f).
      - apply bind_ok in Hs1 as (p' & _ & Hs1). inversion Hs1; subst. now split.
      - apply bind_ok in Hs1 as (p1 & _ & Hs1).
        destruct (Dict.contains (kwargs f) "output_sequence_length");
          apply bind_ok in Hs1 as (p2 & _ & Hs1); apply bind_ok in Hs1 as (p3 & _ & Hs1);
          inversion Hs1; subst; now split. }
    destruct Hframe as [Ho Hc].
    destruct (String.eqb (output_mode s1) CONCAT); inversion Hr; subst.
    + right. eexists. split; [exact Ho | cbn; rewrite Hc; reflexivity].
    + left. eexists. split; [cbn; rewrite Ho; reflexivity | exact Hc].
  - unfold _add_pipeline_date. intros Hr.
    apply bind_ok in Hr as (f & _ & Hr). apply bind_ok in Hr as (p & _ & Hr).
    inversion Hr; subst. left. eexists. split; reflexivity.
Qed.

End SchedulerFacts.

Lemma three_features_nodup : NoDup (Dict.keys Scenario.three_features).
Proof. repeat constructor; simpl; intuition discriminate. Defined.

Lemma setup_inputs_default_dtype_witness :
  Dict.get (inputs (_parallel_setup_inputs (Scenario.blank CONCAT) Scenario.three_features))
           (KName "y")
  = Some (Symbolic.SInput [1] (KName "y") tf_string)
  /\ Dict.get (signature (_parallel_setup_inputs (Scenario.blank CONCAT) Scenario.three_features))
              "y"
     = Some (mkTensorSpec [None; Some 1] tf_string "y").
Proof.
  apply (setup_inputs_default_dtype (H := Scenario.backend) (Scenario.blank CONCAT)
           Scenario.three_features "y" [("vocab", VList [VStr "u"])]).
  - exact three_features_nodup.
  - right; left; reflexivity.
  - reflexivity.
Defined.

(** ** Output fusion, DICT mode *)

Section UpdateFacts.
Context {K V : Type} `{DictKeyLaws K}.

Lemma contains_in (d : dict K V) (k : K) : Dict.contains d k = true <-> In k (Dict.keys d).
Proof.
  unfold Dict.contains. destruct (Dict.get d k) eqn:E.
  - split; [intros _ | reflexivity].
    destruct (in_dec (fun a b => reflect_dec _ _ (keq_reflect a b)) k (Dict.keys d)) as [Hi|Hn];
      [assumption|]. apply get_none_not_in in Hn. congruence.
  - split; [discriminate|]. intros Hi. apply get_none_not_in in E. contradiction.
Qed.

Lemma set_fresh (d : dict K V) (k : K) (v : V) :
  ~ In k (Dict.keys d) -> Dict.set d k v = d ++ [(k, v)].
Proof.
  induction d as [|[k' v'] d IH]; simpl; [reflexivity|]. intros Hn.
  rewrite keq_neq by (intros ->; tauto). rewrite IH by tauto. reflexivity.
Qed.

Lemma update_fresh (other d : dict K V) :
  NoDup (Dict.keys (d ++ other)) -> Dict.update d other = d ++ other.
Proof.
  revert d. induction other as [|[k v] o IH]; intros d Hnd.
  - now rewrite app_nil_r.
  - unfold Dict.update in *. cbn [fold_left fst snd].
    assert (Hk : ~ In k (Dict.keys d)).
    { unfold Dict.keys in *. rewrite map_app in Hnd. simpl in Hnd.
      apply NoDup_remove_2 in Hnd. rewrite in_app_iff in Hnd. tauto. }
    rewrite (set_fresh d k v Hk), IH; rewrite <- app_assoc; [reflexivity | exact Hnd].
Qed.

(** Building an ordered mapping from pairs with distinct keys keeps them. *)
Lemma of_pairs_nodup (pairs : dict K V) :
  NoDup (Dict.keys pairs) -> Dict.of_pairs pairs = pairs.
Proof. intros Hnd. unfold Dict.of_pairs. now rewrite update_fresh. Qed.

(** [update] keeps the keys already there, in place, and appends the new
    ones in the order of the argument. *)
Lemma keys_update (other d : dict K V) :
  NoDup (Dict.keys other) ->
  Dict.keys (Dict.update d other)
  = Dict.keys d ++ filter (fun k => negb (Dict.contains d k)) (Dict.keys other).
Proof.
  revert d. induction other as [|[k v] o IH]; intros d Hnd.
  - simpl. now rewrite app_nil_r.
  - inversion Hnd as [|? ? Hk Hnd']; subst.
    unfold Dict.update in *. cbn [fold_left fst snd]. rewrite (IH _ Hnd'), keys_set.
    assert (Hext : filter (fun k0 => negb (Dict.contains (Dict.set d k v) k0)) (Dict.keys o)
                   = filter (fun k0 => negb (Dict.contains d k0)) (Dict.keys o)).
    { apply filter_ext_in. intros k0 Hk0. unfold Dict.contains.
      rewrite get_set_other; [reflexivity|]. apply keq_neq. intros ->. contradiction. }
    rewrite Hext. cbn [Dict.keys map fst filter] in *.
    destruct (Dict.contains d k); simpl; [reflexivity|]. now rewrite <- app_assoc.
Qed.

Lemma get_update (other d : dict K V) (k : K) :
  NoDup (Dict.keys other) ->
  Dict.get (Dict.update d other) k
  = match Dict.get other k with Some v => Some v | None => Dict.get d k end.
Proof.
  revert d. induction other as [|[k' v'] o IH]; intros d Hnd; [reflexivity|].
  inversion Hnd as [|? ? Hk Hnd']; subst.
  unfold Dict.update in *. cbn [fold_left fst snd]. rewrite (IH _ Hnd'). simpl.
  destruct (keq_reflect k k') as [->|Hne].
  - apply get_none_not_in in Hk. rewrite Hk. apply get_set_same.
  - destruct (Dict.get o k); [reflexivity|]. apply get_set_other. now apply keq_neq.
Qed.
End UpdateFacts.

Section DictModeFacts.
Context `{Keras}.

Lemma seeds_in (self : t) (l : list Key) (s : string) :
  In s (map fst (flat_map (seed_of self) l))
  <-> In (KName s) l /\ Dict.contains (outputs self) s = true.
Proof.
  induction l as [|k l IH]; simpl; [tauto|].
  rewrite map_app, in_app_iff, IH. clear IH.
  destruct k as [s'|s']; simpl.
  - destruct (Dict.contains (outputs self) s') eqn:E; simpl.
    + split.
      * intros [[->|[]]|[Hi Hc]]; auto.
      * intros [[E'|Hi] Hc]; [inversion E'; auto | auto].
    + split.
      * intros [[]|[Hi Hc]]; auto.
      * intros [[E'|Hi] Hc]; [inversion E'; subst; congruence | auto].
  - split.
    + intros [[]|[Hi Hc]]; auto.
    + intros [[E'|Hi] Hc]; [discriminate | auto].
Qed.

Lemma seeds_nodup (self : t) (l : list Key) :
  NoDup l -> NoDup (map fst (flat_map (seed_of self) l)).
Proof.
  induction l as [|k l IH]; intros Hnd; [constructor|].
  inversion Hnd as [|? ? Hk Hnd']; subst. simpl. rewrite map_app.
  destruct k as [s|s]; simpl; [|auto].
  destruct (Dict.contains (outputs self) s); simpl; [|auto].
  constructor; [|auto]. intros Hs. apply seeds_in in Hs. tauto.
Qed.

Lemma seed_pairs_in (self : t) (s : string) :
  In s (Dict.keys (seed_pairs self))
  <-> In (KName s) (Dict.keys (inputs self)) /\ Dict.contains (outputs self) s = true.
Proof. apply seeds_in. Qed.

Lemma seed_pairs_nodup (self : t) :
  NoDup (Dict.keys (inputs self)) -> NoDup (Dict.keys (seed_pairs self)).
Proof. apply seeds_nodup. Qed.

(** The DICT branch, key order: the names of the inputs that have an output,
    in the order of [self.inputs], then the remaining keys of
    [self.outputs] in their order. *)
Lemma fuse_dict_keys (self : t) :
  NoDup (Dict.keys (inputs self)) ->
  NoDup (Dict.keys (outputs self)) ->
  Dict.keys (fuse_dict self)
  = Dict.keys (seed_pairs self)
    ++ filter (fun k => negb (Dict.contains (seed_pairs self) k)) (Dict.keys (outputs self)).
Proof.
  intros Hi Ho. unfold fuse_dict.
  rewrite (of_pairs_nodup (seed_pairs self)) by now apply seed_pairs_nodup.
  rewrite (of_pairs_nodup (outputs self)) by assumption.
  now apply keys_update.
Qed.

(** The DICT branch, values: every key is mapped to its computed output. *)
Lemma fuse_dict_get (self : t) (k : string) :
  NoDup (Dict.keys (inputs self)) ->
  NoDup (Dict.keys (outputs self)) ->
  Dict.get (fuse_dict self) k = Dict.get (outputs self) k.
Proof.
  intros Hi Ho. unfold fuse_dict.
  rewrite (of_pairs_nodup (seed_pairs self)) by now apply seed_pairs_nodup.
  rewrite (of_pairs_nodup (outputs self)) by assumption.
  rewrite get_update by assumption.
  destruct (Dict.get (outputs self) k) eqn:E; [reflexivity|].
  apply get_none_not_in. intros Hs. apply seed_pairs_in in Hs as [_ Hc].
  unfold Dict.contains in Hc. now rewrite E in Hc.
Qed.
End DictModeFacts.

(** C2: building scenario B ([age] numeric, [city] categorical) in DICT mode
    succeeds with placeholders for both features, but the mapping handed to
    the model has the single key [age]: the categorical builder stores
    [city] in the categorical output map, which the DICT branch never
    reads. *)
Theorem dict_mode_drops_categorical_outputs `{Keras} `{FeatureDefaults} :
  exists pm' r,
    Scenario.build_age_city DICT = Ok (pm', r)
    /\ Dict.keys (inputs pm') = [KName "age"; KName "city"]
    /\ Dict.keys (outputs pm') = ["age"]
    /\ Dict.keys (outputs_categorical pm') = ["city"]
    /\ r_model r = new_Model (inputs pm') (OutDict (outputs pm')) "preprocessor".
Proof.
  assert (Hm : match Scenario.build_age_city DICT with
               | Ok (pm', r) =>
                   Dict.keys (inputs pm') = [KName "age"; KName "city"]
                   /\ Dict.keys (outputs pm') = ["age"]
                   /\ Dict.keys (outputs_categorical pm') = ["city"]
                   /\ r_model r = new_Model (inputs pm') (OutDict (outputs pm')) "preprocessor"
               | Raise _ => False
               end).
  { unfold Scenario.build_age_city.
    destruct H0 as [dd [[]|] rule]; vm_compute; repeat split. }
  destruct (Scenario.build_age_city DICT) as [[pm' r]|e]; [|contradiction].
  exists pm', r. split; [reflexivity | exact Hm].
Qed.

(** ** Saving and loading *)

Section PersistenceFacts.
Context `{Keras} `{FeatureDefaults}.

Lemma fold_res_preserves {A B C : Type} (proj : A -> C) (f : A -> B -> Res A)
    (l : list B) (a a' : A) :
  (forall x b x', f x b = Ok x' -> proj x' = proj x) ->
  fold_res f l a = Ok a' -> proj a' = proj a.
Proof.
  intros Hf. revert a. induction l as [|b l IH]; intros a Hr; simpl in Hr.
  - now inversion Hr.
  - apply bind_ok in Hr as (a1 & Ha1 & Hr). rewrite (IH _ Hr). now apply (Hf a b).
Qed.

Lemma run_task_signatures (kind : GroupKind) (self self' : t)
    (task : string * Tensor * Stats) :
  run_task kind self task = Ok self' -> signatures self' = signatures self.
Proof.
  destruct task as [[n input_layer] st]. destruct kind; cbn [run_task].
  - unfold _add_pipeline_numeric. intros Hr. apply bind_ok in Hr as (p & _ & Hr).
    now inversion Hr.
  - unfold _add_pipeline_categorical. intros Hr. apply bind_ok in Hr as (p & _ & Hr).
    now inversion Hr.
  - unfold _add_pipeline_text. intros Hr.
    apply bind_ok in Hr as (f & _ & Hr). apply bind_ok in Hr as (vocab & _ & Hr).
    apply bind_ok in Hr as ([s1 p] & Hs1 & Hr).
    assert (Hframe : signatures s1 = signatures self).
    { destruct (has_custom_steps f).
      - apply bind_ok in Hs1 as (p' & _ & Hs1). now inversion Hs1.
      - apply bind_ok in Hs1 as (p1 & _ & Hs1).
        destruct (Dict.contains (kwargs f) "output_sequence_length");
          apply bind_ok in Hs1 as (p2 & _ & Hs1); apply bind_ok in Hs1 as (p3 & _ & Hs1);
          now inversion Hs1. }
    destruct (String.eqb (output_mode s1) CONCAT); inversion Hr; subst; exact Hframe.
  - unfold _add_pipeline_date. intros Hr.
    apply bind_ok in Hr as (f & _ & Hr). apply bind_ok in Hr as (p & _ & Hr).
    now inversion Hr.
Qed.

Lemma setup_inputs_signatures (features_dict : dict string Stats) (self : t) :
  signatures (_parallel_setup_inputs self features_dict) = signatures self.
Proof.
  revert self. induction features_dict as [|[n st] l IH]; intros self; [reflexivity|].
  unfold _parallel_setup_inputs in *. cbn [fold_left]. now rewrite IH.
Qed.

Lemma process_features_parallel_signatures (self self' : t) (features_dict : dict string Stats) :
  _process_features_parallel self features_dict = Ok self' ->
  signatures self' = signatures self.
Proof.
  unfold _process_features_parallel. intros Hr.
  rewrite <- (setup_inputs_signatures features_dict self).
  revert Hr. apply fold_res_preserves. intros x [features kind] x' Hx.
  destruct features as [|b l]; [now inversion Hx|].
  unfold _process_feature_batch in Hx. apply bind_ok in Hx as (submitted & _ & Hx).
  revert Hx. apply fold_res_preserves. intros y task y'. apply run_task_signatures.
Qed.

Lemma ensure_input_signatures (self self' : t) (n : string) :
  ensure_input self n = Ok self' -> signatures self' = signatures self.
Proof.
  unfold ensure_input. intros Hy. apply bind_ok in Hy as (f & _ & Hy).
  destruct (Dict.get (inputs self) (KName n)); now inversion Hy.
Qed.

Lemma add_pipeline_cross_signatures (self self' : t) :
  _add_pipeline_cross self = Ok self' -> signatures self' = signatures self.
Proof.
  unfold _add_pipeline_cross. apply (fold_res_preserves signatures).
  intros x [[a b] n] x' Hx. unfold cross_one in Hx.
  apply bind_ok in Hx as (x1 & Hx1 & Hx).
  apply bind_ok in Hx as (p1 & _ & Hx). apply bind_ok in Hx as (p2 & _ & Hx).
  apply bind_ok in Hx as (ia & _ & Hx). apply bind_ok in Hx as (ib & _ & Hx).
  injection Hx as <-. cbn.
  exact (fold_res_preserves signatures ensure_input _ _ _
           (fun y k y' => ensure_input_signatures y y' k) Hx1).
Qed.

Lemma build_text_signatures (self self' : t) (n : string) :
  build_text self n = Ok self' -> signatures self' = signatures self.
Proof.
  unfold build_text. intros Hr.
  apply bind_ok in Hr as (il & _ & Hr). apply bind_ok in Hr as (g & _ & Hr).
  apply (run_task_signatures text _ _ (n, il, _)) in Hr. rewrite Hr.
  now destruct (Dict.contains _ "text").
Qed.

Lemma build_date_signatures (self self' : t) (n : string) :
  build_date self n = Ok self' -> signatures self' = signatures self.
Proof.
  unfold build_date. intros Hr. apply bind_ok in Hr as (il & _ & Hr).
  apply (run_task_signatures date _ _ (n, il, [])) in Hr. now rewrite Hr.
Qed.

Lemma prepare_outputs_signatures (self self' : t) :
  _prepare_outputs self = Ok self' -> signatures self' = signatures self.
Proof.
  unfold _prepare_outputs. destruct (String.eqb (output_mode self) CONCAT); intros Hr.
  - apply bind_ok in Hr as (c & _ & Hr). now inversion Hr.
  - now inversion Hr.
Qed.

(** A build assigns [self.model] and leaves [self.signatures] as it was. *)
Lemma build_preprocessor_attributes (self self' : t) (r : BuildResult) :
  build_preprocessor self = Ok (self', r) ->
  model self' = Some (r_model r) /\ signatures self' = signatures self.
Proof.
  unfold build_preprocessor. intros Hr.
  apply bind_ok in Hr as (u & _ & Hr).
  apply bind_ok in Hr as (s1 & Hs1 & Hr).
  apply bind_ok in Hr as (s2 & Hs2 & Hr).
  apply bind_ok in Hr as (s3 & Hs3 & Hr).
  apply bind_ok in Hr as (s4 & Hs4 & Hr).
  apply bind_ok in Hr as (s5 & Hs5 & Hr).
  apply bind_ok in Hr as (s6 & Hs6 & Hr).
  apply bind_ok in Hr as (mo & _ & Hr).
  injection Hr as <- <-. split; [reflexivity|].
  transitivity (signatures s5); [exact (prepare_outputs_signatures _ _ Hs6)|].
  transitivity (signatures s4);
    [exact (fold_res_preserves signatures _ _ _ _
              (fun y k y' => build_date_signatures y y' k) Hs5)|].
  transitivity (signatures s3);
    [exact (fold_res_preserves signatures _ _ _ _
              (fun y k y' => build_text_signatures y y' k) Hs4)|].
  transitivity (signatures s2).
  { destruct (feature_crosses s2); [now inversion Hs3|].
    now apply add_pipeline_cross_signatures. }
  transitivity (signatures s1).
  { revert Hs2. apply (fold_res_preserves signatures). intros x [k fd] x'.
    apply process_features_parallel_signatures. }
  destruct (_ || _) in Hs1; [|now inversion Hs1].
  destruct (stats_instance self); now inversion Hs1.
Qed.

(** The metadata block has the seven keys, in this order. *)
Lemma metadata_keys (self : t) :
  Dict.keys (get_feature_statistics self)
  = [ "feature_statistics"; "numeric_features"; "categorical_features"; "text_features";
      "date_features"; "feature_crosses"; "output_mode" ].
Proof. reflexivity. Qed.

(** A dtype object is normalised to its name. *)
Lemma json_roundtrip_dtype (n : string) : json_roundtrip (VDType n) = Ok (VStr n).
Proof. reflexivity. Qed.

(** [load_model] hands back the [feature_statistics] entry of the metadata,
    not the whole block. *)
Lemma load_model_returns_statistics_entry (store : Store) (path : string) (m : Model) :
  keras_load_model store path = Ok m ->
  load_model store path
  = Ok (m, Dict.get_default (_metadata m) "feature_statistics" (VDict [])).
Proof. unfold load_model. now intros ->. Qed.

(** C6: on a model object constructed and built by the class, [save_model]
    raises [AttributeError] for [signatures] once the metadata block has
    been normalised: the class assigns [self.signature], never
    [self.signatures], so nothing is saved. *)
Theorem save_model_raises_attribute_error
    (features_stats : option FeaturesStats)
    (feature_crosses : option (list (string * string * nat)))
    (output_mode : string) (overwrite_stats : bool)
    (features_specs : option (dict string FeatureSpaceConverter.Spec))
    (transfo_nr_blocks : option nat) (transfo_nr_heads transfo_ff_units : nat)
    (transfo_dropout_rate : Q) (transfo_placement : string) (ds : DatasetStatistics)
    (pm pm' : t) (r : BuildResult) (metadata : PyVal) (model_path : string) (store : Store) :
  __init__ features_stats feature_crosses output_mode overwrite_stats features_specs
    transfo_nr_blocks transfo_nr_heads transfo_ff_units transfo_dropout_rate
    transfo_placement ds = Ok pm ->
  build_preprocessor pm = Ok (pm', r) ->
  json_roundtrip (VDict (get_feature_statistics pm')) = Ok metadata ->
  save_model pm' model_path store = Raise (AttributeError "signatures").
Proof.
  intros Hinit Hbuild Hjson.
  destruct (build_preprocessor_attributes _ _ _ Hbuild) as [Hmodel Hsig].
  assert (Hnone : signatures pm = None).
  { unfold __init__ in Hinit. apply bind_ok in Hinit as (specs & _ & Hinit).
    apply bind_ok in Hinit as (fsc & _ & Hinit). now inversion Hinit. }
  unfold save_model. rewrite Hjson. cbn [bind]. rewrite Hmodel, Hsig, Hnone. reflexivity.
Qed.
End PersistenceFacts.

Lemma save_model_raises_attribute_error_witness :
  match Scenario.build_age_city (H := Scenario.backend) (H0 := Symbolic.SampleDefaults) CONCAT with
  | Ok (pm', _) => save_model pm' "preprocessor_model" [] = Raise (AttributeError "signatures")
  | Raise _ => False
  end.
Proof.
  unfold Scenario.build_age_city.
  destruct (__init__ (H := Scenario.backend) (H0 := Symbolic.SampleDefaults)
              (Some Scenario.stats_age_city) None CONCAT false (Some Scenario.specs_age_city)
              None 3 16 (1 # 4)%Q PLACEMENT_CATEGORICAL Scenario.no_collaborator)
    as [pm|e] eqn:Einit; cbn [bind].
  - destruct (build_preprocessor pm) as [[pm' r]|e] eqn:Ebuild.
    + destruct (json_roundtrip (VDict (get_feature_statistics pm'))) as [metadata|e] eqn:Ejson.
      * exact (save_model_raises_attribute_error _ _ _ _ _ _ _ _ _ _ _ _ _ _ _ _ _
                 Einit Ebuild Ejson).
      * vm_compute in Einit. injection Einit as <-.
        vm_compute in Ebuild. injection Ebuild as <- <-.
        vm_compute in Ejson. discriminate Ejson.
    + vm_compute in Einit. injection Einit as <-.
      vm_compute in Ebuild. discriminate Ebuild.
  - vm_compute in Einit. discriminate Einit.
Defined.

(* ===================================================================== *)
(** * Further properties *)
(* ===================================================================== *)

(** ** Feature-space normalisation: invariants and errors *)

Section ConverterInvariants.
Context `{FeatureDefaults}.
Import FeatureSpaceConverter Declared.

Lemma FeatureClass_eqb_eq (a b : FeatureClass) : FeatureClass_eqb a b = true <-> a = b.
Proof. destruct a, b; simpl; split; congruence. Qed.

Lemma set_same_fields (f : Feature) :
  set_kwargs (set_preprocessors f (preprocessors f)) (kwargs f) = f.
Proof. now destruct f. Qed.

(** One loop step on a declaration that stands for a descriptor of class
    [c]: the descriptor is stored under the name and the name is appended to
    the list of [c], and to no other list. *)
Lemma convert_one_declared (self : FeatureSpaceConverter.t) (name : string) (spec : Spec)
    (c : FeatureClass) :
  declared_class spec = Some c ->
  exists self' f,
    convert_one self name spec = Ok self'
    /\ features_space self' = Dict.set (features_space self) name f
    /\ f_class f = c
    /\ (forall c0, names_in c0 self'
                   = names_in c0 self ++ (if FeatureClass_eqb c0 c then [name] else []))
    /\ match spec with
       | SpecFeature g =>
           preprocessors f = preprocessors g /\ kwargs f = kwargs g
           /\ feature_type f = feature_type g
           /\ (is_kind_instance g = true -> f = g)
           /\ (is_kind_instance g = false -> Features.name f = name)
       | _ => Features.name f = name /\ preprocessors f = None /\ kwargs f = []
       end.
Proof.
  intros Hc. unfold convert_one. destruct spec as [g|s|ft|r|ty r]; simpl in Hc;
    [| | |discriminate|discriminate].
  - destruct (is_kind_instance g) eqn:Ek.
    + inversion Hc; subst. cbn [bind]. rewrite set_same_fields.
      unfold is_kind_instance in Ek.
      destruct (f_class g) eqn:Ec; try discriminate Ek;
        eexists; exists g; (split; [reflexivity|]); cbn;
        (repeat split; auto; try discriminate);
        intros c0; destruct c0; cbn; now rewrite ?app_nil_r.
    + destruct (feature_type g) as [[]|] eqn:Et; simpl in Hc; inversion Hc; subst;
        cbn [feature_of_type bind];
        eexists; eexists; (split; [reflexivity|]); cbn;
        (repeat split; auto; try discriminate);
        intros c0; destruct c0; cbn; now rewrite ?app_nil_r.
  - destruct (FeatureType_by_name (upper s)) as [ft|e]; [|discriminate].
    cbn [bind]. destruct ft; simpl in Hc; inversion Hc; subst;
      cbn [feature_of_type bind];
      eexists; eexists; (split; [reflexivity|]); cbn;
      (repeat split; auto);
      intros c0; destruct c0; cbn; now rewrite ?app_nil_r.
  - destruct ft; simpl in Hc; inversion Hc; subst;
      cbn [feature_of_type bind];
      eexists; eexists; (split; [reflexivity|]); cbn;
      (repeat split; auto);
      intros c0; destruct c0; cbn; now rewrite ?app_nil_r.
Qed.

(** One loop step on a declaration that stands for no descriptor. *)
Lemma convert_one_undeclared (self : FeatureSpaceConverter.t) (name : string) (spec : Spec) :
  declared_class spec = None -> convert_one self name spec = Raise (entry_error name spec).
Proof.
  intros Hc. unfold convert_one. destruct spec as [g|s|ft|r|ty r]; simpl in Hc.
  - destruct (is_kind_instance g); [discriminate|].
    destruct (feature_type g) as [[]|]; try discriminate Hc; reflexivity.
  - unfold entry_error, FeatureType_by_name, Dict.getitem in *.
    destruct (Dict.get FeatureType_members (upper s)) as [ft|]; [|reflexivity].
    destruct ft; try discriminate Hc; reflexivity.
  - destruct ft; try discriminate Hc; reflexivity.
  - reflexivity.
  - reflexivity.
Qed.

Lemma names_of_class_cons (c : FeatureClass) (name : string) (spec : Spec)
    (rest : dict string Spec) (c' : FeatureClass) :
  declared_class spec = Some c' ->
  names_of_class c ((name, spec) :: rest)
  = (if FeatureClass_eqb c c' then [name] else []) ++ names_of_class c rest.
Proof.
  intros Hc. unfold names_of_class. simpl. rewrite Hc.
  now destruct (FeatureClass_eqb c c').
Qed.

Lemma init_features_specs_lists (specs : dict string Spec) (self fsc : FeatureSpaceConverter.t) :
  _init_features_specs self specs = Ok fsc ->
  forall c, c <> cls_Feature -> names_in c fsc = names_in c self ++ names_of_class c specs.
Proof.
  revert self. induction specs as [|[name spec] rest IH]; intros self Hr c Hne.
  - simpl in Hr. inversion Hr; subst. unfold names_of_class. simpl. now rewrite app_nil_r.
  - simpl in Hr. apply bind_ok in Hr as (self1 & H1 & Hr).
    destruct (declared_class spec) as [c'|] eqn:Ec.
    + destruct (convert_one_declared self name spec c' Ec) as (s1 & f & Hs1 & _ & _ & Hl & _).
      rewrite Hs1 in H1. inversion H1; subst s1.
      rewrite (IH _ Hr c Hne), (Hl c), (names_of_class_cons c name spec rest c' Ec).
      now rewrite <- app_assoc.
    + rewrite (convert_one_undeclared self name spec Ec) in H1. discriminate.
Qed.

Lemma init_features_specs_space (specs : dict string Spec) (self fsc : FeatureSpaceConverter.t) :
  _init_features_specs self specs = Ok fsc ->
  NoDup (Dict.keys (features_space self) ++ map fst specs) ->
  Dict.keys (features_space fsc) = Dict.keys (features_space self) ++ map fst specs.
Proof.
  revert self. induction specs as [|[name spec] rest IH]; intros self Hr Hnd.
  - simpl in Hr. inversion Hr; subst. simpl. now rewrite app_nil_r.
  - simpl in Hr. apply bind_ok in Hr as (self1 & H1 & Hr).
    destruct (declared_class spec) as [c'|] eqn:Ec.
    + destruct (convert_one_declared self name spec c' Ec) as (s1 & f & Hs1 & Hsp & _).
      rewrite Hs1 in H1. inversion H1; subst s1.
      assert (Hfresh : ~ In name (Dict.keys (features_space self))).
      { simpl in Hnd. apply NoDup_remove_2 in Hnd. rewrite in_app_iff in Hnd. tauto. }
      assert (Hk : Dict.keys (features_space self1)
                   = Dict.keys (features_space self) ++ [name]).
      { rewrite Hsp, (set_fresh _ name f Hfresh). unfold Dict.keys. now rewrite map_app. }
      rewrite (IH _ Hr); rewrite Hk, <- app_assoc; [reflexivity | exact Hnd].
    + rewrite (convert_one_undeclared self name spec Ec) in H1. discriminate.
Qed.

Lemma names_of_class_permutation (specs : dict string Spec) :
  (forall entry, In entry specs -> declared_class (snd entry) <> None) ->
  Permutation
    (names_of_class cls_NumericalFeature specs ++ names_of_class cls_CategoricalFeature specs
       ++ names_of_class cls_TextFeature specs ++ names_of_class cls_DateFeature specs)
    (map fst specs).
Proof.
  induction specs as [|[name spec] rest IH]; intros Hall; [constructor|].
  assert (IH' := IH (fun e He => Hall e (or_intror He))). clear IH.
  destruct (declared_class spec) as [c|] eqn:Ec;
    [|exfalso; apply (Hall (name, spec)); [now left | exact Ec]].
  rewrite !(names_of_class_cons _ name spec rest c Ec).
  assert (Hc : c <> cls_Feature).
  { intros ->. destruct spec as [g|s|ft|r|ty r]; simpl in Ec.
    - destruct (is_kind_instance g) eqn:Ek.
      + unfold is_kind_instance in Ek. inversion Ec as [E]. rewrite E in Ek. discriminate.
      + destruct (feature_type g) as [[]|]; discriminate.
    - destruct (FeatureType_by_name (upper s)) as [[]|]; discriminate.
    - destruct ft; discriminate.
    - discriminate.
    - discriminate. }
  simpl map. symmetry.
  destruct c; try contradiction; simpl.
  - constructor. now symmetry.
  - apply Permutation_cons_app. now symmetry.
  - rewrite app_assoc. apply Permutation_cons_app. rewrite <- app_assoc. now symmetry.
  - rewrite !app_assoc. apply Permutation_cons_app. rewrite <- !app_assoc. now symmetry.
Qed.

Lemma init_features_specs_all_declared (specs : dict string Spec)
    (self fsc : FeatureSpaceConverter.t) :
  _init_features_specs self specs = Ok fsc ->
  forall entry, In entry specs -> declared_class (snd entry) <> None.
Proof.
  revert self. induction specs as [|[name spec] rest IH]; intros self Hr entry Hin;
    [contradiction|].
  simpl in Hr. apply bind_ok in Hr as (self1 & H1 & Hr).
  destruct Hin as [<-|Hin]; [|now apply (IH _ Hr)].
  simpl. intros Ec. rewrite (convert_one_undeclared self name spec Ec) in H1. discriminate.
Qed.

(** X1: when the normaliser succeeds, each of its four name lists holds the
    declared names of that kind in declaration order, the four lists
    together are a rearrangement of all declared names (every feature lands
    in exactly one of them), and the descriptor mapping has the declared
    names as its keys, in declaration order. *)
Theorem init_features_specs_partition (specs : dict string Spec) (fsc : FeatureSpaceConverter.t) :
  NoDup (map fst specs) ->
  _init_features_specs init specs = Ok fsc ->
  numeric_features fsc = names_of_class cls_NumericalFeature specs
  /\ categorical_features fsc = names_of_class cls_CategoricalFeature specs
  /\ text_features fsc = names_of_class cls_TextFeature specs
  /\ date_features fsc = names_of_class cls_DateFeature specs
  /\ Permutation (numeric_features fsc ++ categorical_features fsc
                    ++ text_features fsc ++ date_features fsc) (map fst specs)
  /\ Dict.keys (features_space fsc) = map fst specs.
Proof.
  intros Hnd Hr.
  pose proof (init_features_specs_lists specs init fsc Hr) as Hl.
  assert (Hn := Hl cls_NumericalFeature ltac:(discriminate)).
  assert (Hc := Hl cls_CategoricalFeature ltac:(discriminate)).
  assert (Ht := Hl cls_TextFeature ltac:(discriminate)).
  assert (Hd := Hl cls_DateFeature ltac:(discriminate)).
  simpl in Hn, Hc, Ht, Hd. rewrite Hn, Hc, Ht, Hd.
  repeat split.
  - apply names_of_class_permutation. eapply init_features_specs_all_declared; eassumption.
  - apply (init_features_specs_space specs init fsc Hr). exact Hnd.
Qed.
End ConverterInvariants.

Lemma mixed_specs_nodup : NoDup (map fst Samples.mixed_specs).
Proof. repeat constructor; simpl; intuition discriminate. Defined.

Lemma init_features_specs_partition_witness :
  match FeatureSpaceConverter._init_features_specs (H := Symbolic.SampleDefaults)
          FeatureSpaceConverter.init Samples.mixed_specs with
  | Ok fsc =>
      FeatureSpaceConverter.numeric_features fsc = ["price"; "size"]
      /\ FeatureSpaceConverter.categorical_features fsc = ["shop"]
      /\ FeatureSpaceConverter.text_features fsc = ["note"]
      /\ FeatureSpaceConverter.date_features fsc = ["when"]
      /\ Dict.keys (FeatureSpaceConverter.features_space fsc)
         = ["price"; "shop"; "note"; "when"; "size"]
  | Raise _ => False
  end.
Proof.
  destruct (FeatureSpaceConverter._init_features_specs (H := Symbolic.SampleDefaults)
              FeatureSpaceConverter.init Samples.mixed_specs) as [fsc|e] eqn:E.
  - destruct (init_features_specs_partition Samples.mixed_specs fsc mixed_specs_nodup E)
      as (Hn & Hc & Ht & Hd & _ & Hk).
    rewrite Hn, Hc, Ht, Hd, Hk. vm_compute. repeat split.
  - vm_compute in E. discriminate E.
Defined.


Section ConverterDescriptors.
Context `{FeatureDefaults}.
Import FeatureSpaceConverter Declared.

Lemma init_features_specs_other (specs : dict string Spec) (self fsc : FeatureSpaceConverter.t)
    (name : string) :
  _init_features_specs self specs = Ok fsc ->
  ~ In name (map fst specs) ->
  Dict.get (features_space fsc) name = Dict.get (features_space self) name.
Proof.
  revert self. induction specs as [|[n spec] rest IH]; intros self Hr Hn.
  - simpl in Hr. now inversion Hr.
  - simpl in Hr, Hn. apply bind_ok in Hr as (self1 & H1 & Hr).
    rewrite (IH _ Hr) by tauto.
    destruct (declared_class spec) as [c|] eqn:Ec.
    + destruct (convert_one_declared self n spec c Ec) as (s1 & f & Hs1 & Hsp & _).
      rewrite Hs1 in H1. inversion H1; subst s1. rewrite Hsp.
      apply get_set_other. apply String.eqb_neq. intros ->. tauto.
    + rewrite (convert_one_undeclared self n spec Ec) in H1. discriminate.
Qed.

(** X2: after a successful normalisation every declared feature has a
    descriptor of the class its declaration stands for. A descriptor object
    of one of the four kind classes is kept as it is; a plain [Feature]
    object is replaced by a kind-specific descriptor named after the key
    that carries its type tag, preprocessing steps and configuration; a
    string or enum declaration yields a descriptor named after the key with
    no custom steps and an empty configuration. *)
Theorem normalised_descriptor (specs : dict string Spec) (fsc : FeatureSpaceConverter.t)
    (name : string) (spec : Spec) :
  NoDup (map fst specs) ->
  _init_features_specs init specs = Ok fsc ->
  In (name, spec) specs ->
  exists f,
    Dict.get (features_space fsc) name = Some f
    /\ declared_class spec = Some (f_class f)
    /\ match spec with
       | SpecFeature g =>
           preprocessors f = preprocessors g /\ kwargs f = kwargs g
           /\ feature_type f = feature_type g
           /\ (is_kind_instance g = true -> f = g)
           /\ (is_kind_instance g = false -> Features.name f = name)
       | _ => Features.name f = name /\ preprocessors f = None /\ kwargs f = []
       end.
Proof.
  intros Hnd Hr Hin. revert Hnd Hr. generalize init as self.
  induction specs as [|[n sp] rest IH]; intros self Hnd Hr; [contradiction|].
  simpl in Hr. apply bind_ok in Hr as (self1 & H1 & Hr).
  inversion Hnd as [|? ? Hfresh Hnd']; subst.
  destruct Hin as [E|Hin]; [|now apply (IH Hin self1)].
  inversion E; subst n sp.
  destruct (declared_class spec) as [c|] eqn:Ec.
  - destruct (convert_one_declared self name spec c Ec) as (s1 & f & Hs1 & Hsp & Hcl & _ & Hm).
    rewrite Hs1 in H1. inversion H1; subst s1.
    exists f. rewrite (init_features_specs_other rest self1 fsc name Hr Hfresh), Hsp.
    rewrite get_set_same, Hcl. auto.
  - rewrite (convert_one_undeclared self name spec Ec) in H1. discriminate.
Qed.


(** X4: the normaliser succeeds on every mapping all of whose declarations
    stand for a descriptor. *)
Theorem init_features_specs_total (self : FeatureSpaceConverter.t) (specs : dict string Spec) :
  (forall entry, In entry specs -> declared_class (snd entry) <> None) ->
  exists fsc, _init_features_specs self specs = Ok fsc.
Proof.
  revert self. induction specs as [|[n sp] rest IH]; intros self Hall.
  - now exists self.
  - simpl. destruct (declared_class sp) as [c|] eqn:Ec.
    + destruct (convert_one_declared self n sp c Ec) as (s1 & f & Hs1 & _).
      rewrite Hs1. cbn [bind]. apply IH. intros e He. apply Hall. now right.
    + exfalso. apply (Hall (n, sp)); [now left | exact Ec].
Qed.
End ConverterDescriptors.

Lemma normalised_descriptor_witness :
  match FeatureSpaceConverter._init_features_specs (H := Symbolic.SampleDefaults)
          FeatureSpaceConverter.init Samples.mixed_specs with
  | Ok fsc =>
      exists f,
        Dict.get (FeatureSpaceConverter.features_space fsc) "shop" = Some f
        /\ f_class f = cls_CategoricalFeature
        /\ preprocessors f = Some [ {| cls_name := "Hashing" |} ]
        /\ kwargs f = [("num_bins", VInt 8)]
        /\ Features.name f = "shop"
  | Raise _ => False
  end.
Proof.
  destruct (FeatureSpaceConverter._init_features_specs (H := Symbolic.SampleDefaults)
              FeatureSpaceConverter.init Samples.mixed_specs) as [fsc|e] eqn:E.
  - destruct (normalised_descriptor Samples.mixed_specs fsc "shop"
                (FeatureSpaceConverter.SpecFeature Samples.custom_descriptor)
                mixed_specs_nodup E)
      as (f & Hf & Hc & Hp & Hk & _ & _ & Hn).
    + right; left; reflexivity.
    + exists f. vm_compute in Hc. inversion Hc as [Hc'].
      repeat split; auto.
  - vm_compute in E. discriminate E.
Defined.


Lemma init_features_specs_total_witness :
  exists fsc,
    FeatureSpaceConverter._init_features_specs (H := Symbolic.SampleDefaults)
      FeatureSpaceConverter.init Samples.mixed_specs = Ok fsc.
Proof.
  apply (init_features_specs_total (H := Symbolic.SampleDefaults)).
  intros entry [<-|[<-|[<-|[<-|[<-|[]]]]]]; vm_compute; discriminate.
Defined.


(** ** Per-feature builders: configuration and custom steps *)

Section BuilderConfiguration.
Context `{Keras} `{FeatureDefaults}.
Import Expected Calls.

Lemma add_step_extra (p : FeaturePreprocessor) (l : LayerRef) (nm : string)
    (explicit extra : list (string * PyVal)) :
  clashes ((match l with LayerCreator _ => "layer_creator" | _ => "layer_class" end)
             :: "name" :: map fst explicit) extra = false ->
  add_processing_step p l nm explicit extra
  = Ok (mkPreprocessor (fp_name p) (steps p ++ [mkStep l nm (explicit ++ extra)])).
Proof. unfold add_processing_step, clashes. now intros ->. Qed.

Lemma add_step_clash (p : FeaturePreprocessor) (l : LayerRef) (nm : string)
    (explicit extra : list (string * PyVal)) :
  clashes ((match l with LayerCreator _ => "layer_creator" | _ => "layer_class" end)
             :: "name" :: map fst explicit) extra = true ->
  add_processing_step p l nm explicit extra
  = Raise (TypeError "got multiple values for keyword argument").
Proof. unfold add_processing_step, clashes. now intros ->. Qed.

Lemma custom_steps_fold (feature_name : string) (kw : dict string PyVal)
    (cs : list LayerClass) (p : FeaturePreprocessor) :
  clashes ["layer_class"; "name"] kw = false ->
  fold_res (fun p c => add_processing_step p (LayerObj c)
                         (cls_name c ++ "_" ++ feature_name) [] kw) cs p
  = Ok (mkPreprocessor (fp_name p) (steps p ++ map (custom_step feature_name kw) cs)).
Proof.
  intros Hk. revert p. induction cs as [|c cs IH]; intros p.
  - simpl. rewrite app_nil_r. now destruct p.
  - cbn [fold_res]. rewrite (add_step_extra p (LayerObj c) _ [] kw Hk). cbn [bind].
    rewrite IH. cbn [fp_name steps map]. now rewrite <- app_assoc.
Qed.

(** X5: a FLOAT_DISCRETIZED feature without custom steps and without a
    [bin_boundaries] entry in its configuration cannot be built: the default
    [1.0] has no length, and the numeric builder raises [TypeError]. *)
Theorem discretized_needs_bin_boundaries (self : t) (feature_name : string)
    (input_layer : Tensor) (stats : Stats) (f : Feature) (mean variance : PyVal) :
  Dict.get (features_specs self) feature_name = Some f ->
  has_custom_steps f = false ->
  feature_type f = Some FLOAT_DISCRETIZED ->
  Dict.get (kwargs f) "bin_boundaries" = None ->
  Dict.get stats "mean" = Some mean -> Dict.get stats "var" = Some variance ->
  _add_pipeline_numeric self feature_name input_layer stats
  = Raise (TypeError "object has no len()").
Proof.
  intros Hf Hc Ht Hb Hm Hv. unfold _add_pipeline_numeric, numeric_pipeline.
  rewrite (getitem_some _ _ _ Hm), (getitem_some _ _ _ Hv), (getitem_some _ _ _ Hf).
  cbn [bind]. rewrite Hc. unfold numeric_default_steps, Dict.get_default.
  now rewrite Ht, Hb.
Qed.

(** X6: with a list of [n] bin boundaries (and a configuration that repeats
    no keyword of the call) the discretized chain is the discretisation
    with the whole configuration, a one-hot encoding over [n + 1] tokens and
    the float cast; mean and variance are not used. *)
Theorem discretized_chain (self : t) (feature_name : string) (stats : Stats) (f : Feature)
    (mean variance : PyVal) (bins : list PyVal) :
  Dict.get (features_specs self) feature_name = Some f ->
  has_custom_steps f = false ->
  feature_type f = Some FLOAT_DISCRETIZED ->
  Dict.get (kwargs f) "bin_boundaries" = Some (VList bins) ->
  clashes ["layer_class"; "name"] (kwargs f) = false ->
  Dict.get stats "mean" = Some mean -> Dict.get stats "var" = Some variance ->
  numeric_pipeline self feature_name stats
  = Ok (mkPreprocessor feature_name
          [ mkStep (LayerName "Discretization") ("discretize_" ++ feature_name) (kwargs f);
            one_hot_step feature_name (List.length bins + 1);
            cast_step feature_name ]).
Proof.
  intros Hf Hc Ht Hb Hk Hm Hv. unfold numeric_pipeline.
  rewrite (getitem_some _ _ _ Hm), (getitem_some _ _ _ Hv), (getitem_some _ _ _ Hf).
  cbn [bind]. rewrite Hc. unfold numeric_default_steps, Dict.get_default.
  rewrite Ht, Hb. cbn [len bind].
  rewrite (add_step_extra _ (LayerName "Discretization") _ [] (kwargs f) Hk). cbn [bind].
  rewrite !add_step_plain. reflexivity.
Qed.

(** X7: a numeric feature with custom steps gets exactly one step per
    custom layer class, in declared order, each named
    ["<class>_<feature>"] and each given the feature's whole configuration;
    no default step is added, whatever the subtype. *)
Theorem numeric_custom_chain (self : t) (feature_name : string) (stats : Stats) (f : Feature)
    (mean variance : PyVal) (c : LayerClass) (cs : list LayerClass) :
  Dict.get (features_specs self) feature_name = Some f ->
  preprocessors f = Some (c :: cs) ->
  clashes ["layer_class"; "name"] (kwargs f) = false ->
  Dict.get stats "mean" = Some mean -> Dict.get stats "var" = Some variance ->
  numeric_pipeline self feature_name stats
  = Ok (mkPreprocessor feature_name (map (custom_step feature_name (kwargs f)) (c :: cs))).
Proof.
  intros Hf Hp Hk Hm Hv. unfold numeric_pipeline.
  rewrite (getitem_some _ _ _ Hm), (getitem_some _ _ _ Hv), (getitem_some _ _ _ Hf).
  cbn [bind]. unfold has_custom_steps. rewrite Hp.
  unfold _add_custom_steps. rewrite (getitem_some _ _ _ Hf). cbn [bind].
  rewrite Hp. cbn [iter_steps bind].
  now rewrite (custom_steps_fold feature_name (kwargs f) (c :: cs) _ Hk).
Qed.

(** X8: custom steps are added with [name=...] next to the expanded
    configuration, so a configuration with a [name] or [layer_class] entry
    makes the build of a feature with custom steps fail with [TypeError]. *)
Theorem custom_steps_reserved_keyword (self : t) (feature_name : string)
    (input_layer : Tensor) (stats : Stats) (f : Feature) (mean variance : PyVal)
    (c : LayerClass) (cs : list LayerClass) :
  Dict.get (features_specs self) feature_name = Some f ->
  preprocessors f = Some (c :: cs) ->
  clashes ["layer_class"; "name"] (kwargs f) = true ->
  Dict.get stats "mean" = Some mean -> Dict.get stats "var" = Some variance ->
  _add_pipeline_numeric self feature_name input_layer stats
  = Raise (TypeError "got multiple values for keyword argument").
Proof.
  intros Hf Hp Hk Hm Hv. unfold _add_pipeline_numeric, numeric_pipeline.
  rewrite (getitem_some _ _ _ Hm), (getitem_some _ _ _ Hv), (getitem_some _ _ _ Hf).
  cbn [bind]. unfold has_custom_steps. rewrite Hp.
  unfold _add_custom_steps. rewrite (getitem_some _ _ _ Hf). cbn [bind].
  rewrite Hp. cbn [iter_steps bind fold_res].
  now rewrite (add_step_clash _ (LayerObj c) _ [] (kwargs f) Hk).
Qed.

End BuilderConfiguration.

Lemma discretized_needs_bin_boundaries_witness :
  _add_pipeline_numeric (BuilderSamples.model_with (BuilderSamples.discretized []) CONCAT)
    "age" BuilderSamples.age_input Scenario.age_stats
  = Raise (TypeError "object has no len()").
Proof.
  apply (discretized_needs_bin_boundaries (H := Scenario.backend)
           (BuilderSamples.model_with (BuilderSamples.discretized []) CONCAT)
           "age" BuilderSamples.age_input Scenario.age_stats
           (BuilderSamples.discretized []) (VInt 30) (VInt 25)); reflexivity.
Defined.

Lemma discretized_chain_witness :
  numeric_pipeline
    (BuilderSamples.model_with (BuilderSamples.discretized BuilderSamples.boundaries) CONCAT)
    "age" Scenario.age_stats
  = Ok (mkPreprocessor "age"
          [ mkStep (LayerName "Discretization") "discretize_age" BuilderSamples.boundaries;
            Expected.one_hot_step "age" 4; Expected.cast_step "age" ]).
Proof.
  apply (discretized_chain (H := Scenario.backend)
           (BuilderSamples.model_with (BuilderSamples.discretized BuilderSamples.boundaries)
                                      CONCAT)
           "age" Scenario.age_stats (BuilderSamples.discretized BuilderSamples.boundaries)
           (VInt 30) (VInt 25) [VInt 18; VInt 40; VInt 65]); reflexivity.
Defined.

Lemma numeric_custom_chain_witness :
  numeric_pipeline
    (BuilderSamples.model_with (BuilderSamples.two_steps [("rate", VInt 2)]) CONCAT)
    "age" Scenario.age_stats
  = Ok (mkPreprocessor "age"
          [ mkStep (LayerObj {| cls_name := "Clip" |}) "Clip_age" [("rate", VInt 2)];
            mkStep (LayerObj {| cls_name := "Log" |}) "Log_age" [("rate", VInt 2)] ]).
Proof.
  apply (numeric_custom_chain (H := Scenario.backend)
           (BuilderSamples.model_with (BuilderSamples.two_steps [("rate", VInt 2)]) CONCAT)
           "age" Scenario.age_stats (BuilderSamples.two_steps [("rate", VInt 2)])
           (VInt 30) (VInt 25) {| cls_name := "Clip" |} [ {| cls_name := "Log" |} ]);
    reflexivity.
Defined.

Lemma custom_steps_reserved_keyword_witness :
  _add_pipeline_numeric
    (BuilderSamples.model_with (BuilderSamples.two_steps [("name", VStr "mine")]) CONCAT)
    "age" BuilderSamples.age_input Scenario.age_stats
  = Raise (TypeError "got multiple values for keyword argument").
Proof.
  apply (custom_steps_reserved_keyword (H := Scenario.backend)
           (BuilderSamples.model_with (BuilderSamples.two_steps [("name", VStr "mine")]) CONCAT)
           "age" BuilderSamples.age_input Scenario.age_stats
           (BuilderSamples.two_steps [("name", VStr "mine")])
           (VInt 30) (VInt 25) {| cls_name := "Clip" |} [ {| cls_name := "Log" |} ]);
    reflexivity.
Defined.



(** ** Text, date and cross builders *)

Section TextDateCross.
Context `{Keras} `{FeatureDefaults}.
Import Expected Calls.


(** The configuration of a text feature once the vectoriser's default
    sequence length is in. *)
Lemma text_frame (self self' : t) (feature_name : string) (input_layer : Tensor)
    (stats : Stats) :
  _add_pipeline_text self feature_name input_layer stats = Ok self' ->
  output_mode self' = output_mode self
  /\ ((String.eqb (output_mode self) CONCAT = true
       /\ outputs self' = outputs self
       /\ exists v, outputs_categorical self'
                    = Dict.set (outputs_categorical self) feature_name v)
      \/ (String.eqb (output_mode self) CONCAT = false
          /\ outputs_categorical self' = outputs_categorical self
          /\ exists v, outputs self' = Dict.set (outputs self) feature_name (Some v))).
Proof.
  unfold _add_pipeline_text. intros Hr.
  apply bind_ok in Hr as (f & _ & Hr). apply bind_ok in Hr as (vocab & _ & Hr).
  apply bind_ok in Hr as ([s1 p] & Hs1 & Hr).
  assert (Hframe : output_mode s1 = output_mode self /\ outputs s1 = outputs self
                   /\ outputs_categorical s1 = outputs_categorical self).
  { destruct (has_custom_steps f).
    - apply bind_ok in Hs1 as (p' & _ & Hs1). inversion Hs1; subst. now repeat split.
    - apply bind_ok in Hs1 as (p1 & _ & Hs1).
      destruct (Dict.contains (kwargs f) "output_sequence_length");
        apply bind_ok in Hs1 as (p2 & _ & Hs1); apply bind_ok in Hs1 as (p3 & _ & Hs1);
        inversion Hs1; subst; now repeat split. }
  destruct Hframe as (Hm & Ho & Hc). rewrite <- Hm.
  destruct (String.eqb (output_mode s1) CONCAT) eqn:E; injection Hr as <-.
  - split; [reflexivity|]. left. split; [reflexivity|]. split; [exact Ho|].
    eexists. cbn. rewrite Hc. reflexivity.
  - split; [reflexivity|]. right. split; [reflexivity|]. split; [exact Hc|].
    eexists. cbn. rewrite Ho. reflexivity.
Qed.

(** X10: the text builder routes by output mode: in CONCAT mode it writes
    the feature's slot of the categorical output map and leaves the plain
    map alone; in any other mode it writes the plain map and leaves the
    categorical map alone. *)
Theorem text_output_routing (self self' : t) (feature_name : string) (input_layer : Tensor)
    (stats : Stats) :
  _add_pipeline_text self feature_name input_layer stats = Ok self' ->
  (output_mode self = CONCAT ->
   outputs self' = outputs self
   /\ exists v, outputs_categorical self' = Dict.set (outputs_categorical self) feature_name v)
  /\ (output_mode self <> CONCAT ->
      outputs_categorical self' = outputs_categorical self
      /\ exists v, outputs self' = Dict.set (outputs self) feature_name (Some v)).
Proof.
  intros Hr. destruct (text_frame _ _ _ _ _ Hr) as (_ & [(E & Ho & Hc)|(E & Hc & Ho)]).
  - apply String.eqb_eq in E. split; [auto | intros Hne; contradiction].
  - apply String.eqb_neq in E. split; [intros He; contradiction | auto].
Qed.

(** X11: building a text feature without custom steps writes the default
    [output_sequence_length = 35] into the descriptor held by
    [features_specs] when the configuration has none, keeps a configured
    value, and leaves every other configuration entry as it was. *)
Theorem text_default_sequence_length (self self' : t) (feature_name : string)
    (input_layer : Tensor) (stats : Stats) (f : Feature) :
  Dict.get (features_specs self) feature_name = Some f ->
  has_custom_steps f = false ->
  _add_pipeline_text self feature_name input_layer stats = Ok self' ->
  exists f',
    Dict.get (features_specs self') feature_name = Some f'
    /\ Dict.get (kwargs f') "output_sequence_length"
       = Some (Dict.get_default (kwargs f) "output_sequence_length" (VInt 35))
    /\ forall k, k <> "output_sequence_length" ->
                 Dict.get (kwargs f') k = Dict.get (kwargs f) k.
Proof.
  intros Hf Hc. unfold _add_pipeline_text. rewrite (getitem_some _ _ _ Hf). cbn [bind].
  intros Hr. apply bind_ok in Hr as (vocab & _ & Hr).
  rewrite Hc in Hr. apply bind_ok in Hr as ([s1 p] & Hs1 & Hr).
  apply bind_ok in Hs1 as (p1 & _ & Hs1).
  unfold Dict.get_default, Dict.contains in *.
  destruct (Dict.get (kwargs f) "output_sequence_length") as [v|] eqn:Ek.
  - apply bind_ok in Hs1 as (p2 & _ & Hs1). apply bind_ok in Hs1 as (p3 & _ & Hs1).
    injection Hs1 as <- <-. exists f.
    destruct (String.eqb (output_mode self) CONCAT); injection Hr as <-; cbn; auto.
  - apply bind_ok in Hs1 as (p2 & _ & Hs1). apply bind_ok in Hs1 as (p3 & _ & Hs1).
    injection Hs1 as <- <-.
    exists (set_kwargs f (Dict.set (kwargs f) "output_sequence_length" (VInt 35))).
    assert (Hget : Dict.get (Dict.set (features_specs self) feature_name
                      (set_kwargs f (Dict.set (kwargs f) "output_sequence_length" (VInt 35))))
                     feature_name
                   = Some (set_kwargs f (Dict.set (kwargs f) "output_sequence_length" (VInt 35))))
      by apply get_set_same.
    destruct (String.eqb _ CONCAT); injection Hr as <-; cbn;
      (split; [exact Hget|]); (split; [apply get_set_same|]);
      intros k Hk; apply get_set_other; now apply String.eqb_neq.
Qed.



(** X13: a declared text feature for which the statistics hold no record
    cannot be built: the fallback record the build loop substitutes has no
    [vocab] entry, and the text builder raises [KeyError] on it. *)
Theorem text_without_statistics_fails (self : t) (feature_name : string) (f : Feature) :
  Dict.get (features_specs self) feature_name = Some f ->
  (forall group, Dict.get (features_stats self) "text" = Some group ->
                 Dict.get group feature_name = None) ->
  build_text self feature_name = Raise (KeyError "vocab").
Proof.
  intros Hf Hnone. unfold build_text.
  set (s0 := _add_input_signature
               (_add_input_column self (KName feature_name) tf_string) feature_name tf_string).
  assert (Hin : Dict.getitem (inputs s0) (KName feature_name)
                = Ok (Input [1] (KName feature_name) tf_string)).
  { unfold Dict.getitem.
    change (inputs s0)
      with (Dict.set (inputs self) (KName feature_name) (Input [1] (KName feature_name) tf_string)).
    now rewrite get_set_same. }
  cbv zeta. rewrite Hin. cbn [bind].
  change (features_stats s0) with (features_stats self).
  unfold Dict.contains.
  destruct (Dict.get (features_stats self) "text") as [group|] eqn:Eg; cbv iota.
  - change (features_stats s0) with (features_stats self).
    rewrite (getitem_some _ _ _ Eg). cbn [bind]. rewrite (Hnone group eq_refl).
    unfold _add_pipeline_text.
    change (features_specs s0) with (features_specs self).
    rewrite (getitem_some _ _ _ Hf). reflexivity.
  - set (s1 := set_features_stats (Dict.set (features_stats self) "text" []) s0).
    change (features_stats s1) with (Dict.set (features_stats self) "text" ([] : dict string Stats)).
    unfold Dict.getitem at 1. rewrite get_set_same. cbn [bind Dict.get].
    unfold _add_pipeline_text.
    change (features_specs s1) with (features_specs self).
    rewrite (getitem_some _ _ _ Hf). reflexivity.
Qed.



Lemma contains_set {K V : Type} `{DictKeyLaws K} (d : dict K V) (k k' : K) (v : V) :
  Dict.contains (Dict.set d k v) k' = Dict.contains d k' || keq k' k.
Proof.
  unfold Dict.contains. destruct (keq k' k) eqn:E.
  - apply keq_spec in E. subst. rewrite get_set_same. now rewrite orb_true_r.
  - rewrite get_set_other by exact E. now rewrite orb_false_r.
Qed.

Lemma getitem_ok {K V : Type} `{DictKey K} (d : dict K V) (k : K) (v : V) :
  Dict.getitem d k = Ok v -> Dict.get d k = Some v.
Proof. unfold Dict.getitem. destruct (Dict.get d k); [now intros [= ->] | discriminate]. Qed.

Lemma ensure_input_present (self self' : t) (n : string) (v : Tensor) :
  Dict.get (inputs self) (KName n) = Some v ->
  ensure_input self n = Ok self' -> self' = self.
Proof.
  intros Hv. unfold ensure_input. intros Hs. apply bind_ok in Hs as (f & _ & Hs).
  rewrite Hv in Hs. now injection Hs as <-.
Qed.

(** One cross that was built: both placeholders were there, no placeholder
    was added, and the composite slot was written. *)
Lemma cross_one_ok (self self' : t) (a b : string) (n : nat) :
  cross_one self (a, b, n) = Ok self' ->
  inputs self' = inputs self
  /\ Dict.contains (inputs self) (KName a) = true
  /\ Dict.contains (inputs self) (KName b) = true
  /\ exists v, outputs self' = Dict.set (outputs self) (a ++ "_x_" ++ b)%string v.
Proof.
  unfold cross_one. cbn [fold_res]. intros Hr.
  apply bind_ok in Hr as (s2 & Hs & Hr).
  apply bind_ok in Hs as (s1 & Hs1 & Hs). apply bind_ok in Hs as (s2' & Hs2 & Hs).
  injection Hs as ->.
  apply bind_ok in Hr as (p1 & _ & Hr). apply bind_ok in Hr as (p2 & _ & Hr).
  apply bind_ok in Hr as (ia & Hia & Hr). apply bind_ok in Hr as (ib & Hib & Hr).
  injection Hr as <-.
  destruct (ensure_input_frame _ _ _ Hs1) as (_ & _ & Hin1).
  destruct (ensure_input_frame _ _ _ Hs2) as (_ & _ & Hin2).
  apply getitem_ok in Hia, Hib. rewrite Hin2, Hin1 in Hia, Hib.
  assert (E1 : s1 = self) by exact (ensure_input_present self s1 a ia Hia Hs1).
  subst s1.
  assert (E2 : s2 = self) by exact (ensure_input_present self s2 b ib Hib Hs2).
  subst s2.
  unfold Dict.contains. rewrite Hia, Hib.
  split; [reflexivity|]. split; [reflexivity|]. split; [reflexivity|].
  eexists. reflexivity.
Qed.

Lemma cross_fold_ok (crosses : list (string * string * nat)) (self self' : t) :
  fold_res cross_one crosses self = Ok self' ->
  inputs self' = inputs self
  /\ (forall k, Dict.contains (outputs self) k = true ->
                Dict.contains (outputs self') k = true)
  /\ (forall a b n, In (a, b, n) crosses ->
                    Dict.contains (inputs self) (KName a) = true
                    /\ Dict.contains (inputs self) (KName b) = true
                    /\ Dict.contains (outputs self') (a ++ "_x_" ++ b)%string = true).
Proof.
  revert self. induction crosses as [|[[a b] n] rest IH]; intros self Hr.
  - simpl in Hr. injection Hr as <-. split; [reflexivity|]. split; [auto|]. intros a b n [].
  - cbn [fold_res] in Hr. apply bind_ok in Hr as (s1 & H1 & Hr).
    destruct (cross_one_ok self s1 a b n H1) as (Hi1 & Ha & Hb & v & Ho1).
    destruct (IH s1 Hr) as (Hi & Hold & Hnew).
    split; [now rewrite Hi|]. split.
    + intros k Hk. apply Hold. rewrite Ho1, contains_set, Hk. reflexivity.
    + intros a' b' n' [E|Hin].
      * inversion E; subst a' b' n'. split; [exact Ha|]. split; [exact Hb|].
        apply Hold. rewrite Ho1, contains_set. simpl. rewrite String.eqb_refl.
        apply orb_true_r.
      * destruct (Hnew a' b' n' Hin) as (Ha' & Hb' & Hc').
        rewrite Hi1 in Ha', Hb'. now repeat split.
Qed.

(** X15: the cross builder creates no placeholder under a feature's name.
    Whenever it returns, the inputs are as they were, every crossed feature
    already had a placeholder under its name, every output that was there
    is kept, and there is an output under the composite key ["a_x_b"] of
    every declared cross. *)
Theorem cross_builder_needs_placeholders (self self' : t) :
  _add_pipeline_cross self = Ok self' ->
  inputs self' = inputs self
  /\ (forall k, Dict.contains (outputs self) k = true ->
                Dict.contains (outputs self') k = true)
  /\ (forall a b n, In (a, b, n) (feature_crosses self) ->
                    Dict.contains (inputs self) (KName a) = true
                    /\ Dict.contains (inputs self) (KName b) = true
                    /\ Dict.contains (outputs self') (a ++ "_x_" ++ b)%string = true).
Proof. unfold _add_pipeline_cross. apply cross_fold_ok. Qed.
End TextDateCross.


Lemma text_output_routing_witness :
  match _add_pipeline_text (BuilderSamples.model_with (TextSamples.note []) DICT)
          "note" TextSamples.note_input TextSamples.note_stats with
  | Ok self' =>
      outputs_categorical self' = []
      /\ exists v, outputs self' = [("note", Some v)]
  | Raise _ => False
  end.
Proof.
  destruct (_add_pipeline_text (BuilderSamples.model_with (TextSamples.note []) DICT)
              "note" TextSamples.note_input TextSamples.note_stats) as [self'|e] eqn:E.
  - destruct (text_output_routing _ _ _ _ _ E) as [_ Hd].
    destruct Hd as (Hc & v & Ho); [vm_compute; discriminate|].
    rewrite Hc, Ho. split; [reflexivity | exists v; reflexivity].
  - vm_compute in E. discriminate E.
Defined.

Lemma text_default_sequence_length_witness :
  match _add_pipeline_text (BuilderSamples.model_with (TextSamples.note []) CONCAT)
          "note" TextSamples.note_input TextSamples.note_stats with
  | Ok self' =>
      exists f',
        Dict.get (features_specs self') "note" = Some f'
        /\ Dict.get (kwargs f') "output_sequence_length" = Some (VInt 35)
  | Raise _ => False
  end.
Proof.
  destruct (_add_pipeline_text (BuilderSamples.model_with (TextSamples.note []) CONCAT)
              "note" TextSamples.note_input TextSamples.note_stats) as [self'|e] eqn:E.
  - destruct (text_default_sequence_length
                (BuilderSamples.model_with (TextSamples.note []) CONCAT) self'
                "note" TextSamples.note_input TextSamples.note_stats (TextSamples.note [])
                eq_refl eq_refl E) as (f' & Hf & Hk & _).
    exists f'. split; assumption.
  - vm_compute in E. discriminate E.
Defined.


Lemma text_without_statistics_fails_witness :
  build_text (BuilderSamples.model_with (TextSamples.note []) CONCAT) "note"
  = Raise (KeyError "vocab").
Proof.
  apply (text_without_statistics_fails (H := Scenario.backend)
           (BuilderSamples.model_with (TextSamples.note []) CONCAT) "note"
           (TextSamples.note [])).
  - reflexivity.
  - intros group Hg. vm_compute in Hg. discriminate Hg.
Defined.


Lemma cross_builder_needs_placeholders_witness :
  match _add_pipeline_cross TextSamples.crossed with
  | Ok self' =>
      inputs self' = inputs TextSamples.crossed
      /\ Dict.contains (outputs self') "a_x_b" = true
      /\ Dict.contains (outputs self') "b_x_a" = true
  | Raise _ => False
  end.
Proof.
  destruct (_add_pipeline_cross TextSamples.crossed) as [self'|e] eqn:E.
  - destruct (cross_builder_needs_placeholders (H := Scenario.backend) TextSamples.crossed
                self' E) as (Hi & _ & Hnew).
    split; [exact Hi|]. split.
    + apply (Hnew "a" "b" 10). now left.
    + apply (Hnew "b" "a" 5). right. now left.
  - vm_compute in E. discriminate E.
Defined.


(** ** Scheduler: placeholders and untouched slots *)

Section SchedulerFrame.
Context `{Keras} `{FeatureDefaults}.

Lemma setup_inputs_dtype_agreement_lemma (self : t) (features_dict : dict string Stats)
    (feature_name : string) (stats : Stats) :
  NoDup (Dict.keys features_dict) ->
  In (feature_name, stats) features_dict ->
  Dict.get (inputs (_parallel_setup_inputs self features_dict)) (KName feature_name)
  = Some (Input [1] (KName feature_name) (Dict.get_default stats "dtype" tf_string))
  /\ Dict.get (signature (_parallel_setup_inputs self features_dict)) feature_name
     = Some (mkTensorSpec [None; Some 1] (Dict.get_default stats "dtype" tf_string)
                          feature_name).
Proof.
  intros Hnd Hin. revert self.
  induction features_dict as [|[n' st'] l IH]; intros self; [contradiction|].
  inversion Hnd as [|? ? Hnotin Hnd']; subst.
  destruct Hin as [E|Hin].
  - inversion E; subst.
    destruct (setup_inputs_other l (setup_input self feature_name stats) feature_name Hnotin)
      as [Hi Hs].
    unfold _parallel_setup_inputs in *. cbn [fold_left].
    now rewrite Hi, Hs, setup_input_inputs, setup_input_signature, !get_set_same.
  - unfold _parallel_setup_inputs in *. cbn [fold_left]. now apply IH.
Qed.

(** X16: after the input setup every feature of the statistics dictionary
    has a placeholder of shape [(1,)] and a signature of shape [(None, 1)]
    under its name, both with the dtype [stats.get("dtype", tf.string)] of
    its own record; the slots of every other name are as they were. *)
Theorem setup_inputs_dtype_agreement (self : t) (features_dict : dict string Stats)
    (feature_name : string) (stats : Stats) :
  NoDup (Dict.keys features_dict) ->
  In (feature_name, stats) features_dict ->
  Dict.get (inputs (_parallel_setup_inputs self features_dict)) (KName feature_name)
  = Some (Input [1] (KName feature_name) (Dict.get_default stats "dtype" tf_string))
  /\ Dict.get (signature (_parallel_setup_inputs self features_dict)) feature_name
     = Some (mkTensorSpec [None; Some 1] (Dict.get_default stats "dtype" tf_string)
                          feature_name)
  /\ forall other, ~ In other (Dict.keys features_dict) ->
       Dict.get (inputs (_parallel_setup_inputs self features_dict)) (KName other)
       = Dict.get (inputs self) (KName other)
       /\ Dict.get (signature (_parallel_setup_inputs self features_dict)) other
          = Dict.get (signature self) other.
Proof.
  intros Hnd Hin.
  destruct (setup_inputs_dtype_agreement_lemma self features_dict feature_name stats Hnd Hin)
    as [Hi Hs].
  split; [exact Hi|]. split; [exact Hs|].
  intros other Ho. now apply setup_inputs_other.
Qed.

Lemma run_task_inputs (kind : GroupKind) (self self' : t) (task : string * Tensor * Stats) :
  run_task kind self task = Ok self' ->
  inputs self' = inputs self /\ signature self' = signature self.
Proof.
  destruct task as [[n input_layer] st]. destruct kind; cbn [run_task].
  - unfold _add_pipeline_numeric. intros Hr. apply bind_ok in Hr as (p & _ & Hr).
    now inversion Hr.
  - unfold _add_pipeline_categorical. intros Hr. apply bind_ok in Hr as (p & _ & Hr).
    now inversion Hr.
  - unfold _add_pipeline_text. intros Hr.
    apply bind_ok in Hr as (f & _ & Hr). apply bind_ok in Hr as (vocab & _ & Hr).
    apply bind_ok in Hr as ([s1 p] & Hs1 & Hr).
    assert (Hframe : inputs s1 = inputs self /\ signature s1 = signature self).
    { destruct (has_custom_steps f).
      - apply bind_ok in Hs1 as (p' & _ & Hs1). now inversion Hs1.
      - apply bind_ok in Hs1 as (p1 & _ & Hs1).
        destruct (Dict.contains (kwargs f) "output_sequence_length");
          apply bind_ok in Hs1 as (p2 & _ & Hs1); apply bind_ok in Hs1 as (p3 & _ & Hs1);
          now inversion Hs1. }
    destruct (String.eqb (output_mode s1) CONCAT); inversion Hr; subst; exact Hframe.
  - unfold _add_pipeline_date. intros Hr.
    apply bind_ok in Hr as (f & _ & Hr). apply bind_ok in Hr as (p & _ & Hr).
    now inversion Hr.
Qed.

Lemma submitted_names (self : t) (batch : list (string * Stats))
    (submitted : list (string * Tensor * Stats)) :
  map_res (fun '(feature_name, stats) =>
             input_layer <- Dict.getitem (inputs self) (KName feature_name) ;;
             Ok (feature_name, input_layer, stats)) batch = Ok submitted ->
  map (fun task => fst (fst task)) submitted = map fst batch.
Proof.
  revert submitted. induction batch as [|[n st] rest IH]; intros submitted Hr.
  - simpl in Hr. now inversion Hr.
  - simpl in Hr. apply bind_ok in Hr as (task & Ht & Hr).
    apply bind_ok in Ht as (il & _ & Ht). inversion Ht; subst task.
    apply bind_ok in Hr as (sub & Hsub & Hr). inversion Hr; subst.
    simpl. now rewrite (IH sub Hsub).
Qed.

Lemma tasks_frame (kind : GroupKind) (tasks : list (string * Tensor * Stats))
    (self self' : t) (other : string) :
  fold_res (run_task kind) tasks self = Ok self' ->
  ~ In other (map (fun task => fst (fst task)) tasks) ->
  inputs self' = inputs self
  /\ Dict.get (outputs self') other = Dict.get (outputs self) other
  /\ Dict.get (outputs_categorical self') other = Dict.get (outputs_categorical self) other.
Proof.
  revert self. induction tasks as [|[[n il] st] rest IH]; intros self Hr Hn.
  - simpl in Hr. now inversion Hr.
  - cbn [fold_res] in Hr. simpl in Hn. apply bind_ok in Hr as (s1 & Hs1 & Hr).
    destruct (IH s1 Hr) as (Hi & Ho & Hc); [tauto|].
    destruct (run_task_inputs _ _ _ _ Hs1) as [Hi1 _].
    rewrite Hi, Ho, Hc, Hi1. split; [reflexivity|].
    assert (Hne : String.eqb other n = false) by (apply String.eqb_neq; intros ->; tauto).
    destruct (run_task_one_slot kind self s1 n il st Hs1)
      as [(v & -> & ->)|(v & -> & ->)]; split; try reflexivity;
      now apply get_set_other.
Qed.

Lemma batch_frame (self self' : t) (batch : list (string * Stats)) (kind : GroupKind)
    (other : string) :
  match batch with
  | [] => Ok self
  | _ => _process_feature_batch self batch kind
  end = Ok self' ->
  ~ In other (map fst batch) ->
  inputs self' = inputs self
  /\ Dict.get (outputs self') other = Dict.get (outputs self) other
  /\ Dict.get (outputs_categorical self') other = Dict.get (outputs_categorical self) other.
Proof.
  intros Hr Hn. destruct batch as [|b rest]; [now inversion Hr|].
  unfold _process_feature_batch in Hr. apply bind_ok in Hr as (submitted & Hsub & Hr).
  apply (tasks_frame kind submitted self self' other Hr).
  now rewrite (submitted_names self _ submitted Hsub).
Qed.

Lemma setup_inputs_outputs (features_dict : dict string Stats) (self : t) :
  outputs (_parallel_setup_inputs self features_dict) = outputs self
  /\ outputs_categorical (_parallel_setup_inputs self features_dict)
     = outputs_categorical self.
Proof.
  revert self. induction features_dict as [|[n st] l IH]; intros self; [now split|].
  unfold _parallel_setup_inputs in *. cbn [fold_left].
  destruct (IH (setup_input self n st)) as [Ho Hc]. now rewrite Ho, Hc.
Qed.

(** X17: a feature whose statistics select no kind group (no [mean], no
    [vocab], not a declared text or date feature) still gets its input
    placeholder, but no pipeline: after the scheduler has run, its slots in
    both output maps are as they were. *)
Theorem unclassified_feature_has_input_only (self self' : t)
    (features_dict : dict string Stats) (feature_name : string) (stats : Stats) :
  NoDup (Dict.keys features_dict) ->
  In (feature_name, stats) features_dict ->
  group_of self feature_name stats = None ->
  _process_features_parallel self features_dict = Ok self' ->
  Dict.get (inputs self') (KName feature_name)
  = Some (Input [1] (KName feature_name) (Dict.get_default stats "dtype" tf_string))
  /\ Dict.get (outputs self') feature_name = Dict.get (outputs self) feature_name
  /\ Dict.get (outputs_categorical self') feature_name
     = Dict.get (outputs_categorical self) feature_name.
Proof.
  intros Hnd Hin Hg Hr.
  assert (Hout : forall kind, ~ In feature_name (map fst (group self features_dict kind))).
  { intros kind Hk.
    apply (group_membership self features_dict feature_name stats kind Hnd Hin) in Hk.
    congruence. }
  unfold _process_features_parallel in Hr. cbn [fold_res] in Hr.
  apply bind_ok in Hr as (s1 & H1 & Hr). apply bind_ok in Hr as (s2 & H2 & Hr).
  apply bind_ok in Hr as (s3 & H3 & Hr). apply bind_ok in Hr as (s4 & H4 & Hr).
  injection Hr as <-.
  destruct (batch_frame _ _ _ _ feature_name H1 (Hout numeric)) as (Hi1 & Ho1 & Hc1).
  destruct (batch_frame _ _ _ _ feature_name H2 (Hout categorical)) as (Hi2 & Ho2 & Hc2).
  destruct (batch_frame _ _ _ _ feature_name H3 (Hout text)) as (Hi3 & Ho3 & Hc3).
  destruct (batch_frame _ _ _ _ feature_name H4 (Hout date)) as (Hi4 & Ho4 & Hc4).
  destruct (setup_inputs_outputs features_dict self) as [Ho0 Hc0].
  destruct (setup_inputs_dtype_agreement_lemma self features_dict feature_name stats Hnd Hin)
    as [Hi0 _].
  rewrite Hi4, Hi3, Hi2, Hi1, Ho4, Ho3, Ho2, Ho1, Hc4, Hc3, Hc2, Hc1, Ho0, Hc0.
  split; [exact Hi0 | split; reflexivity].
Qed.
End SchedulerFrame.


Lemma setup_inputs_dtype_agreement_witness :
  Dict.get (inputs (_parallel_setup_inputs (Scenario.blank CONCAT) Scenario.three_features))
           (KName "x")
  = Some (Symbolic.SInput [1] (KName "x") (VDType "float32"))
  /\ Dict.get (signature (_parallel_setup_inputs (Scenario.blank CONCAT)
                                                  Scenario.three_features)) "x"
     = Some (mkTensorSpec [None; Some 1] (VDType "float32") "x").
Proof.
  destruct (setup_inputs_dtype_agreement (H := Scenario.backend) (Scenario.blank CONCAT)
              Scenario.three_features "x"
              [ ("mean", VInt 0); ("var", VInt 1); ("dtype", VDType "float32") ]
              three_features_nodup (or_introl eq_refl)) as (Hi & Hs & _).
  split; [exact Hi | exact Hs].
Defined.

Lemma stats_xyw_nodup : NoDup (Dict.keys SchedulerSamples.stats_xyw).
Proof. repeat constructor; simpl; intuition discriminate. Defined.

Lemma unclassified_feature_has_input_only_witness :
  match _process_features_parallel (H0 := Symbolic.SampleDefaults)
          SchedulerSamples.declared SchedulerSamples.stats_xyw with
  | Ok self' =>
      Dict.get (inputs self') (KName "w")
      = Some (Symbolic.SInput [1] (KName "w") (VDType "int64"))
      /\ Dict.get (outputs self') "w" = None
      /\ Dict.get (outputs_categorical self') "w" = None
  | Raise _ => False
  end.
Proof.
  destruct (_process_features_parallel (H0 := Symbolic.SampleDefaults)
              SchedulerSamples.declared SchedulerSamples.stats_xyw) as [self'|e] eqn:E.
  - apply (unclassified_feature_has_input_only (H := Scenario.backend)
             (H0 := Symbolic.SampleDefaults) SchedulerSamples.declared self'
             SchedulerSamples.stats_xyw "w" [ ("count", VInt 7); ("dtype", VDType "int64") ]
             stats_xyw_nodup).
    + right; left; reflexivity.
    + reflexivity.
    + exact E.
  - vm_compute in E. discriminate E.
Defined.

(** ** Scheduler: one builder per feature *)

Section SchedulerBuilds.
Context `{Keras} `{FeatureDefaults}.

Lemma getitem_specs_local (s s0 : t) (n : string) :
  Dict.get (features_specs s) n = Dict.get (features_specs s0) n ->
  Dict.getitem (features_specs s) n = Dict.getitem (features_specs s0) n.
Proof. intros E. unfold Dict.getitem. now rewrite E. Qed.

Lemma custom_steps_local (s s0 : t) (p : FeaturePreprocessor) (f : Feature) (n : string) :
  Dict.get (features_specs s) n = Dict.get (features_specs s0) n ->
  _add_custom_steps s p f n = _add_custom_steps s0 p f n.
Proof. intros E. unfold _add_custom_steps. now rewrite (getitem_specs_local s s0 n E). Qed.

(** A chain is built from the feature's own descriptor and statistics. *)
Lemma numeric_pipeline_local (s s0 : t) (n : string) (st : Stats) :
  Dict.get (features_specs s) n = Dict.get (features_specs s0) n ->
  numeric_pipeline s n st = numeric_pipeline s0 n st.
Proof.
  intros E. unfold numeric_pipeline.
  destruct (Dict.getitem st "mean") as [m|e]; [|reflexivity]. cbn [bind].
  destruct (Dict.getitem st "var") as [v|e]; [|reflexivity]. cbn [bind].
  rewrite (getitem_specs_local s s0 n E).
  destruct (Dict.getitem (features_specs s0) n) as [f|e]; [|reflexivity]. cbn [bind].
  now rewrite (custom_steps_local s s0 _ f n E).
Qed.

Lemma categorical_pipeline_local (s s0 : t) (n : string) (st : Stats) :
  Dict.get (features_specs s) n = Dict.get (features_specs s0) n ->
  categorical_pipeline s n st = categorical_pipeline s0 n st.
Proof.
  intros E. unfold categorical_pipeline.
  destruct (Dict.getitem st "vocab") as [v|e]; [|reflexivity]. cbn [bind].
  rewrite (getitem_specs_local s s0 n E).
  destruct (Dict.getitem (features_specs s0) n) as [f|e]; [|reflexivity]. cbn [bind].
  now rewrite (custom_steps_local s s0 _ f n E).
Qed.

(** A builder reads the object through the feature's descriptor and the
    output mode only: from two states that agree on those it writes the
    same value into the same map. *)
Lemma run_task_local (kind : GroupKind) (s s0 s' : t) (n : string) (il : Tensor)
    (st : Stats) :
  Dict.get (features_specs s) n = Dict.get (features_specs s0) n ->
  output_mode s = output_mode s0 ->
  run_task kind s (n, il, st) = Ok s' ->
  exists s1,
    run_task kind s0 (n, il, st) = Ok s1
    /\ ((exists v, outputs s' = Dict.set (outputs s) n v
                   /\ outputs s1 = Dict.set (outputs s0) n v
                   /\ outputs_categorical s' = outputs_categorical s
                   /\ outputs_categorical s1 = outputs_categorical s0)
        \/ (exists v, outputs_categorical s' = Dict.set (outputs_categorical s) n v
                      /\ outputs_categorical s1 = Dict.set (outputs_categorical s0) n v
                      /\ outputs s' = outputs s
                      /\ outputs s1 = outputs s0)).
Proof.
  intros E Hm. destruct kind; cbn [run_task].
  - unfold _add_pipeline_numeric. rewrite (numeric_pipeline_local s s0 n st E).
    intros Hr. apply bind_ok in Hr as (p & Hp & Hr). injection Hr as <-.
    rewrite Hp. cbn [bind]. eexists. split; [reflexivity|].
    left. eexists. repeat split.
  - unfold _add_pipeline_categorical. rewrite (categorical_pipeline_local s s0 n st E).
    intros Hr. apply bind_ok in Hr as (p & Hp & Hr). injection Hr as <-.
    rewrite Hp. cbn [bind]. eexists. split; [reflexivity|].
    right. eexists. repeat split.
  - unfold _add_pipeline_text. rewrite (getitem_specs_local s s0 n E).
    intros Hr. apply bind_ok in Hr as (f & Hf & Hr). rewrite Hf. cbn [bind].
    apply bind_ok in Hr as (vocab & Hv & Hr). rewrite Hv. cbn [bind].
    apply bind_ok in Hr as ([s1 p] & Hs1 & Hr).
    destruct (has_custom_steps f).
    + apply bind_ok in Hs1 as (p' & Hp' & Hs1). injection Hs1 as <- <-.
      rewrite <- (custom_steps_local s s0 _ f n E), Hp'. cbn [bind].
      rewrite <- Hm.
      destruct (String.eqb (output_mode s) CONCAT); injection Hr as <-;
        (eexists; split; [reflexivity|]); [right|left]; eexists; repeat split.
    + apply bind_ok in Hs1 as (p1 & Hp1 & Hs1). rewrite Hp1. cbn [bind].
      destruct (Dict.contains (kwargs f) "output_sequence_length");
        apply bind_ok in Hs1 as (p2 & Hp2 & Hs1); apply bind_ok in Hs1 as (p3 & Hp3 & Hs1);
        injection Hs1 as <- <-; rewrite Hp2; cbn [bind]; rewrite Hp3; cbn [bind];
        [ rewrite <- Hm
        | change (output_mode (set_features_specs ?x s0)) with (output_mode s0);
          change (output_mode (set_features_specs ?x s)) with (output_mode s) in Hr;
          rewrite <- Hm ];
        destruct (String.eqb (output_mode s) CONCAT); injection Hr as <-;
        (eexists; split; [reflexivity|]); [right|left|right|left]; eexists; repeat split.
  - unfold _add_pipeline_date. rewrite (getitem_specs_local s s0 n E).
    intros Hr. apply bind_ok in Hr as (f & Hf & Hr). rewrite Hf. cbn [bind].
    apply bind_ok in Hr as (p & Hp & Hr). injection Hr as <-.
    rewrite (custom_steps_local s s0 _ f n E) in Hp. rewrite Hp. cbn [bind].
    eexists. split; [reflexivity|]. left. eexists. repeat split.
Qed.

Lemma run_task_transfer (kind : GroupKind) (s s0 s' : t) (n : string) (il : Tensor)
    (st : Stats) :
  Dict.get (features_specs s) n = Dict.get (features_specs s0) n ->
  output_mode s = output_mode s0 ->
  Dict.get (outputs s) n = Dict.get (outputs s0) n ->
  Dict.get (outputs_categorical s) n = Dict.get (outputs_categorical s0) n ->
  run_task kind s (n, il, st) = Ok s' ->
  exists built,
    run_task kind s0 (n, il, st) = Ok built
    /\ Dict.get (outputs s') n = Dict.get (outputs built) n
    /\ Dict.get (outputs_categorical s') n = Dict.get (outputs_categorical built) n.
Proof.
  intros E Hm Ho Hc Hr.
  destruct (run_task_local kind s s0 s' n il st E Hm Hr)
    as (s1 & Hs1 & [(v & H1 & H2 & H3 & H4)|(v & H1 & H2 & H3 & H4)]);
    exists s1; (split; [exact Hs1|]); rewrite H1, H2, H3, H4, !get_set_same; now split.
Qed.

(** What a builder leaves alone: the output mode and the descriptors of the
    other features. *)
Lemma run_task_specs (kind : GroupKind) (s s' : t) (n : string) (il : Tensor) (st : Stats) :
  run_task kind s (n, il, st) = Ok s' ->
  output_mode s' = output_mode s
  /\ forall other, other <> n ->
       Dict.get (features_specs s') other = Dict.get (features_specs s) other.
Proof.
  destruct kind; cbn [run_task].
  - unfold _add_pipeline_numeric. intros Hr. apply bind_ok in Hr as (p & _ & Hr).
    injection Hr as <-. now split.
  - unfold _add_pipeline_categorical. intros Hr. apply bind_ok in Hr as (p & _ & Hr).
    injection Hr as <-. now split.
  - unfold _add_pipeline_text. intros Hr.
    apply bind_ok in Hr as (f & _ & Hr). apply bind_ok in Hr as (vocab & _ & Hr).
    apply bind_ok in Hr as ([s1 p] & Hs1 & Hr).
    assert (Hframe : output_mode s1 = output_mode s
                     /\ forall other, other <> n ->
                          Dict.get (features_specs s1) other
                          = Dict.get (features_specs s) other).
    { destruct (has_custom_steps f).
      - apply bind_ok in Hs1 as (p' & _ & Hs1). injection Hs1 as <- <-. now split.
      - apply bind_ok in Hs1 as (p1 & _ & Hs1).
        destruct (Dict.contains (kwargs f) "output_sequence_length");
          apply bind_ok in Hs1 as (p2 & _ & Hs1); apply bind_ok in Hs1 as (p3 & _ & Hs1);
          injection Hs1 as <- <-; (split; [reflexivity|]); intros other Hne;
          [reflexivity|].
        change (Dict.get (Dict.set (features_specs s) n
                            (set_kwargs f (Dict.set (kwargs f) "output_sequence_length"
                                                    (VInt 35)))) other
                = Dict.get (features_specs s) other).
        apply get_set_other. now apply String.eqb_neq. }
    destruct (String.eqb (output_mode s1) CONCAT); injection Hr as <-; exact Hframe.
  - unfold _add_pipeline_date. intros Hr.
    apply bind_ok in Hr as (f & _ & Hr). apply bind_ok in Hr as (p & _ & Hr).
    injection Hr as <-. now split.
Qed.

Lemma tasks_specs_frame (kind : GroupKind) (tasks : list (string * Tensor * Stats))
    (s s' : t) (other : string) :
  fold_res (run_task kind) tasks s = Ok s' ->
  ~ In other (map (fun task => fst (fst task)) tasks) ->
  output_mode s' = output_mode s
  /\ Dict.get (features_specs s') other = Dict.get (features_specs s) other.
Proof.
  revert s. induction tasks as [|[[n il] st] rest IH]; intros s Hr Hn.
  - simpl in Hr. injection Hr as <-. now split.
  - cbn [fold_res] in Hr. simpl in Hn. apply bind_ok in Hr as (s1 & Hs1 & Hr).
    destruct (IH s1 Hr) as (Hm & Hf); [tauto|].
    destruct (run_task_specs _ _ _ _ _ _ Hs1) as [Hm1 Hf1].
    rewrite Hm, Hf, Hm1. split; [reflexivity|]. apply Hf1. intros ->. tauto.
Qed.

(** The tasks of one batch: the feature's slots after the batch are those
    its own task writes when run first. *)
Lemma tasks_build (kind : GroupKind) (tasks : list (string * Tensor * Stats))
    (s s' : t) (n : string) (il : Tensor) (st : Stats) :
  fold_res (run_task kind) tasks s = Ok s' ->
  NoDup (map (fun task => fst (fst task)) tasks) ->
  In (n, il, st) tasks ->
  exists built,
    run_task kind s (n, il, st) = Ok built
    /\ Dict.get (outputs s') n = Dict.get (outputs built) n
    /\ Dict.get (outputs_categorical s') n = Dict.get (outputs_categorical built) n.
Proof.
  revert s. induction tasks as [|[[n' il'] st'] rest IH]; intros s Hr Hnd Hin; [contradiction|].
  cbn [fold_res] in Hr. apply bind_ok in Hr as (s1 & Hs1 & Hr).
  inversion Hnd as [|? ? Hfresh Hnd']; subst.
  destruct Hin as [E|Hin].
  - injection E as -> -> ->. exists s1. split; [exact Hs1|].
    destruct (tasks_frame kind rest s1 s' n Hr Hfresh) as (_ & Ho & Hc). now split.
  - assert (Hne : n <> n').
    { intros ->. apply Hfresh. simpl.
      apply (in_map (fun task => fst (fst task)) rest (n', il, st) Hin). }
    destruct (IH s1 Hr Hnd' Hin) as (built1 & Hb1 & Ho1 & Hc1).
    destruct (run_task_specs _ _ _ _ _ _ Hs1) as [Hm Hf].
    assert (Hslots : Dict.get (outputs s1) n = Dict.get (outputs s) n
                     /\ Dict.get (outputs_categorical s1) n
                        = Dict.get (outputs_categorical s) n).
    { assert (Hneb : String.eqb n n' = false) by now apply String.eqb_neq.
      destruct (run_task_one_slot kind s s1 n' il' st' Hs1)
        as [(v & -> & ->)|(v & -> & ->)]; split; try reflexivity;
        now apply get_set_other. }
    destruct Hslots as [Hos Hcs].
    destruct (run_task_transfer kind s1 s built1 n il st (Hf n Hne) Hm Hos Hcs Hb1)
      as (built & Hb & Ho & Hc).
    exists built. split; [exact Hb|]. now rewrite Ho1, Hc1, Ho, Hc.
Qed.

Lemma submitted_in (self : t) (batch : list (string * Stats))
    (submitted : list (string * Tensor * Stats)) (n : string) (st : Stats) (il : Tensor) :
  map_res (fun '(feature_name, stats) =>
             input_layer <- Dict.getitem (inputs self) (KName feature_name) ;;
             Ok (feature_name, input_layer, stats)) batch = Ok submitted ->
  Dict.get (inputs self) (KName n) = Some il ->
  In (n, st) batch -> In (n, il, st) submitted.
Proof.
  intros Hr Hil. revert submitted Hr.
  induction batch as [|[n' st'] rest IH]; intros submitted Hr Hin; [contradiction|].
  simpl in Hr. apply bind_ok in Hr as (task & Ht & Hr).
  apply bind_ok in Ht as (il' & Hil' & Ht). injection Ht as <-.
  apply bind_ok in Hr as (sub & Hsub & Hr). injection Hr as <-.
  destruct Hin as [E|Hin].
  - injection E as -> ->. left. unfold Dict.getitem in Hil'. rewrite Hil in Hil'.
    now injection Hil' as <-.
  - right. now apply IH.
Qed.

(** One step of the loop over the kind groups. *)
Lemma batch_specs_frame (self self' : t) (batch : list (string * Stats)) (kind : GroupKind)
    (other : string) :
  match batch with
  | [] => Ok self
  | _ => _process_feature_batch self batch kind
  end = Ok self' ->
  ~ In other (map fst batch) ->
  output_mode self' = output_mode self
  /\ Dict.get (features_specs self') other = Dict.get (features_specs self) other.
Proof.
  intros Hr Hn. destruct batch as [|b rest]; [injection Hr as <-; now split|].
  unfold _process_feature_batch in Hr. apply bind_ok in Hr as (submitted & Hsub & Hr).
  apply (tasks_specs_frame kind submitted self self' other Hr).
  now rewrite (submitted_names self _ submitted Hsub).
Qed.

Lemma batch_build (self self' : t) (batch : list (string * Stats)) (kind : GroupKind)
    (n : string) (st : Stats) (il : Tensor) :
  match batch with
  | [] => Ok self
  | _ => _process_feature_batch self batch kind
  end = Ok self' ->
  NoDup (map fst batch) ->
  In (n, st) batch ->
  Dict.get (inputs self) (KName n) = Some il ->
  exists built,
    run_task kind self (n, il, st) = Ok built
    /\ Dict.get (outputs self') n = Dict.get (outputs built) n
    /\ Dict.get (outputs_categorical self') n = Dict.get (outputs_categorical built) n.
Proof.
  intros Hr Hnd Hin Hil. destruct batch as [|b rest]; [contradiction|].
  unfold _process_feature_batch in Hr. apply bind_ok in Hr as (submitted & Hsub & Hr).
  apply (tasks_build kind submitted self self' n il st Hr).
  - now rewrite (submitted_names self _ submitted Hsub).
  - exact (submitted_in self _ submitted n st il Hsub Hil Hin).
Qed.

(** The loop over the kind groups, for a feature that is in no group. *)
Lemma groups_frame (gs : list (list (string * Stats) * GroupKind)) (self self' : t)
    (n : string) :
  fold_res (fun self '(features, feature_type) =>
              match features with
              | [] => Ok self
              | _ => _process_feature_batch self features feature_type
              end) gs self = Ok self' ->
  (forall b k, In (b, k) gs -> ~ In n (map fst b)) ->
  Dict.get (outputs self') n = Dict.get (outputs self) n
  /\ Dict.get (outputs_categorical self') n = Dict.get (outputs_categorical self) n.
Proof.
  revert self. induction gs as [|[b k] rest IH]; intros self Hr Hout.
  - simpl in Hr. injection Hr as <-. now split.
  - cbn [fold_res] in Hr. apply bind_ok in Hr as (s1 & H1 & Hr).
    destruct (IH s1 Hr) as [Ho Hc]; [intros b' k' Hin; apply (Hout b' k'); now right|].
    destruct (batch_frame self s1 b k n H1 (Hout b k (or_introl eq_refl))) as (_ & Ho1 & Hc1).
    now rewrite Ho, Hc, Ho1, Hc1.
Qed.

(** The loop over the kind groups, for a feature that is in the group of
    one kind: its slots at the end are those the builder of that kind
    writes when run on the state the loop starts from. *)
Lemma groups_build (gs : list (list (string * Stats) * GroupKind)) (self self' : t)
    (n : string) (st : Stats) (il : Tensor) (kind : GroupKind) :
  fold_res (fun self '(features, feature_type) =>
              match features with
              | [] => Ok self
              | _ => _process_feature_batch self features feature_type
              end) gs self = Ok self' ->
  NoDup (map snd gs) ->
  (forall b k, In (b, k) gs -> NoDup (map fst b)) ->
  (forall b k, In (b, k) gs -> In n (map fst b) -> k = kind /\ In (n, st) b) ->
  (exists b, In (b, kind) gs /\ In n (map fst b)) ->
  Dict.get (inputs self) (KName n) = Some il ->
  exists built,
    run_task kind self (n, il, st) = Ok built
    /\ Dict.get (outputs self') n = Dict.get (outputs built) n
    /\ Dict.get (outputs_categorical self') n = Dict.get (outputs_categorical built) n.
Proof.
  revert self. induction gs as [|[b k] rest IH]; intros self Hr Hnd Hnb Hmem Hex Hil.
  - destruct Hex as (b & [] & _).
  - cbn [fold_res] in Hr. apply bind_ok in Hr as (s1 & H1 & Hr).
    inversion Hnd as [|? ? Hfresh Hnd']; subst.
    destruct (in_dec string_dec n (map fst b)) as [Hin|Hout].
    + destruct (Hmem b k (or_introl eq_refl) Hin) as [-> Hnst].
      destruct (batch_build self s1 b kind n st il H1 (Hnb b kind (or_introl eq_refl)) Hnst Hil)
        as (built & Hb & Ho & Hc).
      exists built. split; [exact Hb|].
      destruct (groups_frame rest s1 self' n Hr) as [Ho' Hc'].
      { intros b' k' Hin' Hn'.
        destruct (Hmem b' k' (or_intror Hin') Hn') as [-> _].
        apply Hfresh. simpl. apply (in_map snd rest (b', kind) Hin'). }
      now rewrite Ho', Hc'.
    + destruct (batch_frame self s1 b k n H1 Hout) as (Hi1 & Ho1 & Hc1).
      destruct (batch_specs_frame self s1 b k n H1 Hout) as (Hm1 & Hf1).
      destruct (IH s1 Hr Hnd') as (built1 & Hb1 & Ho & Hc).
      { intros b' k' Hin'. apply (Hnb b' k'). now right. }
      { intros b' k' Hin'. apply (Hmem b' k'). now right. }
      { destruct Hex as (b0 & [E|Hin0] & Hn0).
        - injection E as -> ->. contradiction.
        - now exists b0. }
      { now rewrite Hi1. }
      destruct (run_task_transfer kind s1 self built1 n il st Hf1 Hm1 Ho1 Hc1 Hb1)
        as (built & Hb & Ho' & Hc').
      exists built. split; [exact Hb|]. now rewrite Ho, Hc, Ho', Hc'.
Qed.

Lemma group_nodup (self : t) (features_dict : dict string Stats) (kind : GroupKind) :
  NoDup (Dict.keys features_dict) -> NoDup (map fst (group self features_dict kind)).
Proof.
  unfold Dict.keys, group. induction features_dict as [|[n st] rest IH]; intros Hnd.
  - constructor.
  - inversion Hnd as [|? ? Hfresh Hnd']; subst. simpl.
    destruct (match group_of self n st with
              | Some k => GroupKind_eqb k kind
              | None => false
              end); [|now apply IH].
    simpl. constructor; [|now apply IH].
    intros Hin. apply Hfresh. apply in_map_iff in Hin as ([n' st'] & E & Hf).
    apply filter_In in Hf as [Hf _]. simpl in E. subst n'.
    apply (in_map fst rest (n, st') Hf).
Qed.

Lemma setup_inputs_specs (features_dict : dict string Stats) (self : t) :
  features_specs (_parallel_setup_inputs self features_dict) = features_specs self
  /\ output_mode (_parallel_setup_inputs self features_dict) = output_mode self.
Proof.
  revert self. induction features_dict as [|[n st] l IH]; intros self; [now split|].
  unfold _parallel_setup_inputs in *. cbn [fold_left].
  destruct (IH (setup_input self n st)) as [Hf Hm]. now rewrite Hf, Hm.
Qed.

(** C10: the scheduler assigns a feature of the statistics dictionary to at
    most one kind group, chosen with precedence numeric ([mean] present),
    then categorical ([vocab] present and not a declared text feature), then
    text, then date. When the scheduler returns, the slots of the feature in
    the two output maps are those that the builder of its group, and no
    other, writes when run on the placeholder of the feature: one slot of
    one map, under the feature's own name, the other map's slot being as it
    was; a feature in no group has both slots as they were. In particular a
    feature with both [mean] and [vocab] carries the chain of the numeric
    pipeline in the plain map and nothing new in the categorical one. *)
Theorem grouping_is_exclusive_with_precedence (self self' : t)
    (features_dict : dict string Stats) (feature_name : string) (stats : Stats) :
  NoDup (Dict.keys features_dict) ->
  In (feature_name, stats) features_dict ->
  _process_features_parallel self features_dict = Ok self' ->
  let ready := _parallel_setup_inputs self features_dict in
  let input_layer :=
    Input [1] (KName feature_name) (Dict.get_default stats "dtype" tf_string) in
  let chosen :=
    if Dict.contains stats "mean" then Some numeric
    else if Dict.contains stats "vocab" && negb (mem feature_name (text_features self))
    then Some categorical
    else if mem feature_name (text_features self) then Some text
    else if mem feature_name (date_features self) then Some date
    else None in
  (forall kind,
      In feature_name (Dict.keys (group self features_dict kind)) <-> chosen = Some kind)
  /\ match chosen with
     | Some kind =>
         exists built,
           run_task kind ready (feature_name, input_layer, stats) = Ok built
           /\ Dict.get (outputs self') feature_name = Dict.get (outputs built) feature_name
           /\ Dict.get (outputs_categorical self') feature_name
              = Dict.get (outputs_categorical built) feature_name
           /\ ((exists v, outputs built = Dict.set (outputs self) feature_name v
                          /\ outputs_categorical built = outputs_categorical self)
               \/ (exists v, outputs built = outputs self
                             /\ outputs_categorical built
                                = Dict.set (outputs_categorical self) feature_name v))
     | None =>
         Dict.get (outputs self') feature_name = Dict.get (outputs self) feature_name
         /\ Dict.get (outputs_categorical self') feature_name
            = Dict.get (outputs_categorical self) feature_name
     end
  /\ (Dict.contains stats "mean" = true -> Dict.contains stats "vocab" = true ->
      exists preprocessor,
        numeric_pipeline self feature_name stats = Ok preprocessor
        /\ Dict.get (outputs self') feature_name
           = Some (Some (chain preprocessor (OneInput input_layer)))
        /\ Dict.get (outputs_categorical self') feature_name
           = Dict.get (outputs_categorical self) feature_name).
Proof.
  intros Hnd Hin Hr ready input_layer chosen.
  pose proof (group_membership self features_dict feature_name stats) as Hg.
  change chosen with (group_of self feature_name stats) in *.
  destruct (setup_inputs_outputs features_dict self) as [Ho0 Hc0].
  destruct (setup_inputs_specs features_dict self) as [Hf0 Hm0].
  fold ready in Ho0, Hc0, Hf0, Hm0.
  assert (Hil : Dict.get (inputs ready) (KName feature_name) = Some input_layer)
    by exact (proj1 (setup_inputs_dtype_agreement_lemma self features_dict feature_name
                       stats Hnd Hin)).
  unfold _process_features_parallel in Hr. fold ready in Hr.
  assert (Hbuilt : forall kind, group_of self feature_name stats = Some kind ->
            exists built,
              run_task kind ready (feature_name, input_layer, stats) = Ok built
              /\ Dict.get (outputs self') feature_name = Dict.get (outputs built) feature_name
              /\ Dict.get (outputs_categorical self') feature_name
                 = Dict.get (outputs_categorical built) feature_name).
  { intros kind Hk.
    apply (groups_build _ ready self' feature_name stats input_layer kind Hr).
    - repeat constructor; simpl; intuition discriminate.
    - intros b k [E|[E|[E|[E|[]]]]]; injection E as <- <-; now apply group_nodup.
    - intros b k Hb Hn.
      assert (Hbk : b = group self features_dict k)
        by (destruct Hb as [E|[E|[E|[E|[]]]]]; now injection E as <- <-).
      subst b. pose proof (proj1 (Hg k Hnd Hin) Hn) as Hk'.
      split; [congruence|]. unfold group. apply filter_In. split; [exact Hin|].
      rewrite Hk'. now apply GroupKind_eqb_eq.
    - exists (group self features_dict kind). split.
      + destruct kind; simpl; auto.
      + now apply (Hg kind Hnd Hin).
    - exact Hil. }
  split; [intros kind; exact (Hg kind Hnd Hin)|]. split.
  - destruct (group_of self feature_name stats) as [kind|] eqn:Ek.
    + destruct (Hbuilt kind eq_refl) as (built & Hb & Ho & Hc).
      exists built. split; [exact Hb|]. split; [exact Ho|]. split; [exact Hc|].
      rewrite <- Ho0, <- Hc0. exact (run_task_one_slot kind ready built _ _ _ Hb).
    + rewrite <- Ho0, <- Hc0. apply (groups_frame _ ready self' feature_name Hr).
      intros b k Hb Hn.
      assert (Hbk : b = group self features_dict k)
        by (destruct Hb as [E|[E|[E|[E|[]]]]]; now injection E as <- <-).
      subst b. pose proof (proj1 (Hg k Hnd Hin) Hn). congruence.
  - intros Hmean Hvocab.
    assert (Hk : group_of self feature_name stats = Some numeric)
      by (unfold group_of; now rewrite Hmean).
    destruct (Hbuilt numeric Hk) as (built & Hb & Ho & Hc).
    cbn [run_task] in Hb. unfold _add_pipeline_numeric in Hb.
    apply bind_ok in Hb as (p & Hp & Hb). injection Hb as <-.
    exists p. split; [|split].
    + rewrite <- Hp. apply numeric_pipeline_local. now rewrite Hf0.
    + rewrite Ho. apply get_set_same.
    + rewrite Hc. now rewrite <- Hc0.
Qed.
End SchedulerBuilds.

Lemma stats_xyz_nodup : NoDup (Dict.keys SchedulerSamples.stats_xyz).
Proof. repeat constructor; simpl; intuition discriminate. Defined.

Lemma grouping_is_exclusive_with_precedence_witness :
  match _process_features_parallel (H0 := Symbolic.SampleDefaults)
          SchedulerSamples.declared_xyz SchedulerSamples.stats_xyz with
  | Ok self' =>
      Dict.get (outputs self') "z"
      = Some (Some (Symbolic.SChain
                      (mkPreprocessor "z"
                         [ mkStep (LayerName "Normalization") "norm_z"
                             [("mean", VInt 2); ("variance", VInt 3)] ])
                      [Symbolic.SInput [1] (KName "z") (VDType "float32")]))
      /\ Dict.get (outputs_categorical self') "z" = None
  | Raise _ => False
  end.
Proof.
  destruct (_process_features_parallel (H0 := Symbolic.SampleDefaults)
              SchedulerSamples.declared_xyz SchedulerSamples.stats_xyz) as [self'|e] eqn:E.
  - destruct (grouping_is_exclusive_with_precedence (H := Scenario.backend)
                (H0 := Symbolic.SampleDefaults) SchedulerSamples.declared_xyz self'
                SchedulerSamples.stats_xyz "z"
                [ ("mean", VInt 2); ("var", VInt 3); ("vocab", VList [VStr "u"]);
                  ("dtype", VDType "float32") ]
                stats_xyz_nodup)
      as (_ & _ & Hboth).
    + right; right; left; reflexivity.
    + exact E.
    + destruct (Hboth eq_refl eq_refl) as (p & Hp & Ho & Hc).
      vm_compute in Hp. injection Hp as <-. split; [exact Ho | exact Hc].
  - vm_compute in E. discriminate E.
Defined.

(** ** Output fusion: missing tensor, transformer blocks, DICT mode *)

Section FusionEdges.
Context `{Keras}.
Import Fusion.

Lemma reshape_all_length (features : list (option Tensor)) (reshaped : list Tensor) :
  map_res reshape_feature features = Ok reshaped ->
  List.length reshaped = List.length features.
Proof.
  revert reshaped. induction features as [|x rest IH]; intros reshaped Hr.
  - simpl in Hr. now injection Hr as <-.
  - simpl in Hr. apply bind_ok in Hr as (y & _ & Hr). apply bind_ok in Hr as (ys & Hys & Hr).
    injection Hr as <-. simpl. now rewrite (IH ys Hys).
Qed.

(** X18: in CONCAT mode without transformer blocks (no block count, a zero
    count, or a placement the fusion stage does not know), whenever the
    fusion returns, the fused tensor is missing exactly when both output
    maps are empty. *)
Theorem fused_tensor_missing_iff_no_outputs (self : t) (fused : option Tensor) :
  transformer_active self = false ->
  fuse_concat self = Ok fused ->
  (fused = None <-> outputs self = [] /\ outputs_categorical self = []).
Proof.
  unfold transformer_active. intros Hoff Hr.
  unfold fuse_concat in Hr. apply bind_ok in Hr as (reshaped & Hre & Hr).
  pose proof (reshape_all_length _ _ Hre) as Hl.
  assert (Hc : negb (Nat.eqb (nr_blocks self) 0)
               && String.eqb (transfo_placement self) PLACEMENT_CATEGORICAL = false).
  { destruct (negb (Nat.eqb (nr_blocks self) 0)); [|reflexivity].
    simpl in *. now apply orb_false_elim in Hoff. }
  assert (Ha : negb (Nat.eqb (nr_blocks self) 0)
               && String.eqb (transfo_placement self) PLACEMENT_ALL_FEATURES = false).
  { destruct (negb (Nat.eqb (nr_blocks self) 0)); [|reflexivity].
    simpl in *. now apply orb_false_elim in Hoff. }
  rewrite Hc in Hr. cbn [bind] in Hr. rewrite Ha in Hr. injection Hr as <-.
  unfold Dict.values in *.
  destruct (outputs self) as [|o os]; destruct (outputs_categorical self) as [|c cs];
    destruct reshaped as [|r rs]; simpl in Hl; try discriminate Hl; simpl;
    split; try discriminate; try tauto; intros [Ho Hcs]; discriminate.
Qed.

End FusionEdges.

Section DictNoDup.
Context {K V : Type} `{DictKeyLaws K}.

Lemma set_nodup (d : dict K V) (k : K) (v : V) :
  NoDup (Dict.keys d) -> NoDup (Dict.keys (Dict.set d k v)).
Proof.
  intros Hnd. rewrite keys_set. destruct (Dict.contains d k) eqn:E; [exact Hnd|].
  apply NoDup_app; [exact Hnd | repeat constructor; intros [] |].
  intros x Hx [<-|[]]. apply contains_in in Hx. congruence.
Qed.

Lemma update_nodup (other d : dict K V) :
  NoDup (Dict.keys d) -> NoDup (Dict.keys (Dict.update d other)).
Proof.
  revert d. induction other as [|[k v] o IH]; intros d Hnd; [exact Hnd|].
  unfold Dict.update in *. cbn [fold_left fst snd]. apply IH. now apply set_nodup.
Qed.

Lemma in_keys_get (d : dict K V) (k : K) :
  In k (Dict.keys d) <-> Dict.get d k <> None.
Proof.
  rewrite <- contains_in. unfold Dict.contains.
  destruct (Dict.get d k); split; congruence.
Qed.
End DictNoDup.

Section DictMode.
Context `{Keras}.

(** X20: in DICT mode the fusion stage only reorders the plain output map:
    the new mapping has the same keys (the names of the inputs that have an
    output first, in input order, then the other keys in their own order),
    every key is mapped to the output computed for it, so no key is left
    mapped to the unset seed value, and inputs and categorical outputs are
    not touched. *)
Theorem dict_mode_reorders_plain_outputs (self : t) :
  NoDup (Dict.keys (inputs self)) ->
  NoDup (Dict.keys (outputs self)) ->
  output_mode self <> CONCAT ->
  exists self',
    _prepare_outputs self = Ok self'
    /\ (forall k, Dict.get (outputs self') k = Dict.get (outputs self) k)
    /\ Permutation (Dict.keys (outputs self')) (Dict.keys (outputs self))
    /\ Dict.keys (outputs self')
       = Dict.keys (seed_pairs self)
         ++ filter (fun k => negb (Dict.contains (seed_pairs self) k))
                   (Dict.keys (outputs self))
    /\ inputs self' = inputs self
    /\ outputs_categorical self' = outputs_categorical self.
Proof.
  intros Hi Ho Hm. unfold _prepare_outputs.
  apply String.eqb_neq in Hm. rewrite Hm.
  eexists. split; [reflexivity|].
  change (outputs (set_outputs (fuse_dict self) self)) with (fuse_dict self).
  assert (Hget : forall k, Dict.get (fuse_dict self) k = Dict.get (outputs self) k)
    by (intros k; now apply fuse_dict_get).
  split; [exact Hget|]. split; [|split; [now apply fuse_dict_keys | now split]].
  apply NoDup_Permutation; [|exact Ho|].
  - unfold fuse_dict. apply update_nodup.
    rewrite (of_pairs_nodup (seed_pairs self)) by now apply seed_pairs_nodup.
    now apply seed_pairs_nodup.
  - intros k. now rewrite !in_keys_get, Hget.
Qed.
End DictMode.

Lemma fused_tensor_missing_iff_no_outputs_witness :
  match fuse_concat SchedulerSamples.plain_columns with
  | Ok fused =>
      fused = None <-> outputs SchedulerSamples.plain_columns = []
                       /\ outputs_categorical SchedulerSamples.plain_columns = []
  | Raise _ => False
  end.
Proof.
  destruct (fuse_concat SchedulerSamples.plain_columns) as [fused|e] eqn:E.
  - exact (fused_tensor_missing_iff_no_outputs (H := Scenario.backend)
             SchedulerSamples.plain_columns fused eq_refl E).
  - vm_compute in E. discriminate E.
Defined.


Lemma out_of_order_inputs_nodup : NoDup (Dict.keys (inputs SchedulerSamples.out_of_order)).
Proof. repeat constructor; simpl; intuition discriminate. Defined.

Lemma out_of_order_outputs_nodup : NoDup (Dict.keys (outputs SchedulerSamples.out_of_order)).
Proof. repeat constructor; simpl; intuition discriminate. Defined.

Lemma dict_mode_reorders_plain_outputs_witness :
  exists self',
    _prepare_outputs SchedulerSamples.out_of_order = Ok self'
    /\ Dict.keys (outputs self') = ["a"; "c"; "a_x_b"].
Proof.
  destruct (dict_mode_reorders_plain_outputs (H := Scenario.backend)
              SchedulerSamples.out_of_order
              out_of_order_inputs_nodup out_of_order_outputs_nodup)
    as (self' & Hr & _ & _ & Hk & _).
  - vm_compute. discriminate.
  - exists self'. split; [exact Hr|]. rewrite Hk. vm_compute. reflexivity.
Defined.


(** ** Metadata normalisation *)

Section JsonFacts.
Import Json.

(** Induction on Python values, through lists and mappings. *)
Lemma PyVal_nested_ind (P : PyVal -> Prop) :
  P VNone -> (forall b, P (VBool b)) -> (forall z, P (VInt z)) -> (forall q, P (VFloat q)) ->
  (forall s, P (VStr s)) ->
  (forall l, Forall P l -> P (VList l)) ->
  (forall l, Forall P l -> P (VTuple l)) ->
  (forall kvs, Forall (fun kv => P (snd kv)) kvs -> P (VDict kvs)) ->
  (forall n, P (VDType n)) -> (forall r, P (VObj r)) ->
  forall v, P v.
Proof.
  intros Hnone Hbool Hint Hfloat Hstr Hlist Htuple Hdict Hdtype Hobj.
  fix IH 1. intros [| b | z | q | s | l | l | kvs | n | r].
  - exact Hnone.
  - apply Hbool.
  - apply Hint.
  - apply Hfloat.
  - apply Hstr.
  - apply Hlist. induction l as [|x l IHl]; constructor; [apply IH | exact IHl].
  - apply Htuple. induction l as [|x l IHl]; constructor; [apply IH | exact IHl].
  - apply Hdict. induction kvs as [|[k x] kvs IHl]; constructor; [apply IH | exact IHl].
  - apply Hdtype.
  - apply Hobj.
Qed.

Lemma json_roundtrip_list (l : list PyVal) :
  json_roundtrip (VList l) = (l' <- map_res json_roundtrip l ;; Ok (VList l')).
Proof.
  cbn [json_roundtrip]. f_equal.
  induction l as [|x l IH]; [reflexivity|]. cbn [map_res]. now rewrite <- IH.
Qed.

Lemma json_roundtrip_tuple (l : list PyVal) :
  json_roundtrip (VTuple l) = (l' <- map_res json_roundtrip l ;; Ok (VList l')).
Proof.
  cbn [json_roundtrip]. f_equal.
  induction l as [|x l IH]; [reflexivity|]. cbn [map_res]. now rewrite <- IH.
Qed.

Lemma json_roundtrip_dict (kvs : list (string * PyVal)) :
  json_roundtrip (VDict kvs)
  = (kvs' <- map_res (fun kv => x' <- json_roundtrip (snd kv) ;; Ok (fst kv, x')) kvs ;;
     Ok (VDict kvs')).
Proof.
  cbn [json_roundtrip]. f_equal.
  induction kvs as [|[k x] l IH]; [reflexivity|]. cbn [map_res fst snd]. rewrite <- IH.
  destruct (json_roundtrip x); reflexivity.
Qed.

Lemma map_res_characterised {A B : Type} (f : A -> Res B) (foreign : A -> bool)
    (norm : A -> B) (e : Exc) (l : list A) :
  Forall (fun x => f x = if foreign x then Raise e else Ok (norm x)) l ->
  map_res f l = if existsb foreign l then Raise e else Ok (map norm l).
Proof.
  induction 1 as [|x l Hx Hl IH]; [reflexivity|].
  cbn [map_res existsb map]. rewrite Hx. destruct (foreign x); [reflexivity|].
  cbn [bind orb]. rewrite IH. now destruct (existsb foreign l).
Qed.

(** The round trip through JSON, in closed form. *)
Lemma json_roundtrip_closed_form (v : PyVal) :
  json_roundtrip v = if has_foreign v then Raise circular else Ok (normalize v).
Proof.
  induction v as [| b | z | q | s | l IH | l IH | kvs IH | n | r] using PyVal_nested_ind;
    try reflexivity.
  - rewrite json_roundtrip_list, (map_res_characterised _ has_foreign normalize circular l IH).
    cbn [has_foreign normalize]. now destruct (existsb has_foreign l).
  - rewrite json_roundtrip_tuple, (map_res_characterised _ has_foreign normalize circular l IH).
    cbn [has_foreign normalize]. now destruct (existsb has_foreign l).
  - rewrite json_roundtrip_dict.
    rewrite (map_res_characterised _ (fun kv => has_foreign (snd kv))
               (fun kv => (fst kv, normalize (snd kv))) circular kvs).
    + cbn [has_foreign normalize]. now destruct (existsb _ kvs).
    + apply Forall_impl with (2 := IH). intros [k x] Hx. cbn [fst snd] in *. rewrite Hx.
      now destruct (has_foreign x).
Qed.

Lemma normalize_native (v : PyVal) : has_foreign v = false -> json_native (normalize v) = true.
Proof.
  induction v as [| b | z | q | s | l IH | l IH | kvs IH | n | r] using PyVal_nested_ind;
    cbn [has_foreign normalize json_native]; try reflexivity; try discriminate.
  - intros Hf. rewrite forallb_forall. intros y Hy. apply in_map_iff in Hy as (x & <- & Hx).
    rewrite Forall_forall in IH. apply (IH x Hx).
    destruct (has_foreign x) eqn:E; [|reflexivity].
    assert (existsb has_foreign l = true) by (apply existsb_exists; eauto). congruence.
  - intros Hf. rewrite forallb_forall. intros y Hy. apply in_map_iff in Hy as (x & <- & Hx).
    rewrite Forall_forall in IH. apply (IH x Hx).
    destruct (has_foreign x) eqn:E; [|reflexivity].
    assert (existsb has_foreign l = true) by (apply existsb_exists; eauto). congruence.
  - intros Hf. rewrite forallb_forall. intros y Hy. apply in_map_iff in Hy as (x & <- & Hx).
    rewrite Forall_forall in IH. cbn [snd]. apply (IH x Hx).
    destruct (has_foreign (snd x)) eqn:E; [|reflexivity].
    assert (existsb (fun kv => has_foreign (snd kv)) kvs = true)
      by (apply existsb_exists; eauto). congruence.
Qed.

Lemma native_fixed (v : PyVal) :
  json_native v = true -> has_foreign v = false /\ normalize v = v.
Proof.
  induction v as [| b | z | q | s | l IH | l IH | kvs IH | n | r] using PyVal_nested_ind;
    cbn [has_foreign normalize json_native]; try (now split); try discriminate.
  - intros Hn. rewrite forallb_forall in Hn. rewrite Forall_forall in IH. split.
    + destruct (existsb has_foreign l) eqn:E; [|reflexivity].
      apply existsb_exists in E as (x & Hx & Hf).
      destruct (IH x Hx (Hn x Hx)) as [Hf' _]. congruence.
    + f_equal. rewrite <- (map_id l) at 2. apply map_ext_in.
      intros x Hx. now destruct (IH x Hx (Hn x Hx)).
  - intros Hn. rewrite forallb_forall in Hn. rewrite Forall_forall in IH. split.
    + destruct (existsb _ kvs) eqn:E; [|reflexivity].
      apply existsb_exists in E as (x & Hx & Hf).
      destruct (IH x Hx (Hn x Hx)) as [Hf' _]. congruence.
    + f_equal. rewrite <- (map_id kvs) at 2. apply map_ext_in.
      intros [k x] Hx. cbn [fst snd]. f_equal. now destruct (IH (k, x) Hx (Hn (k, x) Hx)).
Qed.

(** X22: what the normalisation returns is JSON-native, and normalising it
    again changes nothing. *)
Theorem json_roundtrip_native_and_idempotent (v v' : PyVal) :
  json_roundtrip v = Ok v' ->
  json_native v' = true /\ json_roundtrip v' = Ok v'.
Proof.
  rewrite json_roundtrip_closed_form. destruct (has_foreign v) eqn:Ef; [discriminate|].
  intros [= <-]. pose proof (normalize_native v Ef) as Hn. split; [exact Hn|].
  rewrite json_roundtrip_closed_form. destruct (native_fixed _ Hn) as [-> ->]. reflexivity.
Qed.
End JsonFacts.

Section MetadataFacts.
Context `{Keras}.
Import Json.

Lemma names_val_plain (l : list string) :
  has_foreign (names_val l) = false /\ normalize (names_val l) = names_val l.
Proof.
  unfold names_val. cbn [has_foreign normalize]. rewrite map_map. split.
  - induction l as [|x l IH]; [reflexivity | exact IH].
  - reflexivity.
Qed.

Lemma crosses_val_plain (l : list (string * string * nat)) :
  has_foreign (crosses_val l) = false /\ normalize (crosses_val l) = crosses_as_lists l.
Proof.
  unfold crosses_val, crosses_as_lists. cbn [has_foreign normalize]. rewrite map_map. split.
  - induction l as [|[[a b] n] l IH]; [reflexivity | exact IH].
  - f_equal. apply map_ext. now intros [[a b] n].
Qed.

Lemma metadata_block_closed_form (self : t) :
  json_roundtrip (VDict (get_feature_statistics self))
  = if has_foreign (stats_val (features_stats self))
    then Raise (ValueError "Circular reference detected")
    else Ok (VDict
               [ ("feature_statistics", normalize (stats_val (features_stats self)));
                 ("numeric_features", names_val (numeric_features self));
                 ("categorical_features", names_val (categorical_features self));
                 ("text_features", names_val (text_features self));
                 ("date_features", names_val (date_features self));
                 ("feature_crosses", crosses_as_lists (feature_crosses self));
                 ("output_mode", VStr (output_mode self)) ]).
Proof.
  rewrite json_roundtrip_closed_form. unfold get_feature_statistics.
  cbn [has_foreign normalize existsb map fst snd].
  destruct (names_val_plain (numeric_features self)) as [-> ->].
  destruct (names_val_plain (categorical_features self)) as [-> ->].
  destruct (names_val_plain (text_features self)) as [-> ->].
  destruct (names_val_plain (date_features self)) as [-> ->].
  destruct (crosses_val_plain (feature_crosses self)) as [-> ->].
  cbn [orb]. rewrite !orb_false_r.
  now destruct (has_foreign (stats_val (features_stats self))).
Qed.

(** X23: the metadata block [save_model] hands to Keras is not the block as
    it was assembled: whenever the normalisation returns, the block has the
    seven keys in order, the name lists and the output mode are unchanged,
    the statistics have their dtype objects replaced by names and their
    tuples by lists, and every feature cross is a list instead of a
    tuple. *)
Theorem metadata_block_normal_form (self : t) (stats_metadata : PyVal) :
  json_roundtrip (VDict (get_feature_statistics self)) = Ok stats_metadata ->
  stats_metadata
  = VDict [ ("feature_statistics", normalize (stats_val (features_stats self)));
            ("numeric_features", names_val (numeric_features self));
            ("categorical_features", names_val (categorical_features self));
            ("text_features", names_val (text_features self));
            ("date_features", names_val (date_features self));
            ("feature_crosses", crosses_as_lists (feature_crosses self));
            ("output_mode", VStr (output_mode self)) ].
Proof.
  rewrite metadata_block_closed_form.
  destruct (has_foreign (stats_val (features_stats self))); [discriminate|].
  now intros [= <-].
Qed.
End MetadataFacts.

Lemma metadata_block_normal_form_witness :
  match json_roundtrip (VDict (get_feature_statistics JsonSamples.crossed_with_stats)) with
  | Ok stats_metadata =>
      Dict.get (match stats_metadata with VDict d => d | _ => [] end) "feature_crosses"
      = Some (VList [ VList [VStr "age"; VStr "city"; VInt 10] ])
  | Raise _ => False
  end.
Proof.
  destruct (json_roundtrip (VDict (get_feature_statistics JsonSamples.crossed_with_stats)))
    as [stats_metadata|e] eqn:E.
  - rewrite (metadata_block_normal_form (H := Scenario.backend)
               JsonSamples.crossed_with_stats stats_metadata E).
    vm_compute. reflexivity.
  - vm_compute in E. discriminate E.
Defined.

Lemma json_roundtrip_native_and_idempotent_witness :
  Json.json_native
    (VDict [ ("age", VDict [ ("mean", VFloat (61 # 2)%Q); ("dtype", VStr "float32") ]);
             ("pairs", VList [ VList [VStr "a"; VInt 1]; VNone ]) ]) = true
  /\ json_roundtrip
       (VDict [ ("age", VDict [ ("mean", VFloat (61 # 2)%Q); ("dtype", VStr "float32") ]);
                ("pairs", VList [ VList [VStr "a"; VInt 1]; VNone ]) ])
     = Ok (VDict [ ("age", VDict [ ("mean", VFloat (61 # 2)%Q); ("dtype", VStr "float32") ]);
                   ("pairs", VList [ VList [VStr "a"; VInt 1]; VNone ]) ]).
Proof.
  apply (json_roundtrip_native_and_idempotent JsonSamples.with_dtypes). reflexivity.
Defined.


(** ** The memo and the cleanup *)

Section MemoFacts.
Context {T : Type}.
Import Runtime.

(** X24: with caching on, what a call of the memo returns for a name is
    what every later call for that name returns, whatever processor it is
    given (one that would raise included), and the later call changes
    nothing. *)
Theorem memo_serves_cached_value (self self1 : Transient T) (feature_name : string)
    (processor_fn other_fn : Res T) (v : T) :
  use_caching self = true ->
  _get_cached_or_process self feature_name processor_fn = Ok (v, self1) ->
  _get_cached_or_process self1 feature_name other_fn = Ok (v, self1).
Proof.
  unfold _get_cached_or_process, not_in_cache. intros Hc. rewrite Hc. cbn [negb].
  destruct (_preprocessed_cache self) as [c|] eqn:Ec; [|discriminate].
  cbn [bind]. unfold Dict.contains, Dict.getitem.
  destruct (Dict.get c feature_name) as [cached|] eqn:Eg; cbn [negb bind].
  - intros [= <- <-]. rewrite Hc, Ec. cbn [negb bind]. now rewrite Eg.
  - destruct processor_fn as [processed|e]; [|discriminate]. cbn [bind].
    intros [= <- <-]. cbn. rewrite Hc. cbn. now rewrite get_set_same.
Qed.

(** X25: after the cleanup nothing is served from the memo and the
    transient lists are gone: the next call for any name runs its
    processor, fails if the processor fails, and with caching on leaves a
    cache that holds that one name. *)
Theorem cleanup_empties_memo (self : Transient T) (feature_name : string)
    (processor_fn : Res T) :
  (use_caching self = true -> _preprocessed_cache self <> None) ->
  features_to_concat (_cleanup_intermediate_tensors self) = None
  /\ features_cat_to_concat (_cleanup_intermediate_tensors self) = None
  /\ _get_cached_or_process (_cleanup_intermediate_tensors self) feature_name processor_fn
     = match processor_fn with
       | Ok processed =>
           Ok (processed,
               if use_caching self
               then set_cache (_cleanup_intermediate_tensors self)
                              (Some [(feature_name, processed)])
               else _cleanup_intermediate_tensors self)
       | Raise e => Raise e
       end.
Proof.
  intros Hinv. split; [reflexivity|]. split; [reflexivity|].
  unfold _get_cached_or_process, not_in_cache, _cleanup_intermediate_tensors. cbn.
  destruct (use_caching self) eqn:Hc; cbn.
  - destruct (_preprocessed_cache self) as [[|kv c]|]; [| |now destruct (Hinv eq_refl)];
      cbn; destruct processor_fn; reflexivity.
  - destruct processor_fn; reflexivity.
Qed.
End MemoFacts.

Lemma memo_serves_cached_value_witness :
  Runtime._get_cached_or_process
    (Runtime.mkTransient true (Some [("age", 7)]) None None) "age"
    (Raise (ValueError "never called"))
  = Ok (7, Runtime.mkTransient true (Some [("age", 7)]) None None).
Proof.
  apply (memo_serves_cached_value (Runtime.init_transient true) _ "age" (Ok 7)).
  - reflexivity.
  - reflexivity.
Defined.

Lemma cleanup_empties_memo_witness :
  Runtime._get_cached_or_process
    (Runtime._cleanup_intermediate_tensors RuntimeSamples.cached_age) "age" (Ok 9)
  = Ok (9, Runtime.mkTransient true (Some [("age", 9)]) None None).
Proof.
  destruct (cleanup_empties_memo RuntimeSamples.cached_age "age" (Ok 9)) as (_ & _ & Hr).
  - intros _. discriminate.
  - exact Hr.
Defined.


(** ** Batch prediction *)

Section PredictFacts.
Context {B P M : Type}.
Variable predict : M -> B -> Res P.
Variable completion : list (Res P) -> list (Res P).
Hypothesis completion_permutes : forall l, Permutation (completion l) l.
Import Runtime.

Lemma map_res_app {X Y : Type} (f : X -> Res Y) (l1 l2 : list X) (ys : list Y) :
  map_res f (l1 ++ l2) = Ok ys ->
  exists ys1 ys2, map_res f l1 = Ok ys1 /\ map_res f l2 = Ok ys2 /\ ys = ys1 ++ ys2.
Proof.
  revert ys. induction l1 as [|x l1 IH]; intros ys Hr.
  - exists [], ys. now repeat split.
  - simpl in Hr. apply bind_ok in Hr as (y & Hy & Hr). apply bind_ok in Hr as (ys' & Hys & Hr).
    injection Hr as <-. destruct (IH ys' Hys) as (ys1 & ys2 & H1 & H2 & ->).
    exists (y :: ys1), ys2. simpl. rewrite Hy, H1. cbn [bind]. now repeat split.
Qed.

Lemma map_res_map_ok {X Y : Type} (f : X -> Res Y) (l : list X) (ys : list Y) :
  map_res f l = Ok ys -> map f l = map Ok ys.
Proof.
  revert ys. induction l as [|x l IH]; intros ys Hr.
  - simpl in Hr. now injection Hr as <-.
  - simpl in Hr. apply bind_ok in Hr as (y & Hy & Hr). apply bind_ok in Hr as (ys' & Hys & Hr).
    injection Hr as <-. simpl. now rewrite Hy, (IH ys' Hys).
Qed.

Lemma map_res_of_oks {Y : Type} (ys : list Y) : map_res (fun r : Res Y => r) (map Ok ys) = Ok ys.
Proof. induction ys as [|y ys IH]; [reflexivity|]. simpl. now rewrite IH. Qed.

Lemma map_res_with_failure {Y : Type} (l : list (Res Y)) (e : Exc) :
  In (Raise e) l ->
  exists e', map_res (fun r : Res Y => r) l = Raise e' /\ In (Raise e') l.
Proof.
  induction l as [|[y|e0] l IH]; intros Hin; [contradiction| |].
  - destruct Hin as [Hd|Hin]; [discriminate|].
    destruct (IH Hin) as (e' & He & Hin'). exists e'. simpl. rewrite He. split; [reflexivity|].
    now right.
  - exists e0. split; [reflexivity | now left].
Qed.

(** One chunk whose predictions all succeed: the pool returns them in some
    order. *)
Lemma chunk_permutation (model : M) (batches : list B) (ps : list P) :
  map_res (predict model) batches = Ok ps ->
  exists ys, _predict_batch_parallel predict completion batches model = Ok ys
             /\ Permutation ys ps.
Proof.
  intros Hr. unfold _predict_batch_parallel. rewrite (map_res_map_ok _ _ _ Hr).
  destruct (Permutation_map_inv Ok ps (completion_permutes (map Ok ps)))
    as (ys & Hys & Hperm).
  exists ys. rewrite Hys. split; [apply map_res_of_oks | now symmetry].
Qed.

Lemma parallel_loop_permutation (model : M) (_batch_size : nat) (data batches : list B)
    (ps : list P) :
  map_res (predict model) (batches ++ data) = Ok ps ->
  exists ys, parallel_loop predict completion model _batch_size data batches = (ys, None)
             /\ Permutation ys ps.
Proof.
  revert batches ps. induction data as [|b data IH]; intros batches ps Hr.
  - rewrite app_nil_r in Hr. cbn [parallel_loop].
    destruct batches as [|b0 rest].
    + simpl in Hr. injection Hr as <-. now exists [].
    + destruct (chunk_permutation model _ ps Hr) as (ys & Hys & Hperm).
      unfold flush. rewrite Hys. exists (ys ++ []). split; [reflexivity|].
      now rewrite app_nil_r.
  - cbn [parallel_loop].
    replace (batches ++ b :: data) with ((batches ++ [b]) ++ data) in Hr
      by now rewrite <- app_assoc.
    destruct (Nat.leb _batch_size (List.length (batches ++ [b]))).
    + destruct (map_res_app _ _ _ _ Hr) as (ps1 & ps2 & H1 & H2 & ->).
      destruct (chunk_permutation model _ ps1 H1) as (ys1 & Hys1 & Hperm1).
      destruct (IH [] ps2 H2) as (ys2 & Hys2 & Hperm2).
      unfold flush. rewrite Hys1, Hys2. exists (ys1 ++ ys2). split; [reflexivity|].
      now apply Permutation_app.
    + now apply IH.
Qed.

Lemma sequential_loop_exact (model : M) (data : list B) (ps : list P) :
  map_res (predict model) data = Ok ps -> sequential_loop predict model data = (ps, None).
Proof.
  revert ps. induction data as [|b data IH]; intros ps Hr.
  - simpl in Hr. now injection Hr as <-.
  - simpl in Hr. apply bind_ok in Hr as (p & Hp & Hr). apply bind_ok in Hr as (ps' & Hps & Hr).
    injection Hr as <-. cbn [sequential_loop]. now rewrite Hp, (IH ps' Hps).
Qed.

(** X26: when every batch can be predicted, sequential batch prediction
    yields the predictions in input order, one per batch, and parallel
    batch prediction yields a rearrangement of the same predictions,
    whatever the chunk size; neither ends in an error. *)
Theorem batch_predict_parallel_is_a_rearrangement (self_model : option M)
    (self_batch_size : nat) (data : list B) (model : M) (batch_size : option nat)
    (ps : list P) :
  map_res (predict model) data = Ok ps ->
  batch_predict predict completion self_model self_batch_size data (Some model)
                batch_size false = (ps, None)
  /\ exists ys,
       batch_predict predict completion self_model self_batch_size data (Some model)
                     batch_size true = (ys, None)
       /\ Permutation ys ps.
Proof.
  intros Hr. unfold batch_predict. split.
  - now apply sequential_loop_exact.
  - now apply parallel_loop_permutation.
Qed.

Lemma parallel_loop_chunks_of_one (model : M) (_batch_size : nat) (data : list B) :
  _batch_size <= 1 ->
  parallel_loop predict completion model _batch_size data []
  = sequential_loop predict model data.
Proof.
  intros Hb. induction data as [|b data IH]; [reflexivity|].
  cbn [parallel_loop sequential_loop].
  change ([] ++ [b]) with [b]. change (Datatypes.length [b]) with 1.
  replace (Nat.leb _batch_size 1) with true by (symmetry; now apply Nat.leb_le).
  unfold flush, _predict_batch_parallel. cbn [map].
  rewrite (Permutation_length_1_inv (Permutation_sym (completion_permutes [predict model b]))).
  cbn [map_res]. rewrite IH.
  destruct (predict model b) as [p|e]; reflexivity.
Qed.

(** X27: with a chunk size of one (or an object batch size of at most one
    to fall back on) parallel batch prediction is sequential batch
    prediction: the same predictions in the same order, ending in the same
    error if a batch fails. *)
Theorem batch_predict_chunks_of_one (self_model : option M) (self_batch_size : nat)
    (data : list B) (model : option M) (batch_size : option nat) :
  match batch_size with
  | Some (S n) => n = 0
  | _ => self_batch_size <= 1
  end ->
  batch_predict predict completion self_model self_batch_size data model batch_size true
  = batch_predict predict completion self_model self_batch_size data model batch_size false.
Proof.
  intros Hb. unfold batch_predict.
  destruct (match model with Some m => Ok m | None => getattr self_model "model" end)
    as [m|e]; [|reflexivity].
  apply parallel_loop_chunks_of_one.
  destruct batch_size as [[|n]|]; [exact Hb | subst; constructor | exact Hb].
Qed.

Lemma parallel_loop_single_chunk (model : M) (_batch_size : nat) (data batches : list B) :
  batches ++ data <> [] ->
  List.length (batches ++ data) <= _batch_size ->
  parallel_loop predict completion model _batch_size data batches
  = flush predict completion (batches ++ data) model ([], None).
Proof.
  revert batches. induction data as [|b data IH]; intros batches Hne Hlen.
  - rewrite app_nil_r in *. cbn [parallel_loop]. destruct batches; [contradiction|reflexivity].
  - cbn [parallel_loop].
    replace (batches ++ b :: data) with ((batches ++ [b]) ++ data) in *
      by now rewrite <- app_assoc.
    destruct (Nat.leb _batch_size (List.length (batches ++ [b]))) eqn:E.
    + apply Nat.leb_le in E. rewrite length_app in Hlen.
      destruct data as [|b' data]; [|simpl in Hlen; lia].
      now rewrite app_nil_r.
    + apply IH; [|exact Hlen]. destruct batches; discriminate.
Qed.

(** X28: in parallel mode a chunk is all or nothing: when the whole data
    fits one chunk and one batch of it cannot be predicted, nothing is
    yielded at all and the generator ends with the error of a failing
    batch, whereas sequential mode would have yielded the predictions
    before the first failure. *)
Theorem batch_predict_failing_chunk_yields_nothing (self_model : option M)
    (self_batch_size : nat) (data : list B) (model : M) (n : nat) (b : B) (e : Exc) :
  List.length data <= S n ->
  In b data ->
  predict model b = Raise e ->
  exists e' b',
    batch_predict predict completion self_model self_batch_size data (Some model)
                  (Some (S n)) true = ([], Some e')
    /\ In b' data /\ predict model b' = Raise e'.
Proof.
  intros Hlen Hin Hb. unfold batch_predict.
  rewrite (parallel_loop_single_chunk model (S n) data []);
    [|intros E; simpl in E; subst data; contradiction | exact Hlen].
  change ([] ++ data) with data. unfold flush, _predict_batch_parallel.
  assert (Hfail : In (Raise e) (completion (map (predict model) data))).
  { apply (Permutation_in _ (Permutation_sym (completion_permutes _))).
    apply in_map_iff. now exists b. }
  destruct (map_res_with_failure _ e Hfail) as (e' & He' & Hin').
  rewrite He'. exists e'.
  apply (Permutation_in _ (completion_permutes _)) in Hin'.
  apply in_map_iff in Hin' as (b' & Hb' & Hin'). now exists b'.
Qed.
End PredictFacts.

Lemma rev_permutes : forall l : list (Res nat), Permutation (List.rev l) l.
Proof. intros l. symmetry. apply Permutation_rev. Defined.

Lemma batch_predict_parallel_is_a_rearrangement_witness :
  Runtime.batch_predict RuntimeSamples.double_even (@List.rev (Res nat)) None 2 [0; 2; 4; 6; 8]
    (Some tt) None false = ([0; 4; 8; 12; 16], None)
  /\ exists ys,
       Runtime.batch_predict RuntimeSamples.double_even (@List.rev (Res nat)) None 2 [0; 2; 4; 6; 8]
         (Some tt) None true = (ys, None)
       /\ Permutation ys [0; 4; 8; 12; 16].
Proof.
  apply (batch_predict_parallel_is_a_rearrangement RuntimeSamples.double_even
           (@List.rev (Res nat)) rev_permutes None 2 [0; 2; 4; 6; 8] tt None).
  reflexivity.
Defined.

Lemma batch_predict_chunks_of_one_witness :
  Runtime.batch_predict RuntimeSamples.double_even (@List.rev (Res nat)) None 50 [0; 2; 3; 4]
    (Some tt) (Some 1) true
  = Runtime.batch_predict RuntimeSamples.double_even (@List.rev (Res nat)) None 50 [0; 2; 3; 4]
      (Some tt) (Some 1) false.
Proof.
  apply (batch_predict_chunks_of_one RuntimeSamples.double_even (@List.rev (Res nat)) rev_permutes
           None 50 [0; 2; 3; 4] (Some tt) (Some 1)).
  reflexivity.
Defined.

Lemma batch_predict_failing_chunk_yields_nothing_witness :
  exists e' b',
    Runtime.batch_predict RuntimeSamples.double_even (@List.rev (Res nat)) None 50 [0; 2; 3; 4]
      (Some tt) (Some 4) true = ([], Some e')
    /\ In b' [0; 2; 3; 4] /\ RuntimeSamples.double_even tt b' = Raise e'.
Proof.
  apply (batch_predict_failing_chunk_yields_nothing RuntimeSamples.double_even
           (@List.rev (Res nat)) rev_permutes None 50 [0; 2; 3; 4] tt 3 3
           (ValueError "odd batch")).
  - simpl. lia.
  - right; right; left; reflexivity.
  - reflexivity.
Defined.


(** ** Building: statistics and placeholders *)

Section BuildFacts.
Import Slots.
Context `{Keras} `{FeatureDefaults}.

Lemma set_not_empty {K V : Type} `{DictKey K} (d : dict K V) (k : K) (v : V) :
  Dict.set d k v <> [].
Proof. destruct d as [|[k' v'] d]; simpl; [discriminate|]. destruct (keq k k'); discriminate. Qed.

Lemma init_features_specs_not_empty (specs : dict string FeatureSpaceConverter.Spec)
    (self fsc : FeatureSpaceConverter.t) :
  FeatureSpaceConverter._init_features_specs self specs = Ok fsc ->
  FeatureSpaceConverter.features_space self <> [] \/ specs <> [] ->
  FeatureSpaceConverter.features_space fsc <> [].
Proof.
  revert self. induction specs as [|[n sp] rest IH]; intros self Hr Hne.
  - simpl in Hr. injection Hr as <-. destruct Hne as [Hne|Hne]; [exact Hne | contradiction].
  - simpl in Hr. apply bind_ok in Hr as (self1 & H1 & Hr).
    apply (IH self1 Hr). left.
    destruct (Declared.declared_class sp) as [c|] eqn:Ec.
    + destruct (convert_one_declared self n sp c Ec) as (s1 & f & Hs1 & Hsp & _).
      rewrite Hs1 in H1. injection H1 as <-. rewrite Hsp. apply set_not_empty.
    + rewrite (convert_one_undeclared self n sp Ec) in H1. discriminate.
Qed.

(** X29: a model constructed with statistics passed in and
    [overwrite_stats] set cannot be built: the statistics collaborator is
    only created when no statistics are passed, so the build stops with the
    [ValueError] about the missing [stats_instance] before any feature is
    processed. *)
Theorem overwrite_stats_with_supplied_statistics_fails
    (group : string * dict string Stats) (groups : FeaturesStats)
    (feature_crosses : option (list (string * string * nat)))
    (output_mode : string)
    (entry : string * FeatureSpaceConverter.Spec)
    (entries : dict string FeatureSpaceConverter.Spec)
    (transfo_nr_blocks : option nat) (transfo_nr_heads transfo_ff_units : nat)
    (transfo_dropout_rate : Q) (transfo_placement : string) (ds : DatasetStatistics)
    (pm : t) :
  __init__ (Some (group :: groups)) feature_crosses output_mode true (Some (entry :: entries))
    transfo_nr_blocks transfo_nr_heads transfo_ff_units transfo_dropout_rate
    transfo_placement ds = Ok pm ->
  build_preprocessor pm
  = Raise (ValueError "stats_instance not initialized. Cannot calculate features stats.").
Proof.
  unfold __init__. intros Hinit. cbn [bind] in Hinit.
  apply bind_ok in Hinit as (fsc & Hfsc & Hinit). injection Hinit as <-.
  assert (Hne : FeatureSpaceConverter.features_space fsc <> [])
    by (apply (init_features_specs_not_empty _ _ _ Hfsc); right; discriminate).
  unfold build_preprocessor. cbn.
  destruct (FeatureSpaceConverter.features_space fsc); [contradiction | reflexivity].
Qed.

Lemma run_task_names (kind : GroupKind) (self self' : t) (task : string * Tensor * Stats) :
  run_task kind self task = Ok self' ->
  text_features self' = text_features self /\ date_features self' = date_features self.
Proof.
  destruct task as [[n input_layer] st]. destruct kind; cbn [run_task].
  - unfold _add_pipeline_numeric. intros Hr. apply bind_ok in Hr as (p & _ & Hr).
    now inversion Hr.
  - unfold _add_pipeline_categorical. intros Hr. apply bind_ok in Hr as (p & _ & Hr).
    now inversion Hr.
  - unfold _add_pipeline_text. intros Hr.
    apply bind_ok in Hr as (f & _ & Hr). apply bind_ok in Hr as (vocab & _ & Hr).
    apply bind_ok in Hr as ([s1 p] & Hs1 & Hr).
    assert (Hframe : text_features s1 = text_features self
                     /\ date_features s1 = date_features self).
    { destruct (has_custom_steps f).
      - apply bind_ok in Hs1 as (p' & _ & Hs1). now inversion Hs1.
      - apply bind_ok in Hs1 as (p1 & _ & Hs1).
        destruct (Dict.contains (kwargs f) "output_sequence_length");
          apply bind_ok in Hs1 as (p2 & _ & Hs1); apply bind_ok in Hs1 as (p3 & _ & Hs1);
          now inversion Hs1. }
    destruct (String.eqb (output_mode s1) CONCAT); inversion Hr; subst; exact Hframe.
  - unfold _add_pipeline_date. intros Hr.
    apply bind_ok in Hr as (f & _ & Hr). apply bind_ok in Hr as (p & _ & Hr).
    now inversion Hr.
Qed.

Lemma string_slots_after_setup (self : t) (n m : string) :
  let s0 := _add_input_signature (_add_input_column self (KName m) tf_string) m tf_string in
  string_slots s0 m /\ (string_slots self n -> string_slots s0 n).
Proof.
  intros s0. unfold string_slots.
  change (inputs s0) with (Dict.set (inputs self) (KName m) (Input [1] (KName m) tf_string)).
  change (signature s0)
    with (Dict.set (signature self) m (mkTensorSpec [None; Some 1] tf_string m)).
  split; [split; apply get_set_same|].
  intros [Hi Hs]. destruct (String.eqb_spec n m) as [->|Hne].
  - split; apply get_set_same.
  - rewrite !get_set_other; [now split | now apply String.eqb_neq |].
    simpl. now apply String.eqb_neq.
Qed.

Lemma string_slots_ext (s s' : t) (n : string) :
  inputs s' = inputs s -> signature s' = signature s ->
  string_slots s n -> string_slots s' n.
Proof. unfold string_slots. intros -> ->. exact (fun h => h). Qed.

Lemma build_text_slots (self self' : t) (m : string) :
  build_text self m = Ok self' ->
  text_features self' = text_features self /\ date_features self' = date_features self
  /\ string_slots self' m /\ forall n, string_slots self n -> string_slots self' n.
Proof.
  unfold build_text. cbv zeta.
  set (s0 := _add_input_signature (_add_input_column self (KName m) tf_string) m tf_string).
  intros Hr. apply bind_ok in Hr as (il & _ & Hr). apply bind_ok in Hr as (g & _ & Hr).
  match type of Hr with
  | _add_pipeline_text ?s1 _ _ ?st = _ =>
      pose proof (run_task_names text s1 self' (m, il, st) Hr) as [Ht Hd];
      pose proof (run_task_inputs text s1 self' (m, il, st) Hr) as [Hi Hs];
      assert (E : text_features s1 = text_features self /\ date_features s1 = date_features self
                  /\ inputs s1 = inputs s0 /\ signature s1 = signature s0)
        by (destruct (Dict.contains (features_stats s0) "text"); now repeat split)
  end.
  destruct E as (Et & Ed & Ei & Es).
  rewrite Ei in Hi. rewrite Es in Hs.
  split; [now rewrite Ht | split; [now rewrite Hd | split]].
  - apply (string_slots_ext s0 self' m Hi Hs).
    exact (proj1 (string_slots_after_setup self m m)).
  - intros n Hn. apply (string_slots_ext s0 self' n Hi Hs).
    exact (proj2 (string_slots_after_setup self n m) Hn).
Qed.

Lemma build_date_slots (self self' : t) (m : string) :
  build_date self m = Ok self' ->
  text_features self' = text_features self /\ date_features self' = date_features self
  /\ string_slots self' m /\ forall n, string_slots self n -> string_slots self' n.
Proof.
  unfold build_date. cbv zeta.
  set (s0 := _add_input_signature (_add_input_column self (KName m) tf_string) m tf_string).
  intros Hr. apply bind_ok in Hr as (il & _ & Hr).
  pose proof (run_task_names date s0 self' (m, il, []) Hr) as [Ht Hd].
  pose proof (run_task_inputs date s0 self' (m, il, []) Hr) as [Hi Hs].
  split; [exact Ht | split; [exact Hd | split]].
  - apply (string_slots_ext s0 self' m Hi Hs).
    exact (proj1 (string_slots_after_setup self m m)).
  - intros n Hn. apply (string_slots_ext s0 self' n Hi Hs).
    exact (proj2 (string_slots_after_setup self n m) Hn).
Qed.

Lemma loop_slots (step : t -> string -> Res t) (names : list string) (self self' : t) :
  (forall s s' m, step s m = Ok s' ->
     text_features s' = text_features s /\ date_features s' = date_features s
     /\ string_slots s' m /\ forall n, string_slots s n -> string_slots s' n) ->
  fold_res step names self = Ok self' ->
  text_features self' = text_features self /\ date_features self' = date_features self
  /\ (forall n, In n names -> string_slots self' n)
  /\ (forall n, string_slots self n -> string_slots self' n).
Proof.
  intros Hstep. revert self. induction names as [|m rest IH]; intros self Hr.
  - simpl in Hr. injection Hr as <-.
    split; [reflexivity | split; [reflexivity | split]].
    + intros n [].
    + intros n Hn. exact Hn.
  - cbn [fold_res] in Hr. apply bind_ok in Hr as (s1 & H1 & Hr).
    destruct (Hstep _ _ _ H1) as (Ht1 & Hd1 & Hm & Hkeep1).
    destruct (IH s1 Hr) as (Ht & Hd & Hin & Hkeep).
    rewrite Ht, Hd, Ht1, Hd1.
    split; [reflexivity | split; [reflexivity | split]].
    + intros n [<-|Hn]; [now apply Hkeep | now apply Hin].
    + intros n Hn. now apply Hkeep, Hkeep1.
Qed.

Lemma prepare_outputs_slots (self self' : t) :
  _prepare_outputs self = Ok self' ->
  text_features self' = text_features self /\ date_features self' = date_features self
  /\ inputs self' = inputs self /\ signature self' = signature self.
Proof.
  unfold _prepare_outputs. destruct (String.eqb (output_mode self) CONCAT); intros Hr.
  - apply bind_ok in Hr as (c & _ & Hr). now inversion Hr.
  - now inversion Hr.
Qed.

(** X30: in a model that was built, every declared text feature and every
    declared date feature has a placeholder of shape [(1,)] and a signature
    of shape [(None, 1)] of dtype [tf.string] under its name, in what the
    build returns, whatever dtype its statistics record gave. *)
Theorem built_text_and_date_inputs_are_strings (self self' : t) (r : BuildResult)
    (feature_name : string) :
  build_preprocessor self = Ok (self', r) ->
  In feature_name (text_features self' ++ date_features self') ->
  Dict.get (r_inputs r) (KName feature_name)
  = Some (Input [1] (KName feature_name) tf_string)
  /\ Dict.get (r_signature r) feature_name
     = Some (mkTensorSpec [None; Some 1] tf_string feature_name).
Proof.
  unfold build_preprocessor. intros Hr Hin.
  apply bind_ok in Hr as (u & _ & Hr).
  apply bind_ok in Hr as (s1 & _ & Hr).
  apply bind_ok in Hr as (s2 & _ & Hr).
  apply bind_ok in Hr as (s3 & _ & Hr).
  apply bind_ok in Hr as (s4 & Hs4 & Hr).
  apply bind_ok in Hr as (s5 & Hs5 & Hr).
  apply bind_ok in Hr as (s6 & Hs6 & Hr).
  apply bind_ok in Hr as (mo & _ & Hr).
  injection Hr as <- <-.
  destruct (loop_slots build_text _ _ _ build_text_slots Hs4) as (Ht4 & Hd4 & Hin4 & _).
  destruct (loop_slots build_date _ _ _ build_date_slots Hs5) as (Ht5 & Hd5 & Hin5 & Hkeep5).
  destruct (prepare_outputs_slots _ _ Hs6) as (Ht6 & Hd6 & Hi6 & Hg6).
  assert (Hin' : In feature_name (text_features s3 ++ date_features s4)).
  { rewrite <- Ht4, <- Ht5, <- Hd5, <- Ht6, <- Hd6. exact Hin. }
  assert (Hslots : string_slots s6 feature_name).
  { apply (string_slots_ext s5 s6 feature_name Hi6 Hg6).
    apply in_app_iff in Hin' as [Hn|Hn].
    - apply Hkeep5, Hin4, Hn.
    - apply Hin5, Hn. }
  exact Hslots.
Qed.
End BuildFacts.

Lemma overwrite_stats_with_supplied_statistics_fails_witness :
  match __init__ (H := Scenario.backend) (H0 := Symbolic.SampleDefaults)
          (Some Scenario.stats_age_city) None CONCAT true (Some Scenario.specs_age_city)
          None 3 16 (1 # 4)%Q PLACEMENT_CATEGORICAL Scenario.no_collaborator with
  | Ok pm =>
      build_preprocessor (H0 := Symbolic.SampleDefaults) pm
      = Raise (ValueError "stats_instance not initialized. Cannot calculate features stats.")
  | Raise _ => False
  end.
Proof.
  destruct (__init__ (H := Scenario.backend) (H0 := Symbolic.SampleDefaults)
              (Some Scenario.stats_age_city) None CONCAT true (Some Scenario.specs_age_city)
              None 3 16 (1 # 4)%Q PLACEMENT_CATEGORICAL Scenario.no_collaborator)
    as [pm|e] eqn:E.
  - exact (overwrite_stats_with_supplied_statistics_fails _ _ _ _ _ _ _ _ _ _ _ _ _ E).
  - vm_compute in E. discriminate E.
Defined.

Lemma built_text_and_date_inputs_are_strings_witness :
  match build_preprocessor (H0 := Symbolic.SampleDefaults) BuildSamples.note_and_when with
  | Ok (_, r) =>
      Dict.get (r_inputs r) (KName "note")
      = Some (Symbolic.SInput [1] (KName "note") tf_string)
      /\ Dict.get (r_signature r) "note" = Some (mkTensorSpec [None; Some 1] tf_string "note")
  | Raise _ => False
  end.
Proof.
  destruct (build_preprocessor (H0 := Symbolic.SampleDefaults) BuildSamples.note_and_when)
    as [[pm' r]|e] eqn:E.
  - apply (built_text_and_date_inputs_are_strings (H := Scenario.backend)
             (H0 := Symbolic.SampleDefaults) BuildSamples.note_and_when pm' r "note" E).
    vm_compute in E. injection E as <- _. vm_compute. now left.
  - vm_compute in E. discriminate E.
Defined.
